(** * Chaos-engineering core: CPU stress executor and orchestrator

    A shallow embedding of
    [chaos-engineering/experiments/cpu_stress.py] (the CPU stress
    executor with its worker pool) and of the two orchestration entry
    points of [chaos-engineering/framework/app.py]
    ([start_experiment] and [execute_experiment]).

    Python objects become records, [self] becomes an explicit state, and
    every [async def] becomes a computation in a small state-and-exception
    monad.  Collaborators that live outside the two files (psutil, the
    safety controller, the metrics collector, the OS process table) are
    oracles collected in an environment record; what they are asked and
    in which order is kept in an event trace. *)

From Stdlib Require Import ZArith QArith Qabs String List Lia DecimalString.
From stdpp Require Import base option list gmap strings.

Local Open Scope string_scope.
Local Open Scope list_scope.
Local Open Scope Z_scope.

(** ** Python values shared by both files *)

(** Exceptions are identified by their class and carry what [str(e)]
    prints.  Only subclasses of [Exception] are modelled: these are what
    the collaborators raise and what [except Exception] catches. *)
Inductive PyExn : Type :=
| Exception (msg : string)
| TypeError (msg : string)
| OSError (msg : string)
| AttributeError (msg : string)
| HTTPException (status_code : Z) (detail : string).

(** How a call ends: it returns, it raises, or the loop bound given to
    the model was too small to reach either. *)
Inductive Outcome (A : Type) : Type :=
| Return (a : A)
| Raise (e : PyExn)
| OutOfFuel.
Arguments Return {A} a.
Arguments Raise {A} e.
Arguments OutOfFuel {A}.

(** [str(n)] for a Python integer. *)
Definition str_int (n : Z) : string := NilZero.string_of_int (Z.to_int n).

(** [str(e)]: the message of a built-in exception raised with one
    argument; for an [HTTPException] the status code, a colon and the
    detail. *)
Definition str_exn (e : PyExn) : string :=
  match e with
  | Exception m | TypeError m | OSError m | AttributeError m => m
  | HTTPException c d => str_int c +:+ ": " +:+ d
  end.

(** [f"{x:.1f}"] for a finite float, taken as the rational it denotes:
    correctly rounded to one decimal, ties to even. *)
Definition round_half_even (x : Q) : Z :=
  let n := Qnum x in
  let d := Zpos (Qden x) in
  let q := n / d in
  let r := n mod d in
  if 2 * r <? d then q
  else if d <? 2 * r then q + 1
  else if Z.even q then q else q + 1.

Definition format_1f (x : Q) : string :=
  let t := round_half_even (Qabs x * 10) in
  (if Qnum x <? 0 then "-" else "") +:+ str_int (t / 10) +:+ "." +:+ str_int (t mod 10).

Definition Qgtb (x y : Q) : bool := negb (Qle_bool x y).

(** ** The monad of method bodies

    A computation over a state [S] either returns, raises or runs out of
    loop fuel, and leaves a state behind in each case. *)

Definition PyM (S A : Type) : Type := S -> Outcome A * S.

Section Monad.
Context {S : Type}.

Definition ret {A} (a : A) : PyM S A := fun s => (Return a, s).
Definition raise {A} (e : PyExn) : PyM S A := fun s => (Raise e, s).
Definition out_of_fuel {A} : PyM S A := fun s => (OutOfFuel, s).
Definition bind {A B} (m : PyM S A) (k : A -> PyM S B) : PyM S B :=
  fun s => match m s with
           | (Return a, s') => k a s'
           | (Raise e, s') => (Raise e, s')
           | (OutOfFuel, s') => (OutOfFuel, s')
           end.
Definition get : PyM S S := fun s => (Return s, s).
Definition put (s : S) : PyM S unit := fun _ => (Return tt, s).
Definition modify (f : S -> S) : PyM S unit := fun s => (Return tt, f s).

(** [try: m except Exception as e: h e]. *)
Definition try_except {A} (m : PyM S A) (h : PyExn -> PyM S A) : PyM S A :=
  fun s => match m s with
           | (Raise e, s') => h e s'
           | r => r
           end.
(** [try: m finally: f]; an exception raised by [f] replaces what [m]
    ended with. *)
Definition try_finally {A} (m : PyM S A) (f : PyM S unit) : PyM S A :=
  fun s => match m s with
           | (OutOfFuel, s') => (OutOfFuel, s')
           | (r, s') =>
               match f s' with
               | (Return _, s'') => (r, s'')
               | (Raise e, s'') => (Raise e, s'')
               | (OutOfFuel, s'') => (OutOfFuel, s'')
               end
           end.
(** [if b: m] without an [else]. *)
Definition when (b : bool) (m : PyM S unit) : PyM S unit :=
  if b then m else ret tt.

End Monad.

#[global] Instance M_ret {S} : MRet (PyM S) := @ret S.
#[global] Instance M_bind {S} : MBind (PyM S) := fun A B k m => bind m k.

(** ** cpu_stress.py *)

Module CPUStress.

(** [CPUStressConfig] (the [target_pids] field is never read). *)
Record CPUStressConfig : Type := {
  cpu_percent : Z;
  duration : Z;
  workers : option Z
}.

Definition default_config : CPUStressConfig :=
  {| cpu_percent := 80; duration := 60; workers := None |}.

(** An OS process started by [multiprocessing.Process.start].
    [p_alive] is what [is_alive()] answers; [p_stubborn] says whether
    the process survives SIGTERM for longer than the join timeout;
    [p_signalled] whether SIGTERM was sent, and [p_killed] whether
    SIGKILL was sent. *)
Record Proc : Type := {
  p_alive : bool;
  p_signalled : bool;
  p_stubborn : bool;
  p_killed : bool
}.

(** One psutil reading: [cpu_percent(interval=1)],
    [virtual_memory().percent], [disk_usage('/').percent], each the
    rational its float denotes.  The load average and the ISO timestamp
    that accompany a reading in the metrics dicts are left out. *)
Record Telemetry : Type := {
  t_cpu : Q;
  t_memory : Q;
  t_disk : Q
}.

(** The [current_metrics] dict of [execute]. *)
Record Metrics : Type := {
  m_cpu_percent : Q;
  m_memory_percent : Q;
  m_active_workers : nat;
  m_elapsed_time : Z
}.

Record SafetyStatus : Type := {
  safe : bool;
  message : string
}.

Inductive Event : Type :=
| EvLog (msg : string)
| EvCpuPercent
| EvVirtualMemory
| EvDiskUsage
| EvCheckSafety (elapsed : Z)
| EvRecordMetrics (m : Metrics)
| EvSleep (seconds : Z)
| EvStart (pid : nat) (percent : Z) (share : Z)
| EvTerminate (pid : nat)
| EvJoin (pid : nat) (timeout : Z)
| EvKill (pid : nat).

(** [self] together with the part of the world it acts on.  The list
    [worker_processes] holds references (pids) into the process table
    [procs]; clearing the list does not remove the processes. *)
Record State : Type := {
  config : CPUStressConfig;
  worker_processes : list nat;
  original_cpu_usage : Q;
  procs : list Proc;
  samples : nat;
  trace : list Event
}.

(** The collaborators: [multiprocessing.cpu_count()], the psutil
    reading of the n-th sample, the safety controller's answer and the
    metrics collector's reaction at a given [elapsed] (either may raise),
    whether [process.start()] fails for the process that would get a
    given pid, and whether that process outlives SIGTERM. *)
Record Env : Type := {
  cpu_count : Z;
  psutil : nat -> Telemetry;
  check_safety : Z -> SafetyStatus + PyExn;
  record_metrics : Z -> option PyExn;
  start_fails : nat -> option PyExn;
  stubborn : nat -> bool
}.

Abbreviation M := (PyM State).

Definition emit (e : Event) : M unit :=
  fun s => (Return tt,
            {| config := config s; worker_processes := worker_processes s;
               original_cpu_usage := original_cpu_usage s; procs := procs s;
               samples := samples s; trace := trace s ++ [e] |}).
Definition log (msg : string) : M unit := emit (EvLog msg).

Definition set_config (c : CPUStressConfig) : M unit :=
  fun s => (Return tt,
            {| config := c; worker_processes := worker_processes s;
               original_cpu_usage := original_cpu_usage s; procs := procs s;
               samples := samples s; trace := trace s |}).
Definition set_worker_processes (l : list nat) : M unit :=
  fun s => (Return tt,
            {| config := config s; worker_processes := l;
               original_cpu_usage := original_cpu_usage s; procs := procs s;
               samples := samples s; trace := trace s |}).
Definition set_original_cpu_usage (q : Q) : M unit :=
  fun s => (Return tt,
            {| config := config s; worker_processes := worker_processes s;
               original_cpu_usage := q; procs := procs s;
               samples := samples s; trace := trace s |}).
Definition set_procs (ps : list Proc) : M unit :=
  fun s => (Return tt,
            {| config := config s; worker_processes := worker_processes s;
               original_cpu_usage := original_cpu_usage s; procs := ps;
               samples := samples s; trace := trace s |}).
Definition next_sample : M nat :=
  fun s => (Return (samples s),
            {| config := config s; worker_processes := worker_processes s;
               original_cpu_usage := original_cpu_usage s; procs := procs s;
               samples := S (samples s); trace := trace s |}).

(** The dicts the methods return. *)

Record ValidationResult : Type := {
  valid : bool;
  errors : list string
}.

Record Checks : Type := {
  checks_safe : bool;
  warnings : list string;
  blockers : list string
}.

Record SetupResult : Type := {
  setup_complete : bool;
  workers_planned : option Z;
  baseline_metrics : Telemetry
}.

(** The result of [execute], without its three wall-clock fields. *)
Record ExecutionResult : Type := {
  success : bool;
  final_metrics : Telemetry;
  workers_used : option Z;
  target_cpu_percent : Z
}.

Record CleanupResult : Type := {
  cleanup_complete : bool;
  cleanup_metrics : Telemetry;
  workers_terminated : nat
}.

(** Truth value of an [Optional[int]]: [None] and [0] are falsy. *)
Definition truthy (w : option Z) : bool :=
  match w with
  | Some n => negb (n =? 0)
  | None => false
  end.

Definition str_optional (w : option Z) : string :=
  match w with
  | Some n => str_int n
  | None => "None"
  end.

(** [process.is_alive()] on the process table. *)
Definition alive_at (ps : list Proc) (pid : nat) : bool :=
  match ps !! pid with
  | Some p => p_alive p
  | None => false
  end.

(** [terminate()] sends SIGTERM: the signal is recorded and takes
    effect by the time of the join. *)
Definition signal_term (p : Proc) : Proc :=
  {| p_alive := p_alive p; p_signalled := true; p_stubborn := p_stubborn p;
     p_killed := p_killed p |}.
(** What the join timeout sees: a signalled process that honours SIGTERM
    has exited, any other is as it was. *)
Definition wait_exit (p : Proc) : Proc :=
  {| p_alive := p_alive p && negb (p_signalled p && negb (p_stubborn p));
     p_signalled := p_signalled p; p_stubborn := p_stubborn p;
     p_killed := p_killed p |}.
(** [kill()] sends SIGKILL and returns at once: the signal is recorded,
    and the process is still reported alive, since nothing waits for it
    to exit. *)
Definition signal_kill (p : Proc) : Proc :=
  {| p_alive := p_alive p; p_signalled := p_signalled p;
     p_stubborn := p_stubborn p; p_killed := true |}.
(** What the passing of time does to a process: one that was sent
    SIGKILL has exited. *)
Definition time_passes (p : Proc) : Proc :=
  {| p_alive := p_alive p && negb (p_killed p); p_signalled := p_signalled p;
     p_stubborn := p_stubborn p; p_killed := p_killed p |}.

(** [await asyncio.sleep(seconds)]: the coroutine is suspended for
    several seconds, during which every pending SIGKILL takes effect.
    This is the only place where the model lets a killed process exit:
    until the program has slept, a process that was sent SIGKILL is
    reported alive, as [is_alive()] reports it right after [kill()]. *)
Definition asyncio_sleep (seconds : Z) : M unit :=
  fun s => (Return tt,
            {| config := config s; worker_processes := worker_processes s;
               original_cpu_usage := original_cpu_usage s;
               procs := time_passes <$> procs s;
               samples := samples s; trace := trace s ++ [EvSleep seconds] |}).

Section Executor.

Variable env : Env.

(** *** validate_parameters *)

Definition validate_parameters : M ValidationResult :=
  s ← get;
  let c := config s in
  let r0 := {| valid := true; errors := [] |} in
  let r1 :=
    if (cpu_percent c <? 10) || (95 <? cpu_percent c)
    then {| valid := false;
            errors := errors r0 ++ ["CPU percentage must be between 10% and 95%"] |}
    else r0 in
  let r2 :=
    if (duration c <? 10) || (3600 <? duration c)
    then {| valid := false;
            errors := errors r1 ++ ["Duration must be between 10 seconds and 1 hour"] |}
    else r1 in
  let r3 :=
    match workers c with
    | Some w =>
        if truthy (Some w) && (cpu_count env * 2 <? w)
        then {| valid := false;
                errors := errors r2 ++
                  ["Worker count cannot exceed " +:+ str_int (cpu_count env * 2)] |}
        else r2
    | None => r2
    end in
  mret r3.

(** *** pre_flight_check *)

Definition pre_flight_check : M Checks :=
  let c0 := {| checks_safe := true; warnings := []; blockers := [] |} in
  n ← next_sample;
  emit EvCpuPercent;;
  let current_cpu := t_cpu (psutil env n) in
  set_original_cpu_usage current_cpu;;
  let c1 :=
    if Qgtb current_cpu 70
    then {| checks_safe := checks_safe c0;
            warnings := warnings c0 ++
              ["Current CPU usage is already high (" +:+ format_1f current_cpu +:+ "%)"];
            blockers := blockers c0 |}
    else c0 in
  let c2 :=
    if Qgtb current_cpu 85
    then {| checks_safe := false;
            warnings := warnings c1;
            blockers := blockers c1 ++
              ["Current CPU usage too high to safely run experiment"] |}
    else c1 in
  emit EvVirtualMemory;;
  let c3 :=
    if Qgtb (t_memory (psutil env n)) 90
    then {| checks_safe := false;
            warnings := warnings c2;
            blockers := blockers c2 ++
              ["Memory usage too high - risk of system instability"] |}
    else c2 in
  emit EvDiskUsage;;
  let c4 :=
    if Qgtb (t_disk (psutil env n)) 95
    then {| checks_safe := checks_safe c3;
            warnings := warnings c3 ++
              ["Low disk space - may affect logging and metrics"];
            blockers := blockers c3 |}
    else c3 in
  mret c4.

(** *** setup *)

Definition sample_metrics : M Telemetry :=
  n ← next_sample;
  emit EvCpuPercent;;
  emit EvVirtualMemory;;
  mret (psutil env n).

Definition setup : M SetupResult :=
  log "Setting up CPU stress experiment";;
  s ← get;
  when (negb (truthy (workers (config s))))
       (set_config {| cpu_percent := cpu_percent (config s);
                      duration := duration (config s);
                      workers := Some (Z.max 1 (cpu_count env - 1)) |});;
  baseline ← sample_metrics;
  log "Baseline metrics recorded";;
  s ← get;
  mret {| setup_complete := true;
          workers_planned := workers (config s);
          baseline_metrics := baseline |}.

(** *** The worker pool *)

(** The body of [for i in range(n)] in [_start_cpu_stress_workers];
    the new process gets the next free slot of the process table. *)
Fixpoint start_workers (n : nat) (percent share : Z) : M unit :=
  match n with
  | O => mret tt
  | S n' =>
      s ← get;
      let pid := length (procs s) in
      match start_fails env pid with
      | Some e => raise e
      | None =>
          set_procs (procs s ++ [{| p_alive := true; p_signalled := false;
                                    p_stubborn := stubborn env pid;
                                    p_killed := false |}]);;
          emit (EvStart pid percent share);;
          set_worker_processes (worker_processes s ++ [pid]);;
          start_workers n' percent share
      end
  end.

Definition _start_cpu_stress_workers : M unit :=
  s ← get;
  log ("Starting " +:+ str_optional (workers (config s)) +:+ " CPU stress workers");;
  match workers (config s) with
  | None => raise (TypeError "'NoneType' object cannot be interpreted as an integer")
  | Some w => start_workers (Z.to_nat w) (cpu_percent (config s)) w
  end;;
  s ← get;
  log ("Started " +:+ str_int (Z.of_nat (length (worker_processes s))) +:+ " CPU stress workers").

Definition is_alive (pid : nat) : M bool :=
  s ← get; mret (alive_at (procs s) pid).
Definition terminate (pid : nat) : M unit :=
  s ← get; set_procs (alter signal_term pid (procs s));; emit (EvTerminate pid).
Definition join (pid : nat) (timeout : Z) : M unit :=
  s ← get; set_procs (alter wait_exit pid (procs s));; emit (EvJoin pid timeout).
Definition kill (pid : nat) : M unit :=
  s ← get; set_procs (alter signal_kill pid (procs s));; emit (EvKill pid).

Fixpoint terminate_all (l : list nat) : M unit :=
  match l with
  | [] => mret tt
  | pid :: l' =>
      a ← is_alive pid;
      when a (terminate pid);;
      terminate_all l'
  end.

Fixpoint join_all (l : list nat) : M unit :=
  match l with
  | [] => mret tt
  | pid :: l' =>
      join pid 5;;
      a ← is_alive pid;
      when a (kill pid);;
      join_all l'
  end.

Definition _stop_cpu_stress_workers : M unit :=
  log "Stopping CPU stress workers";;
  s ← get;
  terminate_all (worker_processes s);;
  join_all (worker_processes s);;
  set_worker_processes [];;
  log "All CPU stress workers stopped".

(** *** execute *)

Definition interval : Z := 5.

(** The [while elapsed < self.config.duration] loop; [fuel] bounds the
    number of iterations. *)
Fixpoint monitor (fuel : nat) (elapsed : Z) : M unit :=
  s ← get;
  if elapsed <? duration (config s) then
    match fuel with
    | O => out_of_fuel
    | S fuel' =>
        emit (EvCheckSafety elapsed);;
        match check_safety env elapsed with
        | inr e => raise e
        | inl safety_status =>
            if negb (safe safety_status) then
              log "Safety check failed";;
              _stop_cpu_stress_workers;;
              raise (Exception ("Safety violation: " +:+ message safety_status))
            else
              t ← sample_metrics;
              s ← get;
              emit (EvRecordMetrics
                      {| m_cpu_percent := t_cpu t;
                         m_memory_percent := t_memory t;
                         m_active_workers := length (worker_processes s);
                         m_elapsed_time := elapsed |});;
              match record_metrics env elapsed with
              | Some e => raise e
              | None =>
                  log "Experiment progress";;
                  asyncio_sleep interval;;
                  monitor fuel' (elapsed + interval)
              end
        end
    end
  else mret tt.

Definition execute (fuel : nat) : M ExecutionResult :=
  log "Starting CPU stress experiment";;
  try_except
    (_start_cpu_stress_workers;;
     monitor fuel 0;;
     _stop_cpu_stress_workers;;
     final ← sample_metrics;
     s ← get;
     mret {| success := true;
             final_metrics := final;
             workers_used := workers (config s);
             target_cpu_percent := cpu_percent (config s) |})
    (fun e =>
       log "CPU stress experiment failed";;
       _stop_cpu_stress_workers;;
       raise e).

(** *** cleanup and rollback *)

Definition cleanup : M CleanupResult :=
  log "Cleaning up CPU stress experiment";;
  _stop_cpu_stress_workers;;
  asyncio_sleep 10;;
  final ← sample_metrics;
  s ← get;
  mret {| cleanup_complete := true;
          cleanup_metrics := final;
          workers_terminated := length (worker_processes s) |}.

Definition rollback : M CleanupResult := cleanup.

End Executor.

End CPUStress.

(** ** framework/app.py *)

Module Orchestrator.

(** What the orchestrator reads of a [ChaosExperiment], and what the
    experiment service stores for it: [experiment.type],
    [experiment.target.scope.environment], [experiment.status], the
    result payload and the error list. *)
Record Experiment (R : Type) : Type := {
  type : string;
  environment : string;
  status : string;
  results : option R;
  errors : list string
}.
Arguments type {R} _.
Arguments environment {R} _.
Arguments status {R} _.
Arguments results {R} _.
Arguments errors {R} _.

(** The executor contract as the orchestrator uses it.  [W] is the part
    of the world the fault injection acts on, [R] the result payload. *)
Record ExperimentExecutor (W R : Type) : Type := {
  execute : Experiment R -> W -> Outcome R * W;
  cleanup : W -> Outcome unit * W;
  rollback : W -> Outcome unit * W
}.
Arguments execute {W R} _ _ _.
Arguments cleanup {W R} _ _.
Arguments rollback {W R} _ _.

Inductive Event : Type :=
| EvLog (msg : string)
| EvUpdateStatus (experiment_id status : string)
| EvUpdateResults (experiment_id : string)
| EvAddError (experiment_id message : string)
| EvAddTask (experiment_id user_id : string)
| EvPreFlight (experiment_id : string)
| EvExecute (experiment_id : string).

Record State (W R : Type) : Type := {
  experiments : gmap string (Experiment R);
  background_tasks : list (string * string);
  active_experiments : Z;
  experiments_total : list (string * string * string);
  world : W;
  trace : list Event
}.
Arguments experiments {W R} _.
Arguments background_tasks {W R} _.
Arguments active_experiments {W R} _.
Arguments experiments_total {W R} _.
Arguments world {W R} _.
Arguments trace {W R} _.

Record SafetyCheck : Type := {
  safe : bool;
  message : string
}.

Record StartResponse : Type := {
  response_message : string;
  response_experiment_id : string
}.

Section App.

Context {W R : Type}.

(** [ExperimentExecutorFactory.create] and
    [safety_service.pre_flight_check] are defined outside the file. *)
Variable create : string -> ExperimentExecutor W R + PyExn.
Variable safety_pre_flight_check : Experiment R -> SafetyCheck.

Abbreviation M := (PyM (State W R)).

Definition emit (e : Event) : M unit :=
  modify (fun s =>
            {| experiments := experiments s; background_tasks := background_tasks s;
               active_experiments := active_experiments s;
               experiments_total := experiments_total s;
               world := world s; trace := trace s ++ [e] |}).
Definition log (msg : string) : M unit := emit (EvLog msg).

Definition set_experiments (m : gmap string (Experiment R)) : M unit :=
  modify (fun s =>
            {| experiments := m; background_tasks := background_tasks s;
               active_experiments := active_experiments s;
               experiments_total := experiments_total s;
               world := world s; trace := trace s |}).

Definition set_status (st : string) (e : Experiment R) : Experiment R :=
  {| type := type e; environment := environment e; status := st;
     results := results e; errors := errors e |}.
Definition set_results (r : R) (e : Experiment R) : Experiment R :=
  {| type := type e; environment := environment e; status := status e;
     results := Some r; errors := errors e |}.
Definition append_error (msg : string) (e : Experiment R) : Experiment R :=
  {| type := type e; environment := environment e; status := status e;
     results := results e; errors := errors e ++ [msg] |}.

(** Modelled from the spec: [experiment_service] (the module
    [services/experiment_service.py] is missing).  Its four operations
    are the persistence collaborator's consistent reads and writes:
    [loadExperiment], [saveStatus], [saveResult], [appendError]. *)
Definition get_experiment (experiment_id : string) : M (option (Experiment R)) :=
  s ← get; mret (experiments s !! experiment_id).
Definition update_status (experiment_id st : string) : M unit :=
  emit (EvUpdateStatus experiment_id st);;
  s ← get; set_experiments (alter (set_status st) experiment_id (experiments s)).
Definition update_results (experiment_id : string) (r : R) : M unit :=
  emit (EvUpdateResults experiment_id);;
  s ← get; set_experiments (alter (set_results r) experiment_id (experiments s)).
Definition add_error (experiment_id msg : string) : M unit :=
  emit (EvAddError experiment_id msg);;
  s ← get; set_experiments (alter (append_error msg) experiment_id (experiments s)).

(** [background_tasks.add_task(execute_experiment, experiment_id, user['id'])]. *)
Definition add_task (experiment_id user_id : string) : M unit :=
  emit (EvAddTask experiment_id user_id);;
  modify (fun s =>
            {| experiments := experiments s;
               background_tasks := background_tasks s ++ [(experiment_id, user_id)];
               active_experiments := active_experiments s;
               experiments_total := experiments_total s;
               world := world s; trace := trace s |}).

(** [ACTIVE_EXPERIMENTS.inc()] / [.dec()] and
    [EXPERIMENTS_TOTAL.labels(...).inc()]. *)
Definition active_add (d : Z) : M unit :=
  modify (fun s =>
            {| experiments := experiments s; background_tasks := background_tasks s;
               active_experiments := active_experiments s + d;
               experiments_total := experiments_total s;
               world := world s; trace := trace s |}).
Definition total_inc (labels : string * string * string) : M unit :=
  modify (fun s =>
            {| experiments := experiments s; background_tasks := background_tasks s;
               active_experiments := active_experiments s;
               experiments_total := experiments_total s ++ [labels];
               world := world s; trace := trace s |}).

(** [await executor.execute(experiment, safety_service, metrics_service)]:
    the executor acts on the world and nothing else. *)
Definition on_world (f : W -> Outcome R * W) : M R :=
  fun s =>
    let '(r, w) := f (world s) in
    (r, {| experiments := experiments s; background_tasks := background_tasks s;
           active_experiments := active_experiments s;
           experiments_total := experiments_total s;
           world := w; trace := trace s |}).
Definition run_execute (experiment_id : string) (executor : ExperimentExecutor W R)
    (experiment : Experiment R) : M R :=
  emit (EvExecute experiment_id);;
  on_world (execute executor experiment).

(** *** start_experiment *)

Definition start_experiment (experiment_id user_id : string) : M StartResponse :=
  experiment ← get_experiment experiment_id;
  match experiment with
  | None => raise (HTTPException 404 "Experiment not found")
  | Some experiment =>
      if negb (String.eqb (status experiment) "DRAFT"
               || String.eqb (status experiment) "SCHEDULED")
      then raise (HTTPException 400 "Experiment cannot be started in current status")
      else
        emit (EvPreFlight experiment_id);;
        let safety_check := safety_pre_flight_check experiment in
        if negb (safe safety_check)
        then raise (HTTPException 400
                      ("Safety check failed: " +:+ message safety_check))
        else
          add_task experiment_id user_id;;
          update_status experiment_id "PENDING";;
          mret {| response_message := "Experiment starting";
                  response_experiment_id := experiment_id |}
  end.

(** *** execute_experiment *)

(** The lookup is the first statement of the [try]; as modelled it
    cannot raise, so the name [experiment] is bound ([in locals()]) in
    the handler, possibly to [None]. *)
Definition execute_experiment (experiment_id user_id : string) : M unit :=
  experiment ← get_experiment experiment_id;
  try_finally
    (try_except
       (match experiment with
        | None => raise (AttributeError "'NoneType' object has no attribute 'type'")
        | Some experiment =>
            match create (type experiment) with
            | inr e => raise e
            | inl executor =>
                update_status experiment_id "RUNNING";;
                active_add 1;;
                r ← run_execute experiment_id executor experiment;
                update_results experiment_id r;;
                update_status experiment_id "COMPLETED";;
                total_inc (type experiment, "COMPLETED", environment experiment);;
                log "Experiment completed successfully"
            end
        end)
       (fun e =>
          log "Experiment execution failed";;
          update_status experiment_id "FAILED";;
          add_error experiment_id (str_exn e);;
          match experiment with
          | None => raise (AttributeError "'NoneType' object has no attribute 'type'")
          | Some experiment =>
              total_inc (type experiment, "FAILED", environment experiment)
          end))
    (active_add (-1)).

End App.

End Orchestrator.

(** * Vocabulary of the statements

    State transformers that name what a step leaves behind, the
    relations and invariants the proofs carry, and the concrete hosts,
    configurations and stores the properties are exercised on. *)

Module CPUStressSpec.
Import CPUStress.

(** The configurations the validation is meant to reject. *)
Definition out_of_range (env : Env) (c : CPUStressConfig) : Prop :=
  cpu_percent c < 10 \/ 95 < cpu_percent c \/
  duration c < 10 \/ 3600 < duration c \/
  exists w, workers c = Some w /\ 2 * cpu_count env < w.

(** The three tests of [validate_parameters] and what each appends. *)
Definition bad_cpu (c : CPUStressConfig) : bool :=
  (cpu_percent c <? 10) || (95 <? cpu_percent c).
Definition bad_duration (c : CPUStressConfig) : bool :=
  (duration c <? 10) || (3600 <? duration c).
Definition bad_workers (env : Env) (c : CPUStressConfig) : bool :=
  match workers c with
  | Some w => truthy (Some w) && (cpu_count env * 2 <? w)
  | None => false
  end.

(** A quiet four-core host: every safety poll answers safe, every
    sample is accepted, every process starts and honours SIGTERM. *)
Definition host4 : Env :=
  {| cpu_count := 4;
     psutil := fun _ => {| t_cpu := 12.5; t_memory := 40; t_disk := 50 |};
     check_safety := fun _ => inl {| safe := true; message := "" |};
     record_metrics := fun _ => None;
     start_fails := fun _ => None;
     stubborn := fun _ => false |}.

Definition fresh (c : CPUStressConfig) : State :=
  {| config := c; worker_processes := []; original_cpu_usage := 0;
     procs := []; samples := 0; trace := [] |}.

Definition cpu_warning (cpu : Q) : string :=
  "Current CPU usage is already high (" +:+ format_1f cpu +:+ "%)".

Definition after_pre_flight (env : Env) (s : State) : State :=
  {| config := config s; worker_processes := worker_processes s;
     original_cpu_usage := t_cpu (psutil env (samples s));
     procs := procs s; samples := S (samples s);
     trace := trace s ++ [EvCpuPercent; EvVirtualMemory; EvDiskUsage] |}.

(** The four steps of a monitoring tick.  A telemetry sample starts with
    the CPU reading; log lines and process signals are not steps. *)
Inductive Step : Type := Safety | Sample | Emit | Sleep.

Definition step_of (e : Event) : option Step :=
  match e with
  | EvCheckSafety _ => Some Safety
  | EvCpuPercent => Some Sample
  | EvRecordMetrics _ => Some Emit
  | EvSleep _ => Some Sleep
  | _ => None
  end.

Definition steps (tr : list Event) : list Step := omap step_of tr.

(** Whether the process with a given pid ignores SIGTERM, whether
    SIGTERM has been sent to it, and whether SIGKILL has. *)
Definition stubborn_at (ps : list Proc) (pid : nat) : bool :=
  match ps !! pid with
  | Some p => p_stubborn p
  | None => false
  end.

Definition signalled_at (ps : list Proc) (pid : nat) : bool :=
  match ps !! pid with
  | Some p => p_signalled p
  | None => false
  end.

Definition killed_at (ps : list Proc) (pid : nat) : bool :=
  match ps !! pid with
  | Some p => p_killed p
  | None => false
  end.

(** In a trace, [e1] occurs and [e2] occurs after it. *)
Definition before (e1 e2 : Event) (tr : list Event) : Prop :=
  exists a b, tr = a ++ e1 :: b /\ In e2 b.

(** What every operation on a process has in common: it revives
    nothing, leaves the process's reaction to SIGTERM alone and takes
    no signal back. *)
Definition tame (f : Proc -> Proc) : Prop :=
  forall p,
    (p_alive (f p) = true -> p_alive p = true) /\
    p_stubborn (f p) = p_stubborn p /\
    (p_signalled p = true -> p_signalled (f p) = true) /\
    (p_killed p = true -> p_killed (f p) = true).

(** Steps that start nothing: the configuration and the pool list stay,
    processes can only die, signals sent stay sent, the table keeps its
    size, and events are appended. *)
Record no_spawn (tr : list Event) (s s' : State) : Prop := {
  so_config : config s' = config s;
  so_workers : worker_processes s' = worker_processes s;
  so_original : original_cpu_usage s' = original_cpu_usage s;
  so_length : length (procs s') = length (procs s);
  so_alive : forall pid,
      alive_at (procs s') pid = true -> alive_at (procs s) pid = true;
  so_stubborn : forall pid,
      stubborn_at (procs s') pid = stubborn_at (procs s) pid;
  so_signalled : forall pid,
      signalled_at (procs s) pid = true -> signalled_at (procs s') pid = true;
  so_killed : forall pid,
      killed_at (procs s) pid = true -> killed_at (procs s') pid = true;
  so_trace : trace s' = trace s ++ tr
}.

(** Steps that, besides, send no signal: a live process that has not
    been sent SIGKILL stays alive, and no SIGKILL is sent. *)
Record quiet (tr : list Event) (s s' : State) : Prop := {
  qu_no_spawn : no_spawn tr s s';
  qu_stays : forall pid,
      alive_at (procs s) pid = true -> killed_at (procs s) pid = false ->
      alive_at (procs s') pid = true;
  qu_unkilled : forall pid,
      killed_at (procs s') pid = true -> killed_at (procs s) pid = true
}.

(** The state after one signal-like operation on [pid]. *)
Definition signal (f : Proc -> Proc) (pid : nat) (e : Event) (s : State) : State :=
  {| config := config s; worker_processes := worker_processes s;
     original_cpu_usage := original_cpu_usage s;
     procs := alter f pid (procs s);
     samples := samples s; trace := trace s ++ [e] |}.

(** What one call of [_stop_cpu_stress_workers] achieves: the pool
    list is empty; every process in it that was alive has been sent
    SIGTERM and has then been joined; and one that is still alive
    ignores SIGTERM and has been sent SIGKILL after its join. *)
Record stopped (tr : list Event) (s s' : State) : Prop := {
  st_config : config s' = config s;
  st_workers : worker_processes s' = [];
  st_original : original_cpu_usage s' = original_cpu_usage s;
  st_length : length (procs s') = length (procs s);
  st_alive : forall pid,
      alive_at (procs s') pid = true -> alive_at (procs s) pid = true;
  st_stubborn : forall pid,
      stubborn_at (procs s') pid = stubborn_at (procs s) pid;
  st_killed : forall pid,
      killed_at (procs s) pid = true -> killed_at (procs s') pid = true;
  st_torn : forall pid,
      pid ∈ worker_processes s -> alive_at (procs s) pid = true ->
      before (EvTerminate pid) (EvJoin pid 5) tr;
  st_survivor : forall pid,
      pid ∈ worker_processes s -> alive_at (procs s') pid = true ->
      stubborn_at (procs s') pid = true /\
      killed_at (procs s') pid = true /\
      before (EvJoin pid 5) (EvKill pid) tr;
  st_steps : steps tr = [];
  st_trace : trace s' = trace s ++ tr
}.

Definition clear_workers (s : State) : State :=
  {| config := config s; worker_processes := [];
     original_cpu_usage := original_cpu_usage s; procs := procs s;
     samples := samples s;
     trace := trace s ++ [EvLog "All CPU stress workers stopped"] |}.

Definition logged (msg : string) (s : State) : State :=
  {| config := config s; worker_processes := worker_processes s;
     original_cpu_usage := original_cpu_usage s; procs := procs s;
     samples := samples s; trace := trace s ++ [EvLog msg] |}.

Definition in_range (c : CPUStressConfig) : Prop :=
  10 <= cpu_percent c <= 95 /\ 10 <= duration c <= 3600.

(** The teardown invariant of a run that started in [s0] and has
    emitted [tr] so far.  A live process is in the pool list, or was
    alive, and outside the pool, before the run, or ignores SIGTERM and
    has been sent SIGKILL.  A process created by the run is in the pool
    list, alive and without a SIGKILL, or it has been sent SIGTERM and
    then joined, and if it is still alive it was sent SIGKILL after its
    join. *)
Record owned (s0 : State) (tr : list Event) (s : State) : Prop := {
  ow_config : config s = config s0;
  ow_length : (length (procs s0) <= length (procs s))%nat;
  ow_alive : forall pid,
      alive_at (procs s) pid = true ->
      pid ∈ worker_processes s \/
      (alive_at (procs s0) pid = true /\ pid ∉ worker_processes s0) \/
      (stubborn_at (procs s) pid = true /\ killed_at (procs s) pid = true);
  ow_created : forall pid,
      (length (procs s0) <= pid < length (procs s))%nat ->
      (pid ∈ worker_processes s /\ alive_at (procs s) pid = true /\
       killed_at (procs s) pid = false) \/
      (before (EvTerminate pid) (EvJoin pid 5) tr /\
       (alive_at (procs s) pid = true ->
        before (EvJoin pid 5) (EvKill pid) tr));
  ow_trace : trace s = trace s0 ++ tr
}.

(** The state after [process.start()] succeeded and the process was
    appended to the pool list. *)
Definition started (env : Env) (percent share : Z) (s : State) : State :=
  {| config := config s;
     worker_processes := worker_processes s ++ [length (procs s)];
     original_cpu_usage := original_cpu_usage s;
     procs := procs s ++ [{| p_alive := true; p_signalled := false;
                             p_stubborn := stubborn env (length (procs s));
                             p_killed := false |}];
     samples := samples s;
     trace := trace s ++ [EvStart (length (procs s)) percent share] |}.

Definition emitted (e : Event) (s : State) : State :=
  {| config := config s; worker_processes := worker_processes s;
     original_cpu_usage := original_cpu_usage s; procs := procs s;
     samples := samples s; trace := trace s ++ [e] |}.

(** The state after [asyncio.sleep]. *)
Definition slept (seconds : Z) (s : State) : State :=
  {| config := config s; worker_processes := worker_processes s;
     original_cpu_usage := original_cpu_usage s;
     procs := time_passes <$> procs s;
     samples := samples s; trace := trace s ++ [EvSleep seconds] |}.

Definition sampled (s : State) : State :=
  {| config := config s; worker_processes := worker_processes s;
     original_cpu_usage := original_cpu_usage s; procs := procs s;
     samples := S (samples s);
     trace := (trace s ++ [EvCpuPercent]) ++ [EvVirtualMemory] |}.

(** One iteration of the [while] loop, spelled out. *)
Definition recorded (env : Env) (elapsed : Z) (s : State) : State :=
  emitted (EvRecordMetrics
             {| m_cpu_percent := t_cpu (psutil env (samples s));
                m_memory_percent := t_memory (psutil env (samples s));
                m_active_workers := length (worker_processes s);
                m_elapsed_time := elapsed |})
          (sampled s).

Definition tick_state (env : Env) (elapsed : Z) (s : State) : State :=
  slept interval
    (logged "Experiment progress"
       (recorded env elapsed (emitted (EvCheckSafety elapsed) s))).

Definition recorded_events (env : Env) (elapsed : Z) (s : State) : list Event :=
  [EvCheckSafety elapsed; EvCpuPercent; EvVirtualMemory;
   EvRecordMetrics
     {| m_cpu_percent := t_cpu (psutil env (samples s));
        m_memory_percent := t_memory (psutil env (samples s));
        m_active_workers := length (worker_processes s);
        m_elapsed_time := elapsed |}].

Definition tick_events (env : Env) (elapsed : Z) (s : State) : list Event :=
  recorded_events env elapsed s ++
  [EvLog "Experiment progress"; EvSleep interval].

(** The order of steps within a tick: as the loop performs them, and as
    "telemetry sample, metrics emission, safety check, sleep". *)
Definition code_tick : list Step := [Safety; Sample; Emit; Sleep].
Definition spec_tick : list Step := [Sample; Emit; Safety; Sleep].

(** A tick that goes through: the safety poll answers safe and the
    metrics collector accepts the sample. *)
Definition safe_tick (env : Env) (elapsed : Z) : Prop :=
  (exists st, check_safety env elapsed = inl st /\ safe st = true) /\
  record_metrics env elapsed = None.

(** Number of iterations of [while elapsed < duration] with
    [elapsed = 0, 5, 10, ...]. *)
Definition ticks_of (d : Z) : nat := Z.to_nat ((d + 4) / interval).

Fixpoint after_ticks (env : Env) (n : nat) (elapsed : Z) (s : State) : State :=
  match n with
  | O => s
  | S n' => after_ticks env n' (elapsed + interval) (tick_state env elapsed s)
  end.

(** A four-core host whose safety poll fails at [elapsed = unsafe_from]
    and whose second worker ignores SIGTERM. *)
Definition unsafe_at (unsafe_from : Z) : Env :=
  {| cpu_count := 4;
     psutil := fun _ => {| t_cpu := 88; t_memory := 93.5; t_disk := 50 |};
     check_safety := fun elapsed =>
       if elapsed =? unsafe_from
       then inl {| safe := false; message := "memory above 90%" |}
       else inl {| safe := true; message := "" |};
     record_metrics := fun _ => None;
     start_fails := fun _ => None;
     stubborn := fun pid => Nat.eqb pid 1 |}.

Definition two_workers (d : Z) : CPUStressConfig :=
  {| cpu_percent := 80; duration := d; workers := Some 2 |}.

Definition zero_workers : CPUStressConfig :=
  {| cpu_percent := 80; duration := 60; workers := Some 0 |}.

End CPUStressSpec.

Module OrchestratorSpec.
Import Orchestrator.

(** What the store holds for a failed run. *)
Definition failed {R : Type} (msg : string) (e : Experiment R) : Experiment R :=
  {| type := type e; environment := environment e; status := "FAILED";
     results := results e; errors := errors e ++ [msg] |}.

(** An executor that starts two injection workers and then fails without
    stopping them; its [cleanup] would stop every worker.  The world is
    the number of live workers. *)
Definition leaky : ExperimentExecutor nat unit :=
  {| execute := fun _ w => (Raise (Exception "injection failed"), (w + 2)%nat);
     cleanup := fun _ => (Return tt, 0%nat);
     rollback := fun _ => (Return tt, 0%nat) |}.

Definition pending : Experiment unit :=
  {| type := "CPU_STRESS"; environment := "staging"; status := "PENDING";
     results := None; errors := [] |}.

Definition running : Experiment unit :=
  {| type := "CPU_STRESS"; environment := "staging"; status := "RUNNING";
     results := None; errors := [] |}.

Definition store (e : Experiment unit) : State nat unit :=
  {| experiments := {[ "exp-1" := e ]}; background_tasks := [];
     active_experiments := 0; experiments_total := [];
     world := 0%nat; trace := [] |}.

Definition always_safe (e : Experiment unit) : SafetyCheck :=
  {| safe := true; message := "" |}.

End OrchestratorSpec.

(** * Further vocabulary: the pool in detail, runs that fail, the store *)

Module CPUStressRuns.
Import CPUStress CPUStressSpec.

(** The process [process.start()] creates for a given pid. *)
Definition new_proc (env : Env) (pid : nat) : Proc :=
  {| p_alive := true; p_signalled := false; p_stubborn := stubborn env pid;
     p_killed := false |}.

(** The pids the next [n] successful starts get. *)
Definition next_pids (s : State) (n : nat) : list nat :=
  seq (length (procs s)) n.

(** The state after [n] successful iterations of the start loop. *)
Definition spawned (env : Env) (percent share : Z) (n : nat) (s : State) : State :=
  {| config := config s;
     worker_processes := worker_processes s ++ next_pids s n;
     original_cpu_usage := original_cpu_usage s;
     procs := procs s ++ map (new_proc env) (next_pids s n);
     samples := samples s;
     trace := trace s ++ map (fun pid => EvStart pid percent share) (next_pids s n) |}.

Definition starting_message (w : option Z) : string :=
  "Starting " +:+ str_optional w +:+ " CPU stress workers".

Definition started_message (n : nat) : string :=
  "Started " +:+ str_int (Z.of_nat n) +:+ " CPU stress workers".

(** What the two loops of the stop routine emit for a pool [l] on a
    process table [ps]: SIGTERM for the live processes, then, process by
    process, a join and, for a live process that ignores SIGTERM, a
    kill. *)
Definition terminate_events (ps : list Proc) (l : list nat) : list Event :=
  map EvTerminate (filter (fun pid => alive_at ps pid = true) l).

Definition join_events (ps : list Proc) (l : list nat) : list Event :=
  flat_map (fun pid =>
              EvJoin pid 5 ::
              if alive_at ps pid && stubborn_at ps pid then [EvKill pid] else [])
           l.

(** The metrics samples handed to the collector, each as its
    [elapsed_time] and [active_workers]. *)
Definition sample_of (e : Event) : option (Z * nat) :=
  match e with
  | EvRecordMetrics m => Some (m_elapsed_time m, m_active_workers m)
  | _ => None
  end.

Definition samples_of (tr : list Event) : list (Z * nat) := omap sample_of tr.

(** What [cleanup] appends to the trace when it finds the pool empty. *)
Definition idle_cleanup_events : list Event :=
  [EvLog "Cleaning up CPU stress experiment";
   EvLog "Stopping CPU stress workers";
   EvLog "All CPU stress workers stopped";
   EvSleep 10; EvCpuPercent; EvVirtualMemory].

(** Hosts on which one collaborator fails: the start of the process
    with pid 1, the safety poll at [elapsed = 10], the metrics collector
    at [elapsed = 10]. *)
Definition flaky_start : Env :=
  {| cpu_count := 4;
     psutil := psutil host4;
     check_safety := check_safety host4;
     record_metrics := record_metrics host4;
     start_fails := fun pid =>
       if Nat.eqb pid 1 then Some (OSError "Resource temporarily unavailable")
       else None;
     stubborn := stubborn host4 |}.

Definition flaky_safety : Env :=
  {| cpu_count := 4;
     psutil := psutil host4;
     check_safety := fun elapsed =>
       if elapsed =? 10 then inr (Exception "telemetry unavailable")
       else inl {| safe := true; message := "" |};
     record_metrics := record_metrics host4;
     start_fails := start_fails host4;
     stubborn := stubborn host4 |}.

Definition flaky_metrics : Env :=
  {| cpu_count := 4;
     psutil := psutil host4;
     check_safety := check_safety host4;
     record_metrics := fun elapsed =>
       if elapsed =? 10 then Some (Exception "metrics backend down") else None;
     start_fails := start_fails host4;
     stubborn := stubborn host4 |}.

(** An executor in mid-run: two live workers, the second of which
    ignores SIGTERM. *)
Definition pooled : State :=
  {| config := two_workers 60;
     worker_processes := [0; 1]%nat;
     original_cpu_usage := 0;
     procs := [{| p_alive := true; p_signalled := false; p_stubborn := false;
                  p_killed := false |};
               {| p_alive := true; p_signalled := false; p_stubborn := true;
                  p_killed := false |}];
     samples := 0;
     trace := [] |}.

(** A configuration with a negative worker count. *)
Definition negative_workers : CPUStressConfig :=
  {| cpu_percent := 80; duration := 60; workers := Some (-3) |}.

(** The configuration [setup] leaves behind, and the state after it. *)
Definition setup_config (env : Env) (c : CPUStressConfig) : CPUStressConfig :=
  if truthy (workers c) then c
  else {| cpu_percent := cpu_percent c; duration := duration c;
          workers := Some (Z.max 1 (cpu_count env - 1)) |}.

Definition after_setup (env : Env) (s : State) : State :=
  {| config := setup_config env (config s);
     worker_processes := worker_processes s;
     original_cpu_usage := original_cpu_usage s;
     procs := procs s;
     samples := S (samples s);
     trace := trace s ++ [EvLog "Setting up CPU stress experiment";
                          EvCpuPercent; EvVirtualMemory;
                          EvLog "Baseline metrics recorded"] |}.

End CPUStressRuns.

(** ** The worker function of cpu_stress.py *)

Module Worker.

(** What a worker does that can be seen from outside: it reads the
    clock, and it sleeps. *)
Inductive Event : Type :=
| EvTime
| EvSleep.

(** The local [x] of [cpu_bound_task], the number of clock reads so far
    and the events so far. *)
Record State : Type := {
  x : Z;
  clock_reads : nat;
  trace : list Event
}.

(** The clock, by what the worker asks of it: whether the [n]-th reading
    of [time.time()] is still below [end_work], and whether
    [sleep_time > 0]. *)
Record Clock : Type := {
  before_end_work : nat -> bool;
  sleep_time_positive : bool
}.

Abbreviation M := (PyM State).

Definition set_x (v : Z) : M unit :=
  modify (fun s => {| x := v; clock_reads := clock_reads s; trace := trace s |}).

Definition time_time : M nat :=
  fun s => (Return (clock_reads s),
            {| x := x s; clock_reads := S (clock_reads s);
               trace := trace s ++ [EvTime] |}).

Definition time_sleep : M unit :=
  modify (fun s => {| x := x s; clock_reads := clock_reads s;
                      trace := trace s ++ [EvSleep] |}).

Section Worker.

Variable clock : Clock.

(** The [while True] loop of [cpu_bound_task], entered with [x = v]. *)
Fixpoint cpu_bound_loop (fuel : nat) (v : Z) : M unit :=
  match fuel with
  | O => out_of_fuel
  | S fuel' =>
      set_x (v + 1);;
      set_x ((v + 1) mod 1000000);;
      cpu_bound_loop fuel' ((v + 1) mod 1000000)
  end.

Definition cpu_bound_task (fuel : nat) : M unit :=
  set_x 0;;
  cpu_bound_loop fuel 0.

(** [while time.time() < end_work: cpu_bound_task()]. *)
Fixpoint work_phase (fuel : nat) : M unit :=
  match fuel with
  | O => out_of_fuel
  | S fuel' =>
      n ← time_time;
      if before_end_work clock n then
        cpu_bound_task fuel';;
        work_phase fuel'
      else mret tt
  end.

(** The outer [while True] of [_cpu_stress_worker]. *)
Fixpoint _cpu_stress_worker (fuel : nat) : M unit :=
  match fuel with
  | O => out_of_fuel
  | S fuel' =>
      time_time;;
      work_phase fuel';;
      when (sleep_time_positive clock) time_sleep;;
      _cpu_stress_worker fuel'
  end.

End Worker.

Definition started_worker : State := {| x := 0; clock_reads := 0; trace := [] |}.

(** A clock under which the first work phase is entered. *)
Definition duty_clock : Clock :=
  {| before_end_work := fun n => Nat.eqb n 1; sleep_time_positive := true |}.

End Worker.

(** ** What a start and a run leave in the store *)

Module OrchestratorRuns.
Import Orchestrator.

Section Runs.

Context {W R : Type}.

Definition startable (e : Experiment R) : bool :=
  String.eqb (status e) "DRAFT" || String.eqb (status e) "SCHEDULED".

(** The state after the pre-flight check of a start was consulted. *)
Definition checked (experiment_id : string) (s : State W R) : State W R :=
  {| experiments := experiments s; background_tasks := background_tasks s;
     active_experiments := active_experiments s;
     experiments_total := experiments_total s;
     world := world s; trace := trace s ++ [EvPreFlight experiment_id] |}.

(** The state after an accepted start. *)
Definition pending_state (experiment_id user_id : string) (s : State W R)
  : State W R :=
  {| experiments := alter (set_status "PENDING") experiment_id (experiments s);
     background_tasks := background_tasks s ++ [(experiment_id, user_id)];
     active_experiments := active_experiments s;
     experiments_total := experiments_total s;
     world := world s;
     trace := trace s ++ [EvPreFlight experiment_id;
                          EvAddTask experiment_id user_id;
                          EvUpdateStatus experiment_id "PENDING"] |}.

(** The state after a run whose executor returned [r] and left the
    world [w]. *)
Definition completed_state (experiment_id : string) (e : Experiment R) (r : R)
    (w : W) (s : State W R) : State W R :=
  {| experiments :=
       alter (set_status "COMPLETED") experiment_id
         (alter (set_results r) experiment_id
            (alter (set_status "RUNNING") experiment_id (experiments s)));
     background_tasks := background_tasks s;
     active_experiments := active_experiments s + 1 + -1;
     experiments_total :=
       experiments_total s ++ [(type e, "COMPLETED", environment e)];
     world := w;
     trace := trace s ++ [EvUpdateStatus experiment_id "RUNNING";
                          EvExecute experiment_id;
                          EvUpdateResults experiment_id;
                          EvUpdateStatus experiment_id "COMPLETED";
                          EvLog "Experiment completed successfully"] |}.

(** The state after a run whose executor raised. *)
Definition failed_state (experiment_id : string) (e : Experiment R)
    (msg : string) (w : W) (s : State W R) : State W R :=
  {| experiments :=
       alter (append_error msg) experiment_id
         (alter (set_status "FAILED") experiment_id
            (alter (set_status "RUNNING") experiment_id (experiments s)));
     background_tasks := background_tasks s;
     active_experiments := active_experiments s + 1 + -1;
     experiments_total :=
       experiments_total s ++ [(type e, "FAILED", environment e)];
     world := w;
     trace := trace s ++ [EvUpdateStatus experiment_id "RUNNING";
                          EvExecute experiment_id;
                          EvLog "Experiment execution failed";
                          EvUpdateStatus experiment_id "FAILED";
                          EvAddError experiment_id msg] |}.

(** The state after a run for which no executor could be created. *)
Definition not_created_state (experiment_id : string) (e : Experiment R)
    (msg : string) (s : State W R) : State W R :=
  {| experiments :=
       alter (append_error msg) experiment_id
         (alter (set_status "FAILED") experiment_id (experiments s));
     background_tasks := background_tasks s;
     active_experiments := active_experiments s + -1;
     experiments_total :=
       experiments_total s ++ [(type e, "FAILED", environment e)];
     world := world s;
     trace := trace s ++ [EvLog "Experiment execution failed";
                          EvUpdateStatus experiment_id "FAILED";
                          EvAddError experiment_id msg] |}.

(** The state after a run for an experiment the store does not have. *)
Definition unknown_state (experiment_id : string) (msg : string)
    (s : State W R) : State W R :=
  {| experiments :=
       alter (append_error msg) experiment_id
         (alter (set_status "FAILED") experiment_id (experiments s));
     background_tasks := background_tasks s;
     active_experiments := active_experiments s + -1;
     experiments_total := experiments_total s;
     world := world s;
     trace := trace s ++ [EvLog "Experiment execution failed";
                          EvUpdateStatus experiment_id "FAILED";
                          EvAddError experiment_id msg] |}.

(** The state in which a run is cut off inside the executor. *)
Definition interrupted_state (experiment_id : string) (w : W) (s : State W R)
  : State W R :=
  {| experiments := alter (set_status "RUNNING") experiment_id (experiments s);
     background_tasks := background_tasks s;
     active_experiments := active_experiments s + 1;
     experiments_total := experiments_total s;
     world := w;
     trace := trace s ++ [EvUpdateStatus experiment_id "RUNNING";
                          EvExecute experiment_id] |}.

(** Whether a run gets as far as [ACTIVE_EXPERIMENTS.inc()]. *)
Definition reaches_inc (create : string -> ExperimentExecutor W R + PyExn)
    (experiment_id : string) (s : State W R) : bool :=
  match experiments s !! experiment_id with
  | Some e => match create (type e) with inl _ => true | inr _ => false end
  | None => false
  end.

End Runs.

Definition none_type_error : string :=
  "'NoneType' object has no attribute 'type'".

(** An executor that returns, one draft experiment, and a factory that
    knows no experiment type. *)
Definition steady : ExperimentExecutor nat unit :=
  {| execute := fun _ w => (Return tt, w);
     cleanup := fun w => (Return tt, w);
     rollback := fun w => (Return tt, w) |}.

Definition draft : Experiment unit :=
  {| type := "CPU_STRESS"; environment := "staging"; status := "DRAFT";
     results := None; errors := [] |}.

Definition no_factory (t : string) : ExperimentExecutor nat unit + PyExn :=
  inr (Exception ("Unknown experiment type: " +:+ t)).

(** A factory that fails with an HTTP error. *)
Definition unreachable (t : string) : ExperimentExecutor nat unit + PyExn :=
  inr (HTTPException 503 "target unreachable").

Definition never_safe (e : Experiment unit) : SafetyCheck :=
  {| safe := false; message := "CPU usage too high" |}.

End OrchestratorRuns.

(** * Properties of the CPU stress executor *)

Module CPUStressFacts.
Import CPUStress CPUStressSpec CPUStressRuns.

(** ** Parameter validation *)

Lemma truthy_Some (w : Z) : truthy (Some w) = true <-> w <> 0.
Proof.
  unfold truthy. rewrite negb_true_iff, Z.eqb_neq. reflexivity.
Qed.

Lemma validate_parameters_eq (env : Env) (s : State) :
  validate_parameters env s =
    (Return
       {| valid := negb (bad_cpu (config s) || bad_duration (config s)
                         || bad_workers env (config s));
          errors :=
            (if bad_cpu (config s)
             then ["CPU percentage must be between 10% and 95%"] else []) ++
            (if bad_duration (config s)
             then ["Duration must be between 10 seconds and 1 hour"] else []) ++
            (if bad_workers env (config s)
             then ["Worker count cannot exceed " +:+ str_int (cpu_count env * 2)]
             else []) |}, s).
Proof.
  unfold bad_cpu, bad_duration, bad_workers.
  cbv beta iota zeta delta [validate_parameters mbind mret M_bind M_ret bind ret get].
  destruct ((cpu_percent (config s) <? 10) || (95 <? cpu_percent (config s)));
    destruct ((duration (config s) <? 10) || (3600 <? duration (config s)));
    (destruct (workers (config s)) as [w|];
     [destruct (truthy (Some w) && (cpu_count env * 2 <? w))|]); reflexivity.
Qed.

Lemma bad_cpu_iff (c : CPUStressConfig) :
  bad_cpu c = true <-> cpu_percent c < 10 \/ 95 < cpu_percent c.
Proof.
  unfold bad_cpu. rewrite orb_true_iff, !Z.ltb_lt. reflexivity.
Qed.

Lemma bad_duration_iff (c : CPUStressConfig) :
  bad_duration c = true <-> duration c < 10 \/ 3600 < duration c.
Proof.
  unfold bad_duration. rewrite orb_true_iff, !Z.ltb_lt. reflexivity.
Qed.

Lemma bad_cpu_false_iff (c : CPUStressConfig) :
  bad_cpu c = false <-> 10 <= cpu_percent c <= 95.
Proof.
  unfold bad_cpu. rewrite orb_false_iff, !Z.ltb_ge. lia.
Qed.

Lemma bad_duration_false_iff (c : CPUStressConfig) :
  bad_duration c = false <-> 10 <= duration c <= 3600.
Proof.
  unfold bad_duration. rewrite orb_false_iff, !Z.ltb_ge. lia.
Qed.

Lemma bad_workers_iff (env : Env) (c : CPUStressConfig) :
  0 < cpu_count env ->
  bad_workers env c = true <->
  exists w, workers c = Some w /\ 2 * cpu_count env < w.
Proof.
  intros Hcpu. unfold bad_workers. destruct (workers c) as [w|].
  - rewrite andb_true_iff, truthy_Some, Z.ltb_lt. split.
    + intros [_ H]. exists w. split; [reflexivity|lia].
    + intros (w' & E & H). inversion E; subst. lia.
  - split; [discriminate|]. intros (w & E & _). discriminate.
Qed.

(** C4: [validate_parameters] returns without touching the state, and
    its verdict is [valid = false], with a non-empty error list, exactly
    for the out-of-range configurations: intensity outside [10,95],
    duration outside [10,3600], or more workers than twice the CPU count.
    Intensity 5 is rejected with the intensity message; intensity 80 with
    duration 60 and an admissible worker count is accepted. *)
Theorem validate_parameters_spec (env : Env) (s : State)
    (Hcpu : 0 < cpu_count env) :
  exists r,
    validate_parameters env s = (Return r, s) /\
    (valid r = false <-> out_of_range env (config s)) /\
    (valid r = false <-> errors r <> []) /\
    (cpu_percent (config s) = 5 ->
       valid r = false /\
       In "CPU percentage must be between 10% and 95%" (errors r)) /\
    (cpu_percent (config s) = 80 -> duration (config s) = 60 ->
       (forall w, workers (config s) = Some w -> w <= 2 * cpu_count env) ->
       valid r = true /\ errors r = []).
Proof.
  eexists. split; [apply validate_parameters_eq|]. cbn [valid errors].
  pose proof (bad_cpu_iff (config s)) as Hc.
  pose proof (bad_duration_iff (config s)) as Hd.
  pose proof (bad_workers_iff env (config s) Hcpu) as Hw.
  split; [|split; [|split]].
  - rewrite negb_false_iff, !orb_true_iff, Hc, Hd, Hw.
    unfold out_of_range. tauto.
  - destruct (bad_cpu (config s)), (bad_duration (config s)),
      (bad_workers env (config s)); cbn; split; congruence.
  - intros E.
    assert (bad_cpu (config s) = true) as -> by (apply Hc; lia).
    split; [reflexivity|left; reflexivity].
  - intros E1 E2 Hb.
    assert (bad_cpu (config s) = false) as ->.
    { destruct (bad_cpu (config s)); [|reflexivity].
      destruct Hc as [Hc _]. specialize (Hc eq_refl). lia. }
    assert (bad_duration (config s) = false) as ->.
    { destruct (bad_duration (config s)); [|reflexivity].
      destruct Hd as [Hd _]. specialize (Hd eq_refl). lia. }
    assert (bad_workers env (config s) = false) as ->.
    { destruct (bad_workers env (config s)); [|reflexivity].
      destruct Hw as [Hw _]. destruct (Hw eq_refl) as (w & Ew & Lw).
      specialize (Hb w Ew). lia. }
    split; reflexivity.
Qed.

Lemma validate_parameters_spec_witness :
  exists r,
    validate_parameters host4 (fresh default_config) =
      (Return r, fresh default_config) /\
    valid r = true /\ errors r = [].
Proof.
  destruct (validate_parameters_spec host4 (fresh default_config))
    as (r & Hr & _ & _ & _ & Hok); [reflexivity|].
  exists r. split; [exact Hr|].
  apply Hok; [reflexivity|reflexivity|discriminate].
Defined.

(** ** Pre-flight check *)

Lemma Qgtb_lt (x y : Q) : Qgtb x y = true <-> (y < x)%Q.
Proof.
  unfold Qgtb. rewrite negb_true_iff. split.
  - intros H. apply Qnot_le_lt. intros L.
    apply Qle_bool_iff in L. congruence.
  - intros H. destruct (Qle_bool x y) eqn:E; [|reflexivity].
    apply Qle_bool_iff in E. exfalso. exact (Qlt_not_le _ _ H E).
Qed.

Lemma pre_flight_check_eq (env : Env) (s : State) :
  let t := psutil env (samples s) in
  pre_flight_check env s =
    (Return
       {| checks_safe := negb (Qgtb (t_cpu t) 85 || Qgtb (t_memory t) 90);
          warnings :=
            (if Qgtb (t_cpu t) 70 then [cpu_warning (t_cpu t)] else []) ++
            (if Qgtb (t_disk t) 95
             then ["Low disk space - may affect logging and metrics"] else []);
          blockers :=
            (if Qgtb (t_cpu t) 85
             then ["Current CPU usage too high to safely run experiment"]
             else []) ++
            (if Qgtb (t_memory t) 90
             then ["Memory usage too high - risk of system instability"]
             else []) |},
     after_pre_flight env s).
Proof.
  cbv beta iota zeta delta
    [pre_flight_check mbind mret M_bind M_ret bind ret get next_sample emit
       set_original_cpu_usage after_pre_flight cpu_warning
       config worker_processes original_cpu_usage procs samples trace].
  destruct s as [c wp oc ps sm tr]; cbv beta iota.
  rewrite <- !app_assoc. cbn [app].
  destruct (Qgtb (t_cpu (psutil env sm)) 70),
           (Qgtb (t_cpu (psutil env sm)) 85),
           (Qgtb (t_memory (psutil env sm)) 90),
           (Qgtb (t_disk (psutil env sm)) 95); reflexivity.
Qed.

(** C5: the pre-flight check reports [safe = false], with a non-empty
    blockers list, exactly when the CPU reading exceeds 85 or the memory
    reading exceeds 90.  A CPU reading above 70 and a disk reading above
    95 each add a warning and nothing else: with CPU at most 85 and
    memory at most 90 the verdict is safe and there is no blocker,
    whatever the warnings. *)
Theorem pre_flight_check_spec (env : Env) (s : State) :
  let t := psutil env (samples s) in
  exists r,
    pre_flight_check env s = (Return r, after_pre_flight env s) /\
    (checks_safe r = false <-> (85 < t_cpu t \/ 90 < t_memory t)%Q) /\
    (checks_safe r = false <-> blockers r <> []) /\
    ((70 < t_cpu t)%Q <-> In (cpu_warning (t_cpu t)) (warnings r)) /\
    ((95 < t_disk t)%Q <->
       In "Low disk space - may affect logging and metrics" (warnings r)) /\
    ((t_cpu t <= 85)%Q -> (t_memory t <= 90)%Q ->
       checks_safe r = true /\ blockers r = []).
Proof.
  intros t. eexists. split; [apply pre_flight_check_eq|].
  fold t. cbn [checks_safe warnings blockers].
  pose proof (Qgtb_lt (t_cpu t) 70) as H70.
  pose proof (Qgtb_lt (t_cpu t) 85) as H85.
  pose proof (Qgtb_lt (t_memory t) 90) as H90.
  pose proof (Qgtb_lt (t_disk t) 95) as H95.
  split; [|split; [|split; [|split]]].
  - rewrite negb_false_iff, orb_true_iff, H85, H90. reflexivity.
  - destruct (Qgtb (t_cpu t) 85), (Qgtb (t_memory t) 90); cbn;
      split; congruence.
  - rewrite <- H70.
    destruct (Qgtb (t_cpu t) 70), (Qgtb (t_disk t) 95); cbn;
      split; try tauto; try discriminate.
    unfold cpu_warning. intros [E|[]]. discriminate E.
  - rewrite <- H95.
    destruct (Qgtb (t_cpu t) 70), (Qgtb (t_disk t) 95); cbn;
      split; try tauto; try discriminate.
    unfold cpu_warning. intros [E|[]]. discriminate E.
  - intros Hc Hm.
    assert (Qgtb (t_cpu t) 85 = false) as ->.
    { destruct (Qgtb (t_cpu t) 85); [|reflexivity].
      destruct H85 as [H85 _]. specialize (H85 eq_refl).
      exfalso. exact (Qlt_not_le _ _ H85 Hc). }
    assert (Qgtb (t_memory t) 90 = false) as ->.
    { destruct (Qgtb (t_memory t) 90); [|reflexivity].
      destruct H90 as [H90 _]. specialize (H90 eq_refl).
      exfalso. exact (Qlt_not_le _ _ H90 Hm). }
    split; reflexivity.
Qed.

(** ** The worker pool *)

Lemma steps_app (tr1 tr2 : list Event) :
  steps (tr1 ++ tr2) = steps tr1 ++ steps tr2.
Proof. apply omap_app. Qed.

Lemma before_app_l (e1 e2 : Event) (tr tr' : list Event) :
  before e1 e2 tr -> before e1 e2 (tr ++ tr').
Proof.
  intros (a & b & -> & Hin). exists a, (b ++ tr'). split.
  - rewrite <- app_assoc. reflexivity.
  - apply in_or_app. left. exact Hin.
Qed.

Lemma before_app_r (e1 e2 : Event) (tr tr' : list Event) :
  before e1 e2 tr' -> before e1 e2 (tr ++ tr').
Proof.
  intros (a & b & -> & Hin). exists (tr ++ a), b. split; [|exact Hin].
  rewrite <- app_assoc. reflexivity.
Qed.

Lemma before_in (e1 e2 : Event) (tr1 tr2 : list Event) :
  In e1 tr1 -> In e2 tr2 -> before e1 e2 (tr1 ++ tr2).
Proof.
  intros H1 H2. apply in_split in H1 as (a & b & ->).
  exists a, (b ++ tr2). split.
  - rewrite <- app_assoc. reflexivity.
  - apply in_or_app. right. exact H2.
Qed.

Lemma no_spawn_refl (s : State) : no_spawn [] s s.
Proof.
  split; try reflexivity; try (intros pid H; exact H).
  symmetry. apply app_nil_r.
Qed.

Lemma no_spawn_trans (tr1 tr2 : list Event) (s1 s2 s3 : State) :
  no_spawn tr1 s1 s2 -> no_spawn tr2 s2 s3 ->
  no_spawn (tr1 ++ tr2) s1 s3.
Proof.
  intros [Hc Hw Ho Hl Ha Hs Hg Hk Ht] [Hc' Hw' Ho' Hl' Ha' Hs' Hg' Hk' Ht'].
  split; try congruence.
  - intros pid H. apply Ha, Ha', H.
  - intros pid H. apply Hg', Hg, H.
  - intros pid H. apply Hk', Hk, H.
  - rewrite app_assoc. congruence.
Qed.

Lemma terminate_eq (pid : nat) (s : State) :
  terminate pid s = (Return tt, signal signal_term pid (EvTerminate pid) s).
Proof. reflexivity. Qed.

Lemma join_eq (pid : nat) (timeout : Z) (s : State) :
  join pid timeout s = (Return tt, signal wait_exit pid (EvJoin pid timeout) s).
Proof. reflexivity. Qed.

Lemma kill_eq (pid : nat) (s : State) :
  kill pid s = (Return tt, signal signal_kill pid (EvKill pid) s).
Proof. reflexivity. Qed.

Lemma asyncio_sleep_eq (seconds : Z) (s : State) :
  asyncio_sleep seconds s = (Return tt, slept seconds s).
Proof. reflexivity. Qed.

Lemma signal_term_tame : tame signal_term.
Proof. intros p. cbn. auto. Qed.

Lemma wait_exit_tame : tame wait_exit.
Proof.
  intros p. cbn. repeat split; auto.
  intros H. apply andb_true_iff in H. tauto.
Qed.

Lemma signal_kill_tame : tame signal_kill.
Proof. intros p. cbn. auto. Qed.

Lemma time_passes_tame : tame time_passes.
Proof.
  intros p. cbn. repeat split; auto.
  intros H. apply andb_true_iff in H. tauto.
Qed.

Lemma at_alter_tame (f : Proc -> Proc) (ps : list Proc) (i pid : nat) :
  tame f ->
  (alive_at (alter f i ps) pid = true -> alive_at ps pid = true) /\
  stubborn_at (alter f i ps) pid = stubborn_at ps pid /\
  (signalled_at ps pid = true -> signalled_at (alter f i ps) pid = true) /\
  (killed_at ps pid = true -> killed_at (alter f i ps) pid = true).
Proof.
  intros Hf. unfold alive_at, stubborn_at, signalled_at, killed_at.
  destruct (decide (i = pid)) as [->|Hne].
  - rewrite list_lookup_alter_eq. destruct (ps !! pid) as [p|]; cbn.
    + apply Hf.
    + repeat split; auto.
  - rewrite list_lookup_alter_ne by exact Hne. repeat split; auto.
Qed.

Lemma at_alter_ne (f : Proc -> Proc) (ps : list Proc) (i pid : nat) :
  i <> pid ->
  alive_at (alter f i ps) pid = alive_at ps pid /\
  stubborn_at (alter f i ps) pid = stubborn_at ps pid /\
  signalled_at (alter f i ps) pid = signalled_at ps pid.
Proof.
  intros Hne. unfold alive_at, stubborn_at, signalled_at.
  rewrite list_lookup_alter_ne by exact Hne. repeat split.
Qed.

Lemma killed_at_alter_ne (f : Proc -> Proc) (ps : list Proc) (i pid : nat) :
  i <> pid -> killed_at (alter f i ps) pid = killed_at ps pid.
Proof.
  intros Hne. unfold killed_at.
  rewrite list_lookup_alter_ne by exact Hne. reflexivity.
Qed.

Lemma alive_at_lt (ps : list Proc) (pid : nat) :
  alive_at ps pid = true -> (pid < length ps)%nat.
Proof.
  unfold alive_at. destruct (ps !! pid) eqn:E; [|discriminate].
  intros _. apply lookup_lt_Some in E. exact E.
Qed.

Lemma at_signal_term (ps : list Proc) (i pid : nat) :
  alive_at (alter signal_term i ps) pid = alive_at ps pid /\
  stubborn_at (alter signal_term i ps) pid = stubborn_at ps pid.
Proof.
  destruct (decide (i = pid)) as [->|Hne].
  - unfold alive_at, stubborn_at. rewrite list_lookup_alter_eq.
    destruct (ps !! pid); split; reflexivity.
  - destruct (at_alter_ne signal_term ps i pid Hne) as (? & ? & _).
    split; assumption.
Qed.

Lemma signalled_at_signal_term (ps : list Proc) (i pid : nat) :
  signalled_at ps pid = true \/ (i = pid /\ alive_at ps pid = true) ->
  signalled_at (alter signal_term i ps) pid = true.
Proof.
  intros H. destruct (decide (i = pid)) as [->|Hne].
  - unfold signalled_at, alive_at in *. rewrite list_lookup_alter_eq.
    destruct (ps !! pid); [reflexivity|].
    destruct H as [H|[_ H]]; discriminate H.
  - destruct (at_alter_ne signal_term ps i pid Hne) as (_ & _ & E).
    rewrite E. destruct H as [H|[H _]]; [exact H|destruct (Hne H)].
Qed.

(** A process that is alive after its join and had been sent SIGTERM
    ignores SIGTERM. *)
Lemma alive_after_wait_exit (ps : list Proc) (pid : nat) :
  alive_at (alter wait_exit pid ps) pid = true ->
  signalled_at ps pid = true -> stubborn_at ps pid = true.
Proof.
  unfold alive_at, signalled_at, stubborn_at.
  rewrite list_lookup_alter_eq.
  destruct (ps !! pid) as [[a sg st kl]|]; cbn; [|discriminate].
  destruct a, sg, st; cbn; congruence.
Qed.

(** [kill()] records the signal and leaves the process alive. *)
Lemma at_signal_kill (ps : list Proc) (pid : nat) :
  alive_at ps pid = true ->
  alive_at (alter signal_kill pid ps) pid = true /\
  killed_at (alter signal_kill pid ps) pid = true.
Proof.
  unfold alive_at, killed_at. rewrite list_lookup_alter_eq.
  destruct (ps !! pid) as [p|]; cbn; [|discriminate].
  intros H. split; [exact H|reflexivity].
Qed.

(** During a sleep exactly the processes with a pending SIGKILL die. *)
Lemma at_time_passes (ps : list Proc) (pid : nat) :
  alive_at (time_passes <$> ps) pid =
    alive_at ps pid && negb (killed_at ps pid) /\
  stubborn_at (time_passes <$> ps) pid = stubborn_at ps pid /\
  signalled_at (time_passes <$> ps) pid = signalled_at ps pid /\
  killed_at (time_passes <$> ps) pid = killed_at ps pid.
Proof.
  unfold alive_at, stubborn_at, signalled_at, killed_at.
  rewrite list_lookup_fmap. destruct (ps !! pid); repeat split.
Qed.

Lemma signal_no_spawn (f : Proc -> Proc) (pid : nat) (e : Event) (s : State) :
  tame f -> no_spawn [e] s (signal f pid e s).
Proof.
  intros Hf. split; try reflexivity; cbn [signal procs].
  - apply length_alter.
  - intros q. apply (at_alter_tame f (procs s) pid q Hf).
  - intros q. apply (at_alter_tame f (procs s) pid q Hf).
  - intros q. apply (at_alter_tame f (procs s) pid q Hf).
  - intros q. apply (at_alter_tame f (procs s) pid q Hf).
Qed.

Lemma terminate_all_cons (pid : nat) (l : list nat) (s : State) :
  terminate_all (pid :: l) s =
  terminate_all l
    (if alive_at (procs s) pid
     then signal signal_term pid (EvTerminate pid) s else s).
Proof.
  cbn [terminate_all].
  cbv beta iota delta [mbind M_bind bind is_alive get mret M_ret ret when].
  destruct (alive_at (procs s) pid); reflexivity.
Qed.

Lemma join_all_cons (pid : nat) (l : list nat) (s : State) :
  let s1 := signal wait_exit pid (EvJoin pid 5) s in
  join_all (pid :: l) s =
  join_all l
    (if alive_at (procs s1) pid
     then signal signal_kill pid (EvKill pid) s1 else s1).
Proof.
  cbn [join_all].
  cbv beta iota delta [mbind M_bind bind is_alive get mret M_ret ret when].
  rewrite join_eq.
  destruct (alive_at (procs (signal wait_exit pid (EvJoin pid 5) s)) pid);
    reflexivity.
Qed.

(** The first loop sends SIGTERM to every listed process that is
    alive. *)
Lemma terminate_all_spec (l : list nat) (s : State) :
  exists s' tr,
    terminate_all l s = (Return tt, s') /\ no_spawn tr s s' /\ steps tr = [] /\
    forall pid, pid ∈ l -> alive_at (procs s) pid = true ->
      In (EvTerminate pid) tr /\ signalled_at (procs s') pid = true.
Proof.
  revert s. induction l as [|pid l IH]; intros s.
  - exists s, []. split; [reflexivity|]. split; [apply no_spawn_refl|].
    split; [reflexivity|].
    intros pid H. apply elem_of_nil in H. destruct H.
  - rewrite terminate_all_cons.
    destruct (alive_at (procs s) pid) eqn:Epid.
    + set (s1 := signal signal_term pid (EvTerminate pid) s).
      assert (no_spawn [EvTerminate pid] s s1) as H1
        by apply signal_no_spawn, signal_term_tame.
      destruct (IH s1) as (s' & tr & Hrun & Hso & Hsteps & Hl).
      exists s', ([EvTerminate pid] ++ tr). split; [exact Hrun|].
      split; [eapply no_spawn_trans; eassumption|].
      split; [rewrite steps_app, Hsteps; reflexivity|].
      intros q Hq Hq_alive. apply elem_of_cons in Hq as [->|Hq].
      * split; [left; reflexivity|].
        apply (so_signalled _ _ _ Hso). unfold s1. cbn [signal procs].
        apply signalled_at_signal_term. right. split; [reflexivity|exact Epid].
      * destruct (Hl q Hq) as [Hin Hsig].
        { unfold s1. cbn [signal procs].
          destruct (at_signal_term (procs s) pid q) as [-> _]. exact Hq_alive. }
        split; [right; exact Hin|exact Hsig].
    + destruct (IH s) as (s' & tr & Hrun & Hso & Hsteps & Hl).
      exists s', tr. split; [exact Hrun|]. split; [exact Hso|].
      split; [exact Hsteps|].
      intros q Hq Hq_alive. apply elem_of_cons in Hq as [->|Hq];
        [congruence|]. apply Hl; assumption.
Qed.

(** The second loop joins every listed process.  One that is alive
    afterwards has been sent SIGKILL after its join, and if it had been
    sent SIGTERM it is one that ignores SIGTERM. *)
Lemma join_all_spec (l : list nat) (s : State) :
  exists s' tr,
    join_all l s = (Return tt, s') /\ no_spawn tr s s' /\ steps tr = [] /\
    forall pid, pid ∈ l ->
      In (EvJoin pid 5) tr /\
      (alive_at (procs s') pid = true ->
       killed_at (procs s') pid = true /\
       before (EvJoin pid 5) (EvKill pid) tr /\
       (signalled_at (procs s) pid = true -> stubborn_at (procs s) pid = true)).
Proof.
  revert s. induction l as [|pid l IH]; intros s.
  - exists s, []. split; [reflexivity|]. split; [apply no_spawn_refl|].
    split; [reflexivity|].
    intros pid H. apply elem_of_nil in H. destruct H.
  - rewrite join_all_cons. cbv zeta.
    set (s1 := signal wait_exit pid (EvJoin pid 5) s).
    assert (no_spawn [EvJoin pid 5] s s1) as H1
      by apply signal_no_spawn, wait_exit_tame.
    set (s2 := if alive_at (procs s1) pid
               then signal signal_kill pid (EvKill pid) s1 else s1).
    assert (exists tr2, no_spawn tr2 s1 s2 /\ steps tr2 = [] /\
              (alive_at (procs s2) pid = true ->
               killed_at (procs s2) pid = true /\ tr2 = [EvKill pid] /\
               alive_at (procs s1) pid = true))
      as (tr2 & H2 & Hsteps2 & Hkill).
    { unfold s2. destruct (alive_at (procs s1) pid) eqn:E.
      - exists [EvKill pid]. split; [|split].
        + apply signal_no_spawn, signal_kill_tame.
        + reflexivity.
        + intros _. cbn [signal procs].
          split; [apply at_signal_kill, E|split; reflexivity].
      - exists []. split; [apply no_spawn_refl|]. split; [reflexivity|].
        intros F. congruence. }
    destruct (IH s2) as (s' & tr & Hrun & Hso & Hsteps & Hl).
    pose proof (no_spawn_trans _ _ _ _ _ H1 H2) as H12.
    exists s', (([EvJoin pid 5] ++ tr2) ++ tr).
    split; [exact Hrun|]. split; [|split].
    + eapply no_spawn_trans; eassumption.
    + rewrite !steps_app, Hsteps2, Hsteps. reflexivity.
    + intros q Hin. apply elem_of_cons in Hin as [->|Hin].
      * split; [left; reflexivity|].
        intros Hq. apply (so_alive _ _ _ Hso) in Hq.
        destruct (Hkill Hq) as (Hk & -> & Hq1).
        split; [apply (so_killed _ _ _ Hso), Hk|]. split.
        -- exists [], ([EvKill pid] ++ tr). split; [reflexivity|].
           left. reflexivity.
        -- unfold s1 in Hq1. cbn [signal procs] in Hq1.
           apply alive_after_wait_exit, Hq1.
      * destruct (Hl q Hin) as [Hj Hq]. split.
        -- apply in_or_app. right. exact Hj.
        -- intros Hal. destruct (Hq Hal) as (Hk & Hb & Hst).
           split; [exact Hk|]. split; [apply before_app_r, Hb|].
           intros Hsig. rewrite <- (so_stubborn _ _ _ H12).
           apply Hst, (so_signalled _ _ _ H12), Hsig.
Qed.

Lemma log_eq (msg : string) (s : State) : log msg s = (Return tt, logged msg s).
Proof. reflexivity. Qed.

Lemma same_procs_quiet (tr : list Event) (s s' : State) :
  config s' = config s -> worker_processes s' = worker_processes s ->
  original_cpu_usage s' = original_cpu_usage s -> procs s' = procs s ->
  trace s' = trace s ++ tr -> quiet tr s s'.
Proof.
  intros Hc Hw Ho Hp Ht.
  split; [split|..]; rewrite ?Hp; try assumption; try reflexivity;
    intros pid H; try exact H.
  intros _. exact H.
Qed.

Lemma logged_quiet (msg : string) (s : State) :
  quiet [EvLog msg] s (logged msg s).
Proof. apply same_procs_quiet; reflexivity. Qed.

Lemma emitted_quiet (e : Event) (s : State) : quiet [e] s (emitted e s).
Proof. apply same_procs_quiet; reflexivity. Qed.

Lemma sampled_quiet (s : State) :
  quiet [EvCpuPercent; EvVirtualMemory] s (sampled s).
Proof.
  apply same_procs_quiet; try reflexivity.
  cbn. rewrite <- app_assoc. reflexivity.
Qed.

Lemma slept_quiet (seconds : Z) (s : State) :
  quiet [EvSleep seconds] s (slept seconds s).
Proof.
  split; [split|..]; try reflexivity; cbn [slept procs];
    [apply length_fmap|..]; intros pid.
  - destruct (at_time_passes (procs s) pid) as (-> & _).
    intros H. apply andb_true_iff in H. tauto.
  - apply at_time_passes.
  - destruct (at_time_passes (procs s) pid) as (_ & _ & -> & _). auto.
  - destruct (at_time_passes (procs s) pid) as (_ & _ & _ & ->). auto.
  - destruct (at_time_passes (procs s) pid) as (-> & _).
    intros -> ->. reflexivity.
  - destruct (at_time_passes (procs s) pid) as (_ & _ & _ & ->). auto.
Qed.

Lemma logged_no_spawn (msg : string) (s : State) :
  no_spawn [EvLog msg] s (logged msg s).
Proof. apply logged_quiet. Qed.

Lemma stop_spec (s : State) :
  exists s' tr,
    _stop_cpu_stress_workers s = (Return tt, s') /\ stopped tr s s'.
Proof.
  destruct (terminate_all_spec (worker_processes s)
              (logged "Stopping CPU stress workers" s))
    as (s1 & tr1 & Hrun1 & Hso1 & Hsteps1 & Hterm).
  destruct (join_all_spec (worker_processes s) s1)
    as (s2 & tr2 & Hrun2 & Hso2 & Hsteps2 & Hjoin).
  pose proof (no_spawn_trans _ _ _ _ _
                (logged_no_spawn "Stopping CPU stress workers" s) Hso1) as Ha.
  pose proof (no_spawn_trans _ _ _ _ _ Ha Hso2) as Hb.
  exists (clear_workers s2),
    ((([EvLog "Stopping CPU stress workers"] ++ tr1) ++ tr2)
       ++ [EvLog "All CPU stress workers stopped"]).
  split.
  - unfold _stop_cpu_stress_workers.
    unfold mbind, M_bind, bind, get, mret, M_ret, ret.
    rewrite log_eq. cbn [logged worker_processes].
    fold (logged "Stopping CPU stress workers" s).
    rewrite Hrun1, Hrun2. reflexivity.
  - destruct Hb as [Hc Hw Ho Hlen Hal Hstub Hsig Hkil Htr].
    split; cbn [clear_workers config worker_processes original_cpu_usage procs].
    + exact Hc.
    + reflexivity.
    + exact Ho.
    + exact Hlen.
    + exact Hal.
    + exact Hstub.
    + exact Hkil.
    + intros pid Hin Halive.
      destruct (Hterm pid Hin Halive) as [Ht _].
      destruct (Hjoin pid Hin) as [Hj _].
      apply before_app_l. rewrite <- app_assoc. apply before_app_r.
      apply before_in; assumption.
    + intros pid Hin Halive.
      destruct (Hjoin pid Hin) as [_ Hsurv].
      destruct (Hsurv Halive) as (Hk & Hbefore & Hst).
      split; [|split; [exact Hk|]].
      * rewrite (so_stubborn _ _ _ Hso2). apply Hst.
        apply (Hterm pid Hin). apply Hal, Halive.
      * apply before_app_l, before_app_r, Hbefore.
    + rewrite !steps_app, Hsteps1, Hsteps2. reflexivity.
    + change (trace s2 ++ [EvLog "All CPU stress workers stopped"] =
              trace s ++ (([EvLog "Stopping CPU stress workers"] ++ tr1) ++ tr2)
                ++ [EvLog "All CPU stress workers stopped"]).
      rewrite Htr, <- !app_assoc. reflexivity.
Qed.

Lemma stop_no_workers (s : State) :
  worker_processes s = [] ->
  _stop_cpu_stress_workers s =
    (Return tt, clear_workers (logged "Stopping CPU stress workers" s)).
Proof.
  intros E. unfold _stop_cpu_stress_workers.
  cbv beta iota delta [mbind M_bind bind get mret M_ret ret].
  rewrite log_eq. cbn [logged worker_processes]. rewrite E. reflexivity.
Qed.

(** C8: stopping the workers twice in a row.  Both calls return; the
    second call finds the pool list empty, sends no signal (its only
    events are its two log lines) and leaves the list, the process table
    and the configuration as the first call left them. *)
Theorem stop_twice (s : State) :
  exists s1 s2,
    _stop_cpu_stress_workers s = (Return tt, s1) /\
    _stop_cpu_stress_workers s1 = (Return tt, s2) /\
    worker_processes s1 = [] /\
    worker_processes s2 = worker_processes s1 /\
    procs s2 = procs s1 /\
    config s2 = config s1 /\
    trace s2 = trace s1 ++ [EvLog "Stopping CPU stress workers";
                            EvLog "All CPU stress workers stopped"].
Proof.
  destruct (stop_spec s) as (s1 & tr & Hrun & Hst).
  exists s1, (clear_workers (logged "Stopping CPU stress workers" s1)).
  pose proof (st_workers _ _ _ Hst) as Hw.
  split; [exact Hrun|]. split; [apply stop_no_workers, Hw|].
  split; [exact Hw|]. split; [symmetry; exact Hw|].
  split; [reflexivity|]. split; [reflexivity|].
  cbn. rewrite <- app_assoc. reflexivity.
Qed.

(** ** cleanup *)

Lemma sample_metrics_eq (env : Env) (s : State) :
  sample_metrics env s =
    (Return (psutil env (samples s)),
     {| config := config s; worker_processes := worker_processes s;
        original_cpu_usage := original_cpu_usage s; procs := procs s;
        samples := S (samples s);
        trace := (trace s ++ [EvCpuPercent]) ++ [EvVirtualMemory] |}).
Proof. reflexivity. Qed.

(** C9: whatever the pool holds when [cleanup] is called, the call
    returns and its [workers_terminated] field is 0: the count is taken
    from the pool list after the stop routine has cleared it. *)
Theorem cleanup_workers_terminated (env : Env) (s : State) :
  exists r s',
    cleanup env s = (Return r, s') /\
    cleanup_complete r = true /\
    workers_terminated r = 0%nat /\
    worker_processes s' = [] /\
    forall pid, pid ∈ worker_processes s -> alive_at (procs s') pid = false.
Proof.
  destruct (stop_spec (logged "Cleaning up CPU stress experiment" s))
    as (s1 & tr & Hrun & Hst).
  pose proof (st_workers _ _ _ Hst) as Hw.
  eexists. eexists. split.
  - unfold cleanup.
    cbv beta iota delta [mbind M_bind bind get mret M_ret ret].
    rewrite log_eq, Hrun, asyncio_sleep_eq, sample_metrics_eq. reflexivity.
  - cbn [cleanup_complete workers_terminated worker_processes procs slept].
    rewrite Hw. repeat split.
    intros pid Hin.
    destruct (at_time_passes (procs s1) pid) as (-> & _).
    destruct (alive_at (procs s1) pid) eqn:E; [|reflexivity].
    destruct (st_survivor _ _ _ Hst pid Hin E) as (_ & -> & _). reflexivity.
Qed.

(** ** Worker-count defaulting *)

(** C10: a configuration with [workers = 0] is not rejected for its
    worker count (its verdict depends on intensity and duration only,
    and no worker-count message is produced), and [setup] returns with a
    non-zero worker count in the configuration: [None] and [0] are both
    replaced by [max(1, cpu_count - 1)], which is at least 1. *)
Theorem zero_workers_defaulted (env : Env) (s : State) :
  (workers (config s) = Some 0 ->
   exists r,
     validate_parameters env s = (Return r, s) /\
     (valid r = true <-> in_range (config s)) /\
     ~ In ("Worker count cannot exceed " +:+ str_int (cpu_count env * 2))
          (errors r)) /\
  exists r s',
    setup env s = (Return r, s') /\
    (workers (config s) = None \/ workers (config s) = Some 0 ->
     workers (config s') = Some (Z.max 1 (cpu_count env - 1))) /\
    (exists w, workers (config s') = Some w /\ w <> 0) /\
    1 <= Z.max 1 (cpu_count env - 1) /\
    workers_planned r = workers (config s').
Proof.
  split.
  - intros E0. eexists. split; [apply validate_parameters_eq|].
    cbn [valid errors].
    assert (bad_workers env (config s) = false) as ->
      by (unfold bad_workers; rewrite E0; reflexivity).
    unfold in_range. split.
    + rewrite orb_false_r, negb_true_iff, orb_false_iff,
        bad_cpu_false_iff, bad_duration_false_iff. reflexivity.
    + destruct (bad_cpu (config s)), (bad_duration (config s)); cbn;
        intros H; repeat destruct H as [H|H]; try discriminate H; exact H.
  - unfold setup.
    cbv beta iota delta [mbind M_bind bind get mret M_ret ret when].
    rewrite log_eq. cbn [logged config].
    destruct (workers (config s)) as [w|] eqn:Ew.
    + destruct (Z.eqb_spec w 0) as [->|Hne].
      * cbn. eexists. eexists. split; [reflexivity|]. cbn.
        split; [reflexivity|]. split; [|split; [lia|reflexivity]].
        eexists. split; [reflexivity|]. lia.
      * cbn. apply Z.eqb_neq in Hne as Hb. rewrite Hb. cbn.
        eexists. eexists. split; [reflexivity|]. cbn. rewrite Ew.
        split; [intros [F|F]; congruence|].
        split; [|split; [lia|reflexivity]].
        eexists. split; [reflexivity|]. exact Hne.
    + cbn. eexists. eexists. split; [reflexivity|]. cbn.
      split; [reflexivity|]. split; [|split; [lia|reflexivity]].
      eexists. split; [reflexivity|]. lia.
Qed.

(** ** execute: every exit path tears the pool down *)

Lemma bind_Return {A B} (m : M A) (k : A -> M B) (s s' : State) (a : A) :
  m s = (Return a, s') -> (m ≫= k) s = k a s'.
Proof.
  intros E. cbv beta iota delta [mbind M_bind bind]. rewrite E. reflexivity.
Qed.

Lemma bind_Raise {A B} (m : M A) (k : A -> M B) (s s' : State) (e : PyExn) :
  m s = (Raise e, s') -> (m ≫= k) s = (Raise e, s').
Proof.
  intros E. cbv beta iota delta [mbind M_bind bind]. rewrite E. reflexivity.
Qed.

Lemma bind_OutOfFuel {A B} (m : M A) (k : A -> M B) (s s' : State) :
  m s = (OutOfFuel, s') -> (m ≫= k) s = (OutOfFuel, s').
Proof.
  intros E. cbv beta iota delta [mbind M_bind bind]. rewrite E. reflexivity.
Qed.

Lemma owned_init (s0 : State) : owned s0 [] s0.
Proof.
  split; try reflexivity.
  - intros pid H. destruct (decide (pid ∈ worker_processes s0)); auto.
  - intros pid H. lia.
  - symmetry. apply app_nil_r.
Qed.

Lemma owned_quiet (s0 s s' : State) (tr tr' : list Event) :
  owned s0 tr s -> quiet tr' s s' -> owned s0 (tr ++ tr') s'.
Proof.
  intros [Hc Hl Ha Hj Ht]
    [[Hc' Hw' _ Hl' Ha' Hs' _ Hk' Ht'] Hstay Hunk].
  split.
  - congruence.
  - lia.
  - intros pid H. rewrite Hw'.
    destruct (Ha pid (Ha' pid H)) as [?|[?|[Hst Hkl]]]; auto.
    right. right. rewrite Hs'. auto.
  - intros pid H. rewrite Hw'. rewrite Hl' in H.
    destruct (Hj pid H) as [(Hin & Hal & Hkl)|[Hb Hforce]].
    + left. split; [exact Hin|]. split; [apply Hstay; assumption|].
      destruct (killed_at (procs s') pid) eqn:E; [|reflexivity].
      apply Hunk in E. congruence.
    + right. split; [apply before_app_l, Hb|].
      intros Hal. apply before_app_l, Hforce, Ha', Hal.
  - rewrite Ht', Ht, app_assoc. reflexivity.
Qed.

Lemma owned_stopped (s0 s s' : State) (tr tr' : list Event) :
  owned s0 tr s -> stopped tr' s s' ->
  owned s0 (tr ++ tr') s' /\ worker_processes s' = [].
Proof.
  intros [Hc Hl Ha Hj Ht]
    [Hc' Hw' _ Hl' Ha' Hs' Hk' Htorn Hsurv _ Ht'].
  split; [split|exact Hw'].
  - congruence.
  - lia.
  - intros pid H. right.
    destruct (Ha pid (Ha' pid H)) as [Hin|[?|[Hst Hkl]]].
    + right. destruct (Hsurv pid Hin H) as (? & ? & _). auto.
    + left. assumption.
    + right. rewrite Hs'. auto.
  - intros pid H. right. rewrite Hl' in H.
    destruct (Hj pid H) as [(Hin & Hal & Hkl)|[Hb Hforce]].
    + split; [apply before_app_r, Htorn; assumption|].
      intros Hal'. apply before_app_r. apply (Hsurv pid Hin Hal').
    + split; [apply before_app_l, Hb|].
      intros Hal. apply before_app_l, Hforce, Ha', Hal.
  - rewrite Ht', Ht, app_assoc. reflexivity.
Qed.

Lemma owned_logged (s0 s : State) (tr : list Event) (msg : string) :
  owned s0 tr s -> owned s0 (tr ++ [EvLog msg]) (logged msg s).
Proof.
  intros H. eapply owned_quiet; [exact H|apply logged_quiet].
Qed.

Lemma start_workers_S (env : Env) (n : nat) (percent share : Z) (s : State) :
  start_workers env (S n) percent share s =
  match start_fails env (length (procs s)) with
  | Some e => (Raise e, s)
  | None => start_workers env n percent share (started env percent share s)
  end.
Proof.
  cbn [start_workers].
  cbv beta iota delta [mbind M_bind bind get mret M_ret ret].
  destruct (start_fails env (length (procs s))); reflexivity.
Qed.

(** Appending a process changes nothing at the pids already there, and
    the new process is alive and has been sent no signal. *)
Lemma at_app_l (ps : list Proc) (p : Proc) (pid : nat) :
  (pid < length ps)%nat ->
  alive_at (ps ++ [p]) pid = alive_at ps pid /\
  stubborn_at (ps ++ [p]) pid = stubborn_at ps pid /\
  killed_at (ps ++ [p]) pid = killed_at ps pid.
Proof.
  intros Hlt. unfold alive_at, stubborn_at, killed_at.
  rewrite lookup_app_l by exact Hlt. repeat split.
Qed.

Lemma at_app_new (ps : list Proc) (p : Proc) :
  alive_at (ps ++ [p]) (length ps) = p_alive p /\
  killed_at (ps ++ [p]) (length ps) = p_killed p.
Proof.
  unfold alive_at, killed_at.
  rewrite lookup_app_r, Nat.sub_diag by lia. split; reflexivity.
Qed.

Lemma owned_started (env : Env) (percent share : Z) (s0 s : State)
    (tr : list Event) :
  owned s0 tr s ->
  owned s0 (tr ++ [EvStart (length (procs s)) percent share])
        (started env percent share s).
Proof.
  intros [Hc Hl Ha Hj Ht]. split; cbn [started config procs worker_processes trace].
  - exact Hc.
  - rewrite length_app. lia.
  - intros pid H.
    destruct (decide (pid < length (procs s))%nat) as [Hlt|Hge].
    + rewrite (proj1 (at_app_l _ _ pid Hlt)) in H.
      rewrite (proj1 (proj2 (at_app_l _ _ pid Hlt))),
        (proj2 (proj2 (at_app_l _ _ pid Hlt))).
      destruct (Ha pid H) as [Hin|[?|?]]; auto.
      left. apply elem_of_app. left. exact Hin.
    + apply alive_at_lt in H. rewrite length_app in H. cbn in H.
      left. apply elem_of_app. right. apply list_elem_of_singleton. lia.
  - intros pid H. rewrite length_app in H. cbn in H.
    destruct (decide (pid < length (procs s))%nat) as [Hlt|Hge].
    + rewrite (proj1 (at_app_l _ _ pid Hlt)),
        (proj2 (proj2 (at_app_l _ _ pid Hlt))).
      destruct (Hj pid (conj (proj1 H) Hlt)) as [(Hin & Hal & Hkl)|[Hb Hforce]].
      * left. split; [|split; assumption].
        apply elem_of_app. left. exact Hin.
      * right. split; [apply before_app_l, Hb|].
        intros Hal. apply before_app_l, Hforce, Hal.
    + assert (pid = length (procs s)) as -> by lia.
      left. split; [|apply at_app_new].
      apply elem_of_app. right. apply list_elem_of_singleton. reflexivity.
  - rewrite Ht, app_assoc. reflexivity.
Qed.

(** [log msg; _stop_cpu_stress_workers(); raise e]: the shape of both
    the safety-violation branch and the [except] handler. *)
Lemma log_stop_raise {A} (msg : string) (e : PyExn) (s0 s : State)
    (tr : list Event) :
  owned s0 tr s ->
  exists s' tr',
    (log msg;; _stop_cpu_stress_workers;; raise e : M A) s = (Raise e, s') /\
    owned s0 (tr ++ tr') s' /\ worker_processes s' = [] /\ steps tr' = [] /\
    length (procs s') = length (procs s).
Proof.
  intros Ho.
  destruct (stop_spec (logged msg s)) as (s' & tr' & Hrun & Hst).
  destruct (owned_stopped _ _ _ _ _ (owned_logged _ _ _ msg Ho) Hst) as [Ho' Hw].
  exists s', ([EvLog msg] ++ tr'). split; [|split; [|split; [|split]]].
  - rewrite (bind_Return _ _ _ _ _ (log_eq msg s)).
    rewrite (bind_Return _ _ _ _ _ Hrun). reflexivity.
  - rewrite app_assoc. exact Ho'.
  - exact Hw.
  - rewrite steps_app, (st_steps _ _ _ Hst). reflexivity.
  - apply (st_length _ _ _ Hst).
Qed.

Lemma start_workers_owned (env : Env) (n : nat) (percent share : Z)
    (s0 s : State) (tr : list Event) :
  owned s0 tr s ->
  exists r s' tr',
    start_workers env n percent share s = (r, s') /\
    r <> OutOfFuel /\ owned s0 (tr ++ tr') s' /\ steps tr' = [] /\
    ((forall pid, start_fails env pid = None) -> r = Return tt).
Proof.
  revert s tr. induction n as [|n IH]; intros s tr Ho.
  - exists (Return tt), s, []. split; [reflexivity|]. split; [discriminate|].
    rewrite app_nil_r. split; [exact Ho|]. split; reflexivity.
  - rewrite start_workers_S.
    destruct (start_fails env (length (procs s))) as [e|] eqn:Ef.
    + exists (Raise e), s, []. split; [reflexivity|]. split; [discriminate|].
      rewrite app_nil_r. split; [exact Ho|]. split; [reflexivity|].
      intros Hno. rewrite Hno in Ef. discriminate Ef.
    + destruct (IH _ _ (owned_started env percent share _ _ _ Ho))
        as (r & s' & tr' & Hrun & Hr & Ho' & Hsteps & Hok).
      exists r, s', ([EvStart (length (procs s)) percent share] ++ tr').
      split; [exact Hrun|]. split; [exact Hr|].
      rewrite app_assoc. split; [exact Ho'|].
      split; [|exact Hok]. rewrite steps_app, Hsteps. reflexivity.
Qed.

Lemma start_owned (env : Env) (s0 s : State) (tr : list Event) :
  owned s0 tr s ->
  exists r s' tr',
    _start_cpu_stress_workers env s = (r, s') /\
    r <> OutOfFuel /\ owned s0 (tr ++ tr') s' /\ steps tr' = [] /\
    ((forall pid, start_fails env pid = None) ->
     workers (config s) <> None -> r = Return tt).
Proof.
  intros Ho. unfold _start_cpu_stress_workers.
  cbv beta iota delta [mbind M_bind bind get mret M_ret ret].
  rewrite log_eq. cbn [logged config].
  set (msg := "Starting " +:+ str_optional (workers (config s))
                +:+ " CPU stress workers").
  fold (logged msg s).
  pose proof (owned_logged _ _ _ msg Ho) as Ho1.
  destruct (workers (config s)) as [w|].
  - destruct (start_workers_owned env (Z.to_nat w) (cpu_percent (config s)) w
                _ _ _ Ho1) as (r & s' & tr' & Hrun & Hr & Ho' & Hsteps & Hok).
    rewrite Hrun. destruct r as [[]|e|].
    + rewrite log_eq.
      set (msg' := "Started " +:+ str_int (Z.of_nat (length (worker_processes s')))
                     +:+ " CPU stress workers").
      exists (Return tt), (logged msg' s'), (([EvLog msg] ++ tr') ++ [EvLog msg']).
      split; [reflexivity|]. split; [discriminate|].
      rewrite <- app_assoc in Ho'.
      apply (owned_logged _ _ _ msg') in Ho'.
      rewrite <- !app_assoc in Ho'. rewrite <- !app_assoc.
      split; [exact Ho'|]. split; [|reflexivity].
      rewrite !steps_app, Hsteps. reflexivity.
    + exists (Raise e), s', ([EvLog msg] ++ tr').
      split; [reflexivity|]. split; [discriminate|].
      rewrite app_assoc. split; [exact Ho'|].
      split; [rewrite steps_app, Hsteps; reflexivity|].
      intros Hno _. specialize (Hok Hno). discriminate Hok.
    + destruct (Hr eq_refl).
  - eexists. eexists. exists [EvLog msg].
    split; [reflexivity|]. split; [discriminate|]. split; [exact Ho1|].
    split; [reflexivity|]. intros _ Hn. destruct (Hn eq_refl).
Qed.

(** The start loop when no start fails, and the whole start routine. *)
Lemma spawned_S (env : Env) (percent share : Z) (n : nat) (s : State) :
  spawned env percent share n (started env percent share s) =
  spawned env percent share (S n) s.
Proof.
  unfold spawned, started, next_pids. cbn [config worker_processes
    original_cpu_usage procs samples trace].
  rewrite length_app, Nat.add_1_r. cbn [length seq map].
  rewrite <- !app_assoc. reflexivity.
Qed.

Lemma start_workers_spawned (env : Env) (percent share : Z) (n : nat) :
  forall s : State,
    (forall pid, (length (procs s) <= pid < length (procs s) + n)%nat ->
                 start_fails env pid = None) ->
    start_workers env n percent share s =
      (Return tt, spawned env percent share n s).
Proof.
  induction n as [|n IH]; intros s Hok.
  - cbn [start_workers]. unfold spawned, next_pids. cbn [seq map].
    rewrite !app_nil_r. destruct s; reflexivity.
  - rewrite start_workers_S, (Hok (length (procs s))) by lia.
    rewrite IH.
    + rewrite spawned_S. reflexivity.
    + intros pid Hpid. apply Hok. cbn [started procs] in Hpid.
      rewrite length_app in Hpid. cbn [length] in Hpid. lia.
Qed.

Lemma start_eq (env : Env) (s : State) (w : Z) :
  workers (config s) = Some w ->
  _start_cpu_stress_workers env s =
  match start_workers env (Z.to_nat w) (cpu_percent (config s)) w
          (logged (starting_message (Some w)) s) with
  | (Return _, s') =>
      (Return tt, logged (started_message (length (worker_processes s'))) s')
  | (Raise e, s') => (Raise e, s')
  | (OutOfFuel, s') => (OutOfFuel, s')
  end.
Proof.
  intros Hw. unfold _start_cpu_stress_workers.
  cbv beta iota delta [mbind M_bind bind get mret M_ret ret].
  rewrite log_eq. cbn [logged config]. rewrite Hw.
  unfold starting_message, started_message.
  destruct (start_workers env (Z.to_nat w) (cpu_percent (config s)) w _)
    as [[[]|e|] s']; reflexivity.
Qed.

(** When no start fails the start routine adds [max(0, workers)]
    processes to the table. *)
Lemma start_length (env : Env) (s s' : State) (w : Z) :
  workers (config s) = Some w ->
  (forall pid, start_fails env pid = None) ->
  _start_cpu_stress_workers env s = (Return tt, s') ->
  length (procs s') = (length (procs s) + Z.to_nat w)%nat.
Proof.
  intros Hw Hstart. rewrite (start_eq env s w Hw).
  rewrite start_workers_spawned by (intros pid _; apply Hstart).
  intros E. injection E as <-.
  cbn [logged spawned procs]. rewrite length_app, length_map.
  unfold next_pids. rewrite length_seq. reflexivity.
Qed.

Lemma monitor_eq (env : Env) (fuel : nat) (elapsed : Z) (s : State) :
  monitor env fuel elapsed s =
  if elapsed <? duration (config s) then
    match fuel with
    | O => (OutOfFuel, s)
    | S fuel' =>
        match check_safety env elapsed with
        | inr e => (Raise e, emitted (EvCheckSafety elapsed) s)
        | inl safety_status =>
            if negb (safe safety_status) then
              (log "Safety check failed";;
               _stop_cpu_stress_workers;;
               raise (Exception ("Safety violation: " +:+ message safety_status)))
                (emitted (EvCheckSafety elapsed) s)
            else
              match record_metrics env elapsed with
              | Some e =>
                  (Raise e, recorded env elapsed (emitted (EvCheckSafety elapsed) s))
              | None =>
                  monitor env fuel' (elapsed + interval) (tick_state env elapsed s)
              end
        end
    end
  else (Return tt, s).
Proof.
  destruct fuel as [|fuel']; cbn [monitor];
    cbv beta iota delta [mbind M_bind bind get mret M_ret ret];
    destruct (elapsed <? duration (config s)); try reflexivity.
  cbv beta iota delta [emit]. fold (emitted (EvCheckSafety elapsed) s).
  destruct (check_safety env elapsed) as [st|e]; [|reflexivity].
  destruct (negb (safe st)); [reflexivity|].
  rewrite sample_metrics_eq.
  destruct (record_metrics env elapsed); reflexivity.
Qed.

Lemma owned_recorded (env : Env) (elapsed : Z) (s0 s : State)
    (tr : list Event) :
  owned s0 tr s ->
  owned s0 (tr ++ recorded_events env elapsed s)
        (recorded env elapsed (emitted (EvCheckSafety elapsed) s)).
Proof.
  intros Ho. unfold recorded, recorded_events.
  pose proof (owned_quiet _ _ _ _ _ Ho
                (emitted_quiet (EvCheckSafety elapsed) s)) as H1.
  pose proof (owned_quiet _ _ _ _ _ H1 (sampled_quiet _)) as H2.
  pose proof (owned_quiet _ _ _ _ _ H2
                (emitted_quiet
                   (EvRecordMetrics
                      {| m_cpu_percent := t_cpu (psutil env (samples s));
                         m_memory_percent := t_memory (psutil env (samples s));
                         m_active_workers := length (worker_processes s);
                         m_elapsed_time := elapsed |}) _)) as H3.
  rewrite <- !app_assoc in H3. exact H3.
Qed.

Lemma owned_tick (env : Env) (elapsed : Z) (s0 s : State) (tr : list Event) :
  owned s0 tr s ->
  owned s0 (tr ++ tick_events env elapsed s) (tick_state env elapsed s).
Proof.
  intros Ho. unfold tick_state, tick_events.
  pose proof (owned_recorded env elapsed _ _ _ Ho) as H1.
  pose proof (owned_quiet _ _ _ _ _ H1
                (logged_quiet "Experiment progress" _)) as H2.
  pose proof (owned_quiet _ _ _ _ _ H2 (slept_quiet interval _)) as H3.
  rewrite <- !app_assoc in H3. exact H3.
Qed.

(** The loop keeps the invariant, and with one unit of fuel per second
    of configured duration it ends. *)
Lemma monitor_owned (env : Env) (s0 : State) (fuel : nat) :
  forall (elapsed : Z) (s : State) (tr : list Event),
    owned s0 tr s ->
    (Z.to_nat (duration (config s0) - elapsed) <= fuel)%nat ->
    exists r s' tr',
      monitor env fuel elapsed s = (r, s') /\
      r <> OutOfFuel /\ owned s0 (tr ++ tr') s' /\
      (r = Return tt -> worker_processes s' = worker_processes s).
Proof.
  induction fuel as [|fuel IH]; intros elapsed s tr Ho Hfuel;
    rewrite monitor_eq; rewrite (ow_config _ _ _ Ho);
    destruct (Z.ltb_spec elapsed (duration (config s0))) as [Hlt|Hge];
    try (exists (Return tt), s, []; split; [reflexivity|];
         split; [discriminate|]; rewrite app_nil_r; split; [exact Ho|reflexivity]).
  - lia.
  - pose proof (owned_quiet _ _ _ _ _ Ho
                  (emitted_quiet (EvCheckSafety elapsed) s)) as Ho1.
    destruct (check_safety env elapsed) as [st|e].
    + destruct (negb (safe st)).
      * destruct (log_stop_raise (A := unit) "Safety check failed"
                    (Exception ("Safety violation: " +:+ message st)) _ _ _ Ho1)
          as (s' & tr' & Hrun & Ho' & _ & _).
        rewrite Hrun. eexists. exists s'. eexists.
        split; [reflexivity|]. split; [discriminate|].
        rewrite <- app_assoc in Ho'. split; [exact Ho'|discriminate].
      * destruct (record_metrics env elapsed) as [e|].
        -- pose proof (owned_recorded env elapsed _ _ _ Ho) as Ho2.
           eexists. eexists. eexists. split; [reflexivity|].
           split; [discriminate|]. split; [exact Ho2|discriminate].
        -- pose proof (owned_tick env elapsed _ _ _ Ho) as Ho2.
           destruct (IH (elapsed + interval) _ _ Ho2)
             as (r & s' & tr' & Hrun & Hr & Ho' & Hw).
           { unfold interval. lia. }
           exists r, s', (tick_events env elapsed s ++ tr').
           split; [exact Hrun|].
           split; [exact Hr|]. rewrite app_assoc. split; [exact Ho'|].
           intros E. rewrite (Hw E). reflexivity.
    + eexists. eexists. eexists. split; [reflexivity|].
      split; [discriminate|]. split; [exact Ho1|discriminate].
Qed.

Lemma execute_when_start_raises (env : Env) (fuel : nat) (s s1 : State)
    (e : PyExn) :
  _start_cpu_stress_workers env (logged "Starting CPU stress experiment" s) =
    (Raise e, s1) ->
  exists s' tr,
    execute env fuel s = (Raise e, s') /\
    stopped tr (logged "CPU stress experiment failed" s1) s'.
Proof.
  intros Hrun.
  destruct (stop_spec (logged "CPU stress experiment failed" s1))
    as (s' & tr & Hstop & Hst).
  exists s', tr. split; [|exact Hst].
  unfold execute.
  rewrite (bind_Return _ _ _ _ _ (log_eq "Starting CPU stress experiment" s)).
  cbv beta iota delta [try_except].
  rewrite (bind_Raise _ _ _ _ _ Hrun).
  rewrite (bind_Return _ _ _ _ _ (log_eq "CPU stress experiment failed" s1)).
  rewrite (bind_Return _ _ _ _ _ Hstop). reflexivity.
Qed.

Lemma execute_when_monitor_raises (env : Env) (fuel : nat) (s s1 s3 : State)
    (e : PyExn) :
  _start_cpu_stress_workers env (logged "Starting CPU stress experiment" s) =
    (Return tt, s1) ->
  monitor env fuel 0 s1 = (Raise e, s3) ->
  exists s' tr,
    execute env fuel s = (Raise e, s') /\
    stopped tr (logged "CPU stress experiment failed" s3) s'.
Proof.
  intros Hstart Hmon.
  destruct (stop_spec (logged "CPU stress experiment failed" s3))
    as (s' & tr & Hstop & Hst).
  exists s', tr. split; [|exact Hst].
  unfold execute.
  rewrite (bind_Return _ _ _ _ _ (log_eq "Starting CPU stress experiment" s)).
  cbv beta iota delta [try_except].
  rewrite (bind_Return _ _ _ _ _ Hstart).
  rewrite (bind_Raise _ _ _ _ _ Hmon).
  rewrite (bind_Return _ _ _ _ _ (log_eq "CPU stress experiment failed" s3)).
  rewrite (bind_Return _ _ _ _ _ Hstop). reflexivity.
Qed.

(** Whatever way [execute] ends, it keeps the teardown invariant and
    leaves the pool list empty. *)
Lemma execute_owned (env : Env) (fuel : nat) (s : State) :
  (Z.to_nat (duration (config s)) <= fuel)%nat ->
  exists r s' tr,
    execute env fuel s = (r, s') /\ r <> OutOfFuel /\
    owned s tr s' /\ worker_processes s' = [].
Proof.
  intros Hfuel.
  pose proof (owned_logged _ _ _ "Starting CPU stress experiment"
                (owned_init s)) as Ho0.
  destruct (start_owned env _ _ _ Ho0)
    as (r1 & s1 & tr1 & Hrun1 & Hr1 & Ho1 & _ & _).
  destruct r1 as [[]|e|]; [| |destruct (Hr1 eq_refl)].
  - destruct (monitor_owned env s fuel 0 _ _ Ho1)
      as (r2 & s2 & tr2 & Hrun2 & Hr2 & Ho2 & _).
    { rewrite Z.sub_0_r. exact Hfuel. }
    destruct r2 as [[]|e|]; [| |destruct (Hr2 eq_refl)].
    + destruct (stop_spec s2) as (s3 & tr3 & Hrun3 & Hst).
      destruct (owned_stopped _ _ _ _ _ Ho2 Hst) as [Ho3 Hw3].
      eexists. exists (sampled s3). eexists. split; [|split; [|split]].
      * unfold execute.
        rewrite (bind_Return _ _ _ _ _
                   (log_eq "Starting CPU stress experiment" s)).
        cbv beta iota delta [try_except].
        rewrite (bind_Return _ _ _ _ _ Hrun1), (bind_Return _ _ _ _ _ Hrun2),
          (bind_Return _ _ _ _ _ Hrun3),
          (bind_Return _ _ _ _ _ (sample_metrics_eq env s3)).
        reflexivity.
      * discriminate.
      * exact (owned_quiet _ _ _ _ _ Ho3 (sampled_quiet s3)).
      * exact Hw3.
    + destruct (execute_when_monitor_raises env fuel s _ _ e Hrun1 Hrun2)
        as (s' & tr & Hexec & Hst).
      destruct (owned_stopped _ _ _ _ _
                  (owned_logged _ _ _ "CPU stress experiment failed" Ho2) Hst)
        as [Ho Hpool].
      eexists. eexists. eexists. split; [exact Hexec|].
      split; [discriminate|]. split; [exact Ho|exact Hpool].
  - destruct (execute_when_start_raises env fuel s _ e Hrun1)
      as (s' & tr & Hexec & Hst).
    destruct (owned_stopped _ _ _ _ _
                (owned_logged _ _ _ "CPU stress experiment failed" Ho1) Hst)
      as [Ho Hpool].
    eexists. eexists. eexists. split; [exact Hexec|].
    split; [discriminate|]. split; [exact Ho|exact Hpool].
Qed.

(** What the invariant says of a run that has ended with an empty pool
    list: a process the run created has been sent SIGTERM and has then
    been joined, and if it is still alive it ignores SIGTERM and was sent
    SIGKILL after its join. *)
Lemma owned_torn_down (s0 s : State) (tr : list Event) (pid : nat) :
  owned s0 tr s -> worker_processes s = [] ->
  (length (procs s0) <= pid < length (procs s))%nat ->
  before (EvTerminate pid) (EvJoin pid 5) tr /\
  (alive_at (procs s) pid = true ->
   stubborn_at (procs s) pid = true /\
   killed_at (procs s) pid = true /\
   before (EvJoin pid 5) (EvKill pid) tr).
Proof.
  intros Ho Hw Hpid.
  destruct (ow_created _ _ _ Ho pid Hpid) as [(Hin & _)|[Hb Hforce]].
  { rewrite Hw in Hin. apply elem_of_nil in Hin. destruct Hin. }
  split; [exact Hb|]. intros Hal.
  destruct (ow_alive _ _ _ Ho pid Hal) as [Hin|[[Hal0 _]|[Hst Hkl]]].
  - rewrite Hw in Hin. apply elem_of_nil in Hin. destruct Hin.
  - apply alive_at_lt in Hal0. lia.
  - split; [exact Hst|]. split; [exact Hkl|]. apply Hforce, Hal.
Qed.

(** C1 as the code has it: given enough fuel for the loop, [execute]
    returns or raises, and whichever it does the two-phase teardown has
    run.  The pool list is empty; every process the call created has
    been sent SIGTERM and has then been joined with the 5 second
    timeout; such a process is still alive only if it ignores SIGTERM,
    and then it was sent SIGKILL after its join.  Any other process that
    is alive was alive, and outside the pool, before the call, or
    ignores SIGTERM and has been sent SIGKILL. *)
Theorem execute_tears_down (env : Env) (fuel : nat) (s : State)
    (Hfuel : (Z.to_nat (duration (config s)) <= fuel)%nat) :
  exists r s' tr,
    execute env fuel s = (r, s') /\
    r <> OutOfFuel /\
    trace s' = trace s ++ tr /\
    worker_processes s' = [] /\
    (forall pid, alive_at (procs s') pid = true ->
       (alive_at (procs s) pid = true /\ pid ∉ worker_processes s) \/
       (stubborn_at (procs s') pid = true /\ killed_at (procs s') pid = true)) /\
    (forall pid, (length (procs s) <= pid < length (procs s'))%nat ->
       before (EvTerminate pid) (EvJoin pid 5) tr /\
       (alive_at (procs s') pid = true ->
        stubborn_at (procs s') pid = true /\
        killed_at (procs s') pid = true /\
        before (EvJoin pid 5) (EvKill pid) tr)).
Proof.
  destruct (execute_owned env fuel s Hfuel)
    as (r & s' & tr & Hrun & Hr & Ho & Hw).
  exists r, s', tr. split; [exact Hrun|]. split; [exact Hr|].
  split; [apply (ow_trace _ _ _ Ho)|]. split; [exact Hw|]. split.
  - intros pid H. destruct (ow_alive _ _ _ Ho pid H) as [Hin|[?|?]]; auto.
    rewrite Hw in Hin. apply elem_of_nil in Hin. destruct Hin.
  - intros pid Hpid. exact (owned_torn_down _ _ _ pid Ho Hw Hpid).
Qed.

(** ** The monitoring loop, tick by tick *)

Lemma monitor_tick (env : Env) (fuel : nat) (elapsed : Z) (s : State) :
  elapsed < duration (config s) ->
  safe_tick env elapsed ->
  monitor env (S fuel) elapsed s =
  monitor env fuel (elapsed + interval) (tick_state env elapsed s).
Proof.
  intros Hlt [(st & Hst & Hsafe) Hrec].
  rewrite monitor_eq.
  apply Z.ltb_lt in Hlt. rewrite Hlt, Hst, Hsafe, Hrec. reflexivity.
Qed.

Lemma after_ticks_config (env : Env) (n : nat) (elapsed : Z) (s : State) :
  config (after_ticks env n elapsed s) = config s.
Proof.
  revert elapsed s. induction n as [|n IH]; intros elapsed s; [reflexivity|].
  cbn [after_ticks]. rewrite IH. reflexivity.
Qed.

(** The ticks start and signal nothing: the pool list and the size of
    the process table stay. *)
Lemma after_ticks_frame (env : Env) (n : nat) :
  forall (elapsed : Z) (s : State),
    length (procs (after_ticks env n elapsed s)) = length (procs s) /\
    worker_processes (after_ticks env n elapsed s) = worker_processes s.
Proof.
  induction n as [|n IH]; intros elapsed s; [split; reflexivity|].
  cbn [after_ticks]. destruct (IH (elapsed + interval) (tick_state env elapsed s))
    as [-> ->]. split; [|reflexivity].
  cbn [tick_state slept procs logged recorded emitted sampled].
  apply length_fmap.
Qed.

Lemma monitor_ticks (env : Env) (n : nat) :
  forall (fuel : nat) (elapsed : Z) (s : State),
    (forall i, (i < n)%nat -> safe_tick env (elapsed + interval * Z.of_nat i)) ->
    (n = 0%nat \/ elapsed + interval * (Z.of_nat n - 1) < duration (config s)) ->
    monitor env (n + fuel) elapsed s =
    monitor env fuel (elapsed + interval * Z.of_nat n)
            (after_ticks env n elapsed s).
Proof.
  unfold interval.
  induction n as [|n IH]; intros fuel elapsed s Hsafe Hlast.
  - cbn [after_ticks Nat.add]. f_equal. lia.
  - cbn [after_ticks Nat.add].
    rewrite monitor_tick.
    + unfold interval. rewrite IH.
      * f_equal. lia.
      * intros i Hi. specialize (Hsafe (S i) ltac:(lia)).
        replace (elapsed + 5 + 5 * Z.of_nat i)
          with (elapsed + 5 * Z.of_nat (S i)) by lia.
        exact Hsafe.
      * destruct n as [|n']; [left; reflexivity|right].
        change (config (tick_state env elapsed s)) with (config s).
        destruct Hlast as [?|Hlast]; [discriminate|]. lia.
    + destruct Hlast as [?|Hlast]; [discriminate|]. lia.
    + specialize (Hsafe 0%nat ltac:(lia)).
      replace (elapsed + 5 * Z.of_nat 0) with elapsed in Hsafe by lia.
      exact Hsafe.
Qed.

Lemma owned_after_ticks (env : Env) (s0 : State) (n : nat) :
  forall (elapsed : Z) (s : State) (tr : list Event),
    owned s0 tr s ->
    exists tr',
      owned s0 (tr ++ tr') (after_ticks env n elapsed s) /\
      steps tr' = concat (replicate n code_tick).
Proof.
  induction n as [|n IH]; intros elapsed s tr Ho.
  - exists []. rewrite app_nil_r. split; [exact Ho|reflexivity].
  - cbn [after_ticks].
    destruct (IH (elapsed + interval) _ _ (owned_tick env elapsed _ _ _ Ho))
      as (tr' & Ho' & Hsteps).
    exists (tick_events env elapsed s ++ tr').
    rewrite app_assoc. split; [exact Ho'|].
    rewrite steps_app, Hsteps. reflexivity.
Qed.

Lemma ticks_of_bounds (d : Z) :
  d <= interval * Z.of_nat (ticks_of d) /\
  (ticks_of d = 0%nat \/ interval * (Z.of_nat (ticks_of d) - 1) < d).
Proof.
  unfold ticks_of, interval.
  assert (5 * ((d + 4) / 5) <= d + 4 < 5 * ((d + 4) / 5) + 5) as Hq
    by (Z.div_mod_to_equations; lia).
  revert Hq. generalize ((d + 4) / 5). intros q Hq.
  destruct (Z.le_gt_cases q 0) as [Hle|Hgt].
  - rewrite Z2Nat.nonpos by exact Hle. split; [lia|left; reflexivity].
  - rewrite Z2Nat.id by lia. split; [lia|right; lia].
Qed.

(** When every tick goes through, the loop runs [ticks_of duration]
    ticks of [code_tick] and returns. *)
Lemma monitor_all_safe (env : Env) (fuel : nat) (s0 s : State) (tr : list Event) :
  owned s0 tr s ->
  (forall i, (i < ticks_of (duration (config s0)))%nat ->
             safe_tick env (interval * Z.of_nat i)) ->
  (ticks_of (duration (config s0)) <= fuel)%nat ->
  exists s' tr',
    monitor env fuel 0 s = (Return tt, s') /\
    owned s0 (tr ++ tr') s' /\
    steps tr' = concat (replicate (ticks_of (duration (config s0))) code_tick).
Proof.
  intros Ho Hsafe Hfuel.
  pose proof (ow_config _ _ _ Ho) as Hc.
  set (n := ticks_of (duration (config s0))) in *.
  destruct (ticks_of_bounds (duration (config s0))) as [Hup Hlast].
  fold n in Hup, Hlast.
  destruct (owned_after_ticks env s0 n 0 s tr Ho) as (tr' & Ho' & Hsteps).
  exists (after_ticks env n 0 s), tr'. split; [|split; [exact Ho'|exact Hsteps]].
  replace fuel with (n + (fuel - n))%nat by lia.
  rewrite monitor_ticks.
  - rewrite monitor_eq, after_ticks_config, Hc.
    destruct (Z.ltb_spec (0 + interval * Z.of_nat n) (duration (config s0)));
      [lia|reflexivity].
  - intros i Hi. rewrite Z.add_0_l. apply Hsafe, Hi.
  - rewrite Hc, Z.add_0_l. exact Hlast.
Qed.

(** C7 as the code has it: when the workers start and every tick goes
    through, [execute] returns successfully after [ticks_of duration]
    ticks, each of which performs safety check, telemetry sample,
    metrics emission and sleep in that order; the only step after the
    last tick is the sample of the final metrics. *)
Theorem execute_tick_order (env : Env) (fuel : nat) (s : State)
    (Hw : workers (config s) <> None)
    (Hstart : forall pid, start_fails env pid = None)
    (Hsafe : forall i, (i < ticks_of (duration (config s)))%nat ->
                       safe_tick env (interval * Z.of_nat i))
    (Hfuel : (ticks_of (duration (config s)) <= fuel)%nat) :
  exists r s' tr,
    execute env fuel s = (Return r, s') /\
    success r = true /\
    trace s' = trace s ++ tr /\
    steps tr =
      concat (replicate (ticks_of (duration (config s))) code_tick) ++ [Sample].
Proof.
  unfold execute.
  rewrite (bind_Return _ _ _ _ _ (log_eq "Starting CPU stress experiment" s)).
  pose proof (owned_logged _ _ _ "Starting CPU stress experiment"
                (owned_init s)) as Ho0.
  cbv beta iota delta [try_except].
  destruct (start_owned env _ _ _ Ho0)
    as (r1 & s1 & tr1 & Hrun1 & _ & Ho1 & Hsteps1 & Hok).
  rewrite (Hok Hstart Hw) in Hrun1.
  rewrite (bind_Return _ _ _ _ _ Hrun1).
  destruct (monitor_all_safe env fuel s s1 _ Ho1 Hsafe Hfuel)
    as (s2 & tr2 & Hrun2 & Ho2 & Hsteps2).
  rewrite (bind_Return _ _ _ _ _ Hrun2).
  destruct (stop_spec s2) as (s3 & tr3 & Hrun3 & Hst).
  destruct (owned_stopped _ _ _ _ _ Ho2 Hst) as [Ho3 _].
  rewrite (bind_Return _ _ _ _ _ Hrun3).
  rewrite (bind_Return _ _ _ _ _ (sample_metrics_eq env s3)).
  pose proof (owned_quiet _ _ _ _ _ Ho3 (sampled_quiet s3)) as Ho4.
  eexists. eexists. eexists. split; [reflexivity|]. split; [reflexivity|].
  split; [apply (ow_trace _ _ _ Ho4)|].
  rewrite !steps_app, Hsteps1, Hsteps2, (st_steps _ _ _ Hst).
  cbn. rewrite !app_nil_r. reflexivity.
Qed.

(** ** Safety violation *)

(** C2: if the [max(0, w)] workers start, the first [k] ticks go through
    and the safety poll of tick [k] answers [safe = false], then
    [execute] raises the safety-violation exception carrying the poll's
    message.  The steps performed are [k] full ticks followed by the
    failing safety check and nothing more (no sample, emission, sleep or
    further poll).  The workers have been torn down: the pool list is
    empty, and every one of the workers started has been sent SIGTERM
    and has then been joined with the 5 second timeout; a worker that
    is still alive when [execute] raises ignores SIGTERM and was sent
    SIGKILL after its join. *)
Theorem safety_violation_raises (env : Env) (k fuel : nat) (s : State) (w : Z)
    (st : SafetyStatus)
    (Hw : workers (config s) = Some w)
    (Hstart : forall pid, start_fails env pid = None)
    (Hsafe : forall i, (i < k)%nat -> safe_tick env (interval * Z.of_nat i))
    (Hpoll : check_safety env (interval * Z.of_nat k) = inl st)
    (Hunsafe : safe st = false)
    (Hreach : interval * Z.of_nat k < duration (config s))
    (Hfuel : (k < fuel)%nat) :
  exists s' tr,
    execute env fuel s =
      (Raise (Exception ("Safety violation: " +:+ message st)), s') /\
    trace s' = trace s ++ tr /\
    steps tr = concat (replicate k code_tick) ++ [Safety] /\
    worker_processes s' = [] /\
    length (procs s') = (length (procs s) + Z.to_nat w)%nat /\
    (forall pid, (length (procs s) <= pid < length (procs s) + Z.to_nat w)%nat ->
       before (EvTerminate pid) (EvJoin pid 5) tr /\
       (alive_at (procs s') pid = true ->
        stubborn_at (procs s') pid = true /\
        killed_at (procs s') pid = true /\
        before (EvJoin pid 5) (EvKill pid) tr)).
Proof.
  set (exn := Exception ("Safety violation: " +:+ message st)).
  assert (exists s' tr,
             execute env fuel s = (Raise exn, s') /\ owned s tr s' /\
             steps tr = concat (replicate k code_tick) ++ [Safety] /\
             worker_processes s' = [] /\
             length (procs s') = (length (procs s) + Z.to_nat w)%nat)
    as (s' & tr & Hrun & Ho & Hsteps & Hpool & Hlen).
  { unfold execute.
    rewrite (bind_Return _ _ _ _ _ (log_eq "Starting CPU stress experiment" s)).
    pose proof (owned_logged _ _ _ "Starting CPU stress experiment"
                  (owned_init s)) as Ho0.
    cbv beta iota delta [try_except].
    destruct (start_owned env _ _ _ Ho0)
      as (r1 & s1 & tr1 & Hrun1 & _ & Ho1 & Hsteps1 & Hok).
    rewrite (Hok Hstart) in Hrun1 by (cbn [logged config]; congruence).
    pose proof (start_length env (logged "Starting CPU stress experiment" s)
                  _ w Hw Hstart Hrun1) as Hlen1.
    cbn [logged procs] in Hlen1.
    rewrite (bind_Return _ _ _ _ _ Hrun1).
    pose proof (ow_config _ _ _ Ho1) as Hc1.
    destruct (owned_after_ticks env s k 0 _ _ Ho1) as (tr2 & Ho2 & Hsteps2).
    destruct (after_ticks_frame env k 0 s1) as [Hlen2 _].
    pose proof (owned_quiet _ _ _ _ _ Ho2
                  (emitted_quiet (EvCheckSafety (interval * Z.of_nat k)) _))
      as Ho3.
    destruct (log_stop_raise (A := unit) "Safety check failed" exn _ _ _ Ho3)
      as (s3 & tr3 & Hrun3 & Ho4 & _ & Hsteps3 & Hlen3).
    cbn [emitted procs] in Hlen3.
    assert (monitor env fuel 0 s1 = (Raise exn, s3)) as Hmon.
    { replace fuel with (k + S (fuel - S k))%nat by lia.
      rewrite monitor_ticks.
      - rewrite monitor_eq, after_ticks_config, Hc1, Z.add_0_l.
        apply Z.ltb_lt in Hreach. rewrite Hreach, Hpoll, Hunsafe.
        exact Hrun3.
      - intros i Hi. rewrite Z.add_0_l. apply Hsafe, Hi.
      - destruct k as [|k']; [left; reflexivity|right].
        rewrite Hc1. unfold interval in *. lia. }
    rewrite (bind_Raise _ _ _ _ _ Hmon).
    destruct (log_stop_raise (A := ExecutionResult)
                "CPU stress experiment failed" exn _ _ _ Ho4)
      as (s4 & tr4 & Hrun4 & Ho5 & Hpool & Hsteps4 & Hlen4).
    rewrite Hrun4. eexists. eexists. split; [reflexivity|].
    split; [exact Ho5|]. split; [|split; [exact Hpool|]].
    - rewrite !steps_app, Hsteps1, Hsteps2, Hsteps3, Hsteps4.
      cbn. rewrite !app_nil_r. reflexivity.
    - rewrite Hlen4, Hlen3, Hlen2. exact Hlen1. }
  exists s', tr. split; [exact Hrun|]. split; [apply (ow_trace _ _ _ Ho)|].
  split; [exact Hsteps|]. split; [exact Hpool|]. split; [exact Hlen|].
  intros pid Hpid. apply (owned_torn_down _ _ _ pid Ho Hpool). lia.
Qed.

(** ** Concrete runs *)

Lemma execute_tears_down_witness :
  exists r s' tr,
    execute (unsafe_at 10) 60 (fresh (two_workers 60)) = (r, s') /\
    r <> OutOfFuel /\
    trace s' = trace (fresh (two_workers 60)) ++ tr /\
    worker_processes s' = [] /\
    (forall pid, alive_at (procs s') pid = true ->
       (alive_at (procs (fresh (two_workers 60))) pid = true /\
        pid ∉ worker_processes (fresh (two_workers 60))) \/
       (stubborn_at (procs s') pid = true /\ killed_at (procs s') pid = true)) /\
    (forall pid,
       (length (procs (fresh (two_workers 60))) <= pid < length (procs s'))%nat ->
       before (EvTerminate pid) (EvJoin pid 5) tr /\
       (alive_at (procs s') pid = true ->
        stubborn_at (procs s') pid = true /\
        killed_at (procs s') pid = true /\
        before (EvJoin pid 5) (EvKill pid) tr)).
Proof.
  apply (execute_tears_down (unsafe_at 10) 60 (fresh (two_workers 60))).
  vm_compute. lia.
Defined.

(** C1 as stated fails: on a host whose second worker ignores SIGTERM, a
    run that is stopped by a safety violation sends that worker SIGKILL
    and raises at once; the stop routine does not wait for a killed
    process, so the worker is still alive when [execute] raises, while
    the worker that honours SIGTERM is dead. *)
Lemma killed_worker_alive_counterexample :
  exists s',
    execute (unsafe_at 10) 60 (fresh (two_workers 60)) =
      (Raise (Exception "Safety violation: memory above 90%"), s') /\
    worker_processes s' = [] /\
    In (EvKill 1) (trace s') /\
    alive_at (procs s') 0 = false /\
    alive_at (procs s') 1 = true.
Proof.
  eexists. split; [vm_compute; reflexivity|].
  split; [reflexivity|]. split; [|split; reflexivity].
  vm_compute. repeat first [left; reflexivity | right].
Qed.

Lemma safety_violation_raises_witness :
  exists s' tr,
    execute (unsafe_at 10) 12 (fresh (two_workers 60)) =
      (Raise (Exception "Safety violation: memory above 90%"), s') /\
    trace s' = trace (fresh (two_workers 60)) ++ tr /\
    steps tr = concat (replicate 2 code_tick) ++ [Safety] /\
    worker_processes s' = [] /\
    length (procs s') = 2%nat /\
    (forall pid, (0 <= pid < 2)%nat ->
       before (EvTerminate pid) (EvJoin pid 5) tr /\
       (alive_at (procs s') pid = true ->
        stubborn_at (procs s') pid = true /\
        killed_at (procs s') pid = true /\
        before (EvJoin pid 5) (EvKill pid) tr)).
Proof.
  apply (safety_violation_raises (unsafe_at 10) 2 12 (fresh (two_workers 60)) 2
           {| safe := false; message := "memory above 90%" |}).
  - reflexivity.
  - reflexivity.
  - intros [|[|i]] Hi.
    + split; [eexists; split; reflexivity|reflexivity].
    + split; [eexists; split; reflexivity|reflexivity].
    + lia.
  - reflexivity.
  - reflexivity.
  - reflexivity.
  - lia.
Defined.

Lemma execute_tick_order_witness :
  exists r s' tr,
    execute host4 2 (fresh (two_workers 10)) = (Return r, s') /\
    success r = true /\
    trace s' = trace (fresh (two_workers 10)) ++ tr /\
    steps tr = concat (replicate 2 code_tick) ++ [Sample].
Proof.
  apply (execute_tick_order host4 2 (fresh (two_workers 10))).
  - discriminate.
  - reflexivity.
  - intros i _. split; [eexists; split; reflexivity|reflexivity].
  - vm_compute. lia.
Defined.

(** C7 as stated fails: in a ten-second run on a quiet host each of the
    two ticks polls safety before it samples telemetry, so the steps of
    the run are not ticks in the order sample, emit, safety check, sleep
    followed by the final sample. *)
Lemma tick_order_counterexample :
  exists r s',
    execute host4 2 (fresh (two_workers 10)) = (Return r, s') /\
    steps (trace s') = code_tick ++ code_tick ++ [Sample] /\
    forall n, steps (trace s') <> concat (replicate n spec_tick) ++ [Sample].
Proof.
  eexists. eexists. split; [vm_compute; reflexivity|].
  split; [reflexivity|].
  intros [|n]; discriminate.
Qed.

Lemma pre_flight_check_spec_witness :
  exists r,
    pre_flight_check (unsafe_at 10) (fresh default_config) =
      (Return r, after_pre_flight (unsafe_at 10) (fresh default_config)) /\
    checks_safe r = false /\ blockers r <> [].
Proof.
  destruct (pre_flight_check_spec (unsafe_at 10) (fresh default_config))
    as (r & Hr & Hsafe & Hblock & _).
  exists r. split; [exact Hr|].
  assert (checks_safe r = false) as E.
  { apply Hsafe. left. reflexivity. }
  split; [exact E|]. apply Hblock. exact E.
Defined.

Lemma zero_workers_defaulted_witness :
  (exists r,
     validate_parameters host4 (fresh zero_workers) =
       (Return r, fresh zero_workers) /\ valid r = true) /\
  exists r s',
    setup host4 (fresh zero_workers) = (Return r, s') /\
    workers (config s') = Some 3 /\ workers_planned r = Some 3.
Proof.
  destruct (zero_workers_defaulted host4 (fresh zero_workers)) as [Hv Hs].
  split.
  - destruct (Hv eq_refl) as (r & Hr & Hvalid & _).
    exists r. split; [exact Hr|]. apply Hvalid. vm_compute.
    repeat split; discriminate.
  - destruct Hs as (r & s' & Hr & Hdef & _ & _ & Hplan).
    exists r, s'. split; [exact Hr|].
    assert (workers (config s') = Some 3) as E
      by (apply Hdef; right; reflexivity).
    split; [exact E|]. rewrite Hplan. exact E.
Defined.

End CPUStressFacts.

(** * Properties of the orchestrator *)

Module OrchestratorFacts.
Import Orchestrator OrchestratorSpec.

(** What [str(e)] gives for an HTTP error: the status code, a colon and
    the detail. *)
Lemma str_exn_http :
  str_exn (HTTPException 503 "target unreachable") = "503: target unreachable".
Proof. reflexivity. Qed.

Section Start.

Context {W R : Type}.
Variable safety_pre_flight_check : Experiment R -> SafetyCheck.

(** C6: starting an experiment whose status is neither DRAFT nor
    SCHEDULED is rejected with the HTTP 400 error "Experiment cannot be
    started in current status", and nothing changes: the whole state is
    as before, so no status is written and no execution task is
    scheduled. *)
Theorem start_rejected (s : State W R) (experiment_id user_id : string)
    (e : Experiment R)
    (Hfound : experiments s !! experiment_id = Some e)
    (Hdraft : status e <> "DRAFT")
    (Hscheduled : status e <> "SCHEDULED") :
  start_experiment safety_pre_flight_check experiment_id user_id s =
    (Raise (HTTPException 400 "Experiment cannot be started in current status"),
     s).
Proof.
  unfold start_experiment, get_experiment.
  cbv beta iota delta [mbind M_bind bind get mret M_ret ret].
  rewrite Hfound.
  apply String.eqb_neq in Hdraft, Hscheduled.
  rewrite Hdraft, Hscheduled. reflexivity.
Qed.

(** The accepting path, for comparison: from DRAFT or SCHEDULED with a
    safe pre-flight check the task is scheduled and the status becomes
    PENDING. *)
Lemma start_accepted (s : State W R) (experiment_id user_id : string)
    (e : Experiment R) :
  experiments s !! experiment_id = Some e ->
  status e = "DRAFT" \/ status e = "SCHEDULED" ->
  safe (safety_pre_flight_check e) = true ->
  exists s',
    start_experiment safety_pre_flight_check experiment_id user_id s =
      (Return {| response_message := "Experiment starting";
                 response_experiment_id := experiment_id |}, s') /\
    experiments s' = alter (set_status "PENDING") experiment_id (experiments s) /\
    background_tasks s' = background_tasks s ++ [(experiment_id, user_id)].
Proof.
  intros Hfound Hst Hsafe.
  unfold start_experiment, get_experiment.
  cbv beta iota delta [mbind M_bind bind get mret M_ret ret].
  rewrite Hfound.
  assert (String.eqb (status e) "DRAFT" || String.eqb (status e) "SCHEDULED"
          = true) as ->.
  { apply orb_true_iff. destruct Hst as [E|E]; [left|right];
      apply String.eqb_eq; exact E. }
  cbn [negb]. rewrite Hsafe. cbn [negb].
  eexists. split; [reflexivity|]. split; reflexivity.
Qed.

End Start.

Section Execute.

Context {W R : Type}.
Variable create : string -> ExperimentExecutor W R + PyExn.

(** C3 as the code has it: an exception raised by the executor's
    [execute] is caught; the orchestrator writes status FAILED, then
    appends the message with [add_error], counts the failure, and
    returns normally with the active gauge back where it was.  It calls
    neither [cleanup] nor [rollback]: between [execute] and the FAILED
    status nothing acts on the world, which stays as [execute] left it. *)
Theorem execute_error_recorded (s : State W R) (experiment_id user_id : string)
    (e : Experiment R) (executor : ExperimentExecutor W R) (exc : PyExn) (w' : W)
    (Hfound : experiments s !! experiment_id = Some e)
    (Hcreate : create (type e) = inl executor)
    (Hraise : execute executor e (world s) = (Raise exc, w')) :
  exists s',
    execute_experiment create experiment_id user_id s = (Return tt, s') /\
    experiments s' !! experiment_id = Some (failed (str_exn exc) e) /\
    world s' = w' /\
    trace s' = trace s ++ [EvUpdateStatus experiment_id "RUNNING";
                           EvExecute experiment_id;
                           EvLog "Experiment execution failed";
                           EvUpdateStatus experiment_id "FAILED";
                           EvAddError experiment_id (str_exn exc)] /\
    active_experiments s' = active_experiments s /\
    experiments_total s' =
      experiments_total s ++ [(type e, "FAILED", environment e)] /\
    background_tasks s' = background_tasks s.
Proof.
  destruct s as [exps tasks active total w tr].
  cbn [experiments world] in Hfound, Hraise.
  unfold execute_experiment, get_experiment.
  cbv beta iota delta
    [mbind M_bind bind get mret M_ret ret try_finally try_except
       experiments].
  rewrite Hfound, Hcreate.
  cbv beta iota delta
    [update_status add_error log emit modify set_experiments active_add
       total_inc run_execute on_world mbind M_bind bind get mret M_ret ret
       experiments background_tasks active_experiments experiments_total
       world trace].
  rewrite Hraise.
  cbv beta iota delta
    [update_status add_error log emit modify set_experiments active_add
       total_inc run_execute on_world mbind M_bind bind get mret M_ret ret
       experiments background_tasks active_experiments experiments_total
       world trace].
  eexists. split; [reflexivity|].
  split; [|split; [reflexivity|split; [|split; [lia|split; reflexivity]]]].
  - rewrite !lookup_alter_eq, Hfound. reflexivity.
  - rewrite <- !app_assoc. reflexivity.
Qed.

End Execute.

Lemma start_rejected_witness :
  start_experiment always_safe "exp-1" "user-123" (store running) =
    (Raise (HTTPException 400 "Experiment cannot be started in current status"),
     store running).
Proof.
  apply (start_rejected always_safe (store running) "exp-1" "user-123" running).
  - apply lookup_singleton_eq.
  - discriminate.
  - discriminate.
Defined.

Lemma execute_error_recorded_witness :
  exists s',
    execute_experiment (fun _ => inl leaky) "exp-1" "user-123" (store pending) =
      (Return tt, s') /\
    experiments s' !! "exp-1" = Some (failed "injection failed" pending) /\
    world s' = 2%nat /\
    trace s' = trace (store pending) ++
                 [EvUpdateStatus "exp-1" "RUNNING";
                  EvExecute "exp-1";
                  EvLog "Experiment execution failed";
                  EvUpdateStatus "exp-1" "FAILED";
                  EvAddError "exp-1" "injection failed"] /\
    active_experiments s' = active_experiments (store pending) /\
    experiments_total s' =
      experiments_total (store pending) ++ [("CPU_STRESS", "FAILED", "staging")] /\
    background_tasks s' = background_tasks (store pending).
Proof.
  apply (execute_error_recorded (fun _ => inl leaky) (store pending)
           "exp-1" "user-123" pending leaky (Exception "injection failed") 2%nat).
  - apply lookup_singleton_eq.
  - reflexivity.
  - reflexivity.
Defined.

(** C3 as stated fails: the run of the leaky executor ends with status
    FAILED while both workers are still alive, although the executor's
    [cleanup] would have stopped them; the orchestrator's trace shows no
    step between [execute] and the FAILED status. *)
Lemma cleanup_not_run_counterexample :
  exists s',
    execute_experiment (fun _ => inl leaky) "exp-1" "user-123" (store pending) =
      (Return tt, s') /\
    status <$> experiments s' !! "exp-1" = Some "FAILED" /\
    world s' = 2%nat /\
    cleanup leaky (world s') = (Return tt, 0%nat) /\
    world s' <> 0%nat.
Proof.
  eexists. split; [vm_compute; reflexivity|].
  split; [vm_compute; reflexivity|].
  split; [reflexivity|]. split; [reflexivity|]. discriminate.
Qed.

End OrchestratorFacts.

(** * Further properties of the CPU stress executor *)

Module CPUStressBehaviour.
Import CPUStress CPUStressSpec CPUStressRuns CPUStressFacts.

(** ** Starting the pool *)

Lemma start_workers_fails_at (env : Env) (percent share : Z) (e : PyExn)
    (j : nat) :
  forall (n : nat) (s : State),
    (j < n)%nat ->
    (forall pid, (length (procs s) <= pid < length (procs s) + j)%nat ->
                 start_fails env pid = None) ->
    start_fails env (length (procs s) + j) = Some e ->
    start_workers env n percent share s =
      (Raise e, spawned env percent share j s).
Proof.
  induction j as [|j IH]; intros n s Hj Hok Hfail.
  - destruct n as [|n]; [lia|].
    rewrite start_workers_S. rewrite Nat.add_0_r in Hfail. rewrite Hfail.
    unfold spawned, next_pids. cbn [seq map].
    rewrite !app_nil_r. destruct s; reflexivity.
  - destruct n as [|n]; [lia|].
    rewrite start_workers_S, (Hok (length (procs s))) by lia.
    rewrite (IH n).
    + rewrite spawned_S. reflexivity.
    + lia.
    + intros pid Hpid. apply Hok. cbn [started procs] in Hpid.
      rewrite length_app in Hpid. cbn [length] in Hpid. lia.
    + cbn [started procs]. rewrite length_app. cbn [length].
      rewrite <- Hfail. f_equal. lia.
Qed.

(** X1: when no start fails, [_start_cpu_stress_workers] starts exactly
    [max(0, workers)] processes: they get the next free pids, all are
    alive and unsignalled, the pool list is extended by exactly these
    pids in order, and each start carries the share
    [cpu_percent / workers]. *)
Theorem start_spawns_all (env : Env) (s : State) (w : Z)
    (Hw : workers (config s) = Some w)
    (Hstart : forall pid,
        (length (procs s) <= pid < length (procs s) + Z.to_nat w)%nat ->
        start_fails env pid = None) :
  exists s',
    _start_cpu_stress_workers env s = (Return tt, s') /\
    config s' = config s /\
    procs s' = procs s ++ map (new_proc env) (next_pids s (Z.to_nat w)) /\
    worker_processes s' = worker_processes s ++ next_pids s (Z.to_nat w) /\
    (forall pid, pid ∈ next_pids s (Z.to_nat w) ->
                 alive_at (procs s') pid = true) /\
    trace s' =
      trace s ++
      [EvLog (starting_message (Some w))] ++
      map (fun pid => EvStart pid (cpu_percent (config s)) w)
          (next_pids s (Z.to_nat w)) ++
      [EvLog (started_message
                (length (worker_processes s) + Z.to_nat w))].
Proof.
  rewrite (start_eq env s w Hw).
  rewrite start_workers_spawned by exact Hstart.
  eexists. split; [reflexivity|].
  split; [reflexivity|]. split; [reflexivity|]. split; [reflexivity|].
  split.
  - intros pid Hin. unfold next_pids in Hin.
    apply list_elem_of_In, in_seq in Hin.
    cbn [logged spawned procs]. unfold alive_at, next_pids.
    cbn [logged procs].
    rewrite lookup_app_r by lia.
    rewrite list_lookup_fmap, lookup_seq_lt by lia. reflexivity.
  - cbn [logged spawned trace worker_processes procs]. unfold next_pids.
    cbn [logged procs]. rewrite length_app, length_seq, <- !app_assoc.
    reflexivity.
Qed.

(** X2: when the [j]-th [process.start()] of the start loop fails,
    [execute] raises that very error.  The [j] workers started before it
    are torn down: each of them has been sent SIGTERM and has then been
    joined when [execute] raises, and one that is still alive ignores
    SIGTERM and was sent SIGKILL after its join.  The pool list is
    empty, and no safety poll, telemetry sample, metrics emission or
    sleep has taken place. *)
Theorem execute_start_failure (env : Env) (fuel : nat) (s : State) (w : Z)
    (j : nat) (e : PyExn)
    (Hw : workers (config s) = Some w)
    (Hj : (j < Z.to_nat w)%nat)
    (Hok : forall pid, (length (procs s) <= pid < length (procs s) + j)%nat ->
                       start_fails env pid = None)
    (Hfail : start_fails env (length (procs s) + j) = Some e) :
  exists s' tr,
    execute env fuel s = (Raise e, s') /\
    trace s' = trace s ++ tr /\
    steps tr = [] /\
    worker_processes s' = [] /\
    length (procs s') = (length (procs s) + j)%nat /\
    (forall pid, pid ∈ next_pids s j ->
       In (EvStart pid (cpu_percent (config s)) w) tr /\
       before (EvTerminate pid) (EvJoin pid 5) tr /\
       (alive_at (procs s') pid = true ->
        stubborn_at (procs s') pid = true /\
        killed_at (procs s') pid = true /\
        before (EvJoin pid 5) (EvKill pid) tr)).
Proof.
  set (s0 := logged "Starting CPU stress experiment" s).
  pose proof (owned_logged _ _ _ "Starting CPU stress experiment"
                (owned_init s)) as Ho0. fold s0 in Ho0.
  assert (_start_cpu_stress_workers env s0 =
          (Raise e, spawned env (cpu_percent (config s)) w j
                      (logged (starting_message (Some w)) s0))) as Hrun.
  { rewrite (start_eq env s0 w Hw).
    rewrite (start_workers_fails_at env _ _ e j); [reflexivity|exact Hj| |].
    - exact Hok.
    - exact Hfail. }
  destruct (start_owned env _ _ _ Ho0)
    as (r1 & s1 & tr1 & Hrun1 & _ & Ho1 & Hsteps1 & _).
  rewrite Hrun in Hrun1. injection Hrun1 as <- <-.
  destruct (execute_when_start_raises env fuel s _ e Hrun)
    as (s' & tr & Hexec & Hst).
  destruct (owned_stopped _ _ _ _ _
              (owned_logged _ _ _ "CPU stress experiment failed" Ho1) Hst)
    as [Ho Hpool].
  eexists. eexists. split; [exact Hexec|].
  split; [apply (ow_trace _ _ _ Ho)|].
  split; [|split; [exact Hpool|split]].
  - rewrite !steps_app, Hsteps1, (st_steps _ _ _ Hst). reflexivity.
  - rewrite (st_length _ _ _ Hst). cbn [logged spawned procs].
    rewrite length_app, length_map. unfold next_pids. rewrite length_seq.
    reflexivity.
  - intros pid Hin.
    assert (length (procs s) <= pid < length (procs s) + j)%nat as Hrange
      by (apply list_elem_of_In, in_seq in Hin; exact Hin).
    assert (length (procs s') = (length (procs s) + j)%nat) as Hlen.
    { rewrite (st_length _ _ _ Hst). cbn [logged spawned procs].
      rewrite length_app, length_map. unfold next_pids. rewrite length_seq.
      reflexivity. }
    split.
    + assert (tr1 = EvLog (starting_message (Some w)) ::
                    map (fun pid => EvStart pid (cpu_percent (config s)) w)
                        (next_pids s j)) as ->.
      { pose proof (ow_trace _ _ _ Ho1) as Htr. unfold s0, next_pids in Htr.
        cbn [logged spawned trace procs config] in Htr.
        rewrite <- !app_assoc in Htr. apply app_inv_head in Htr.
        cbn [app] in Htr. injection Htr as Htr. symmetry. exact Htr. }
      apply in_or_app. left. apply in_or_app. left.
      apply in_or_app. right. right.
      apply in_map_iff. exists pid. split; [reflexivity|].
      apply list_elem_of_In. exact Hin.
    + apply (owned_torn_down _ _ _ pid Ho Hpool). lia.
Qed.

(** X3: [execute] on a configuration whose worker count is still [None]
    (no [setup] before it) raises the [TypeError] of [range(None)].  On
    an executor with an empty pool nothing but five log lines happens: no
    process is started or signalled and no safety poll is made. *)
Theorem execute_unset_workers (env : Env) (fuel : nat) (s : State)
    (Hw : workers (config s) = None)
    (Hpool : worker_processes s = []) :
  exists s',
    execute env fuel s =
      (Raise (TypeError "'NoneType' object cannot be interpreted as an integer"),
       s') /\
    procs s' = procs s /\
    worker_processes s' = [] /\
    config s' = config s /\
    trace s' =
      trace s ++
      [EvLog "Starting CPU stress experiment";
       EvLog "Starting None CPU stress workers";
       EvLog "CPU stress experiment failed";
       EvLog "Stopping CPU stress workers";
       EvLog "All CPU stress workers stopped"].
Proof.
  unfold execute.
  rewrite (bind_Return _ _ _ _ _ (log_eq "Starting CPU stress experiment" s)).
  cbv beta iota delta [try_except].
  assert (_start_cpu_stress_workers env
            (logged "Starting CPU stress experiment" s) =
          (Raise (TypeError "'NoneType' object cannot be interpreted as an integer"),
           logged "Starting None CPU stress workers"
             (logged "Starting CPU stress experiment" s))) as Hrun.
  { unfold _start_cpu_stress_workers.
    cbv beta iota delta [mbind M_bind bind get mret M_ret ret].
    rewrite log_eq. cbn [logged config]. rewrite Hw. reflexivity. }
  rewrite (bind_Raise _ _ _ _ _ Hrun).
  rewrite (bind_Return _ _ _ _ _ (log_eq "CPU stress experiment failed" _)).
  rewrite (bind_Return _ _ _ _ _
             (stop_no_workers
                (logged "CPU stress experiment failed"
                   (logged "Starting None CPU stress workers"
                      (logged "Starting CPU stress experiment" s))) Hpool)).
  eexists. split; [reflexivity|].
  split; [reflexivity|]. split; [reflexivity|]. split; [reflexivity|].
  cbn [clear_workers logged trace]. rewrite <- !app_assoc. reflexivity.
Qed.

(** ** The two phases of the teardown *)

Lemma killed_at_signal_term (ps : list Proc) (i pid : nat) :
  killed_at (alter signal_term i ps) pid = killed_at ps pid.
Proof.
  destruct (decide (i = pid)) as [->|Hne].
  - unfold killed_at. rewrite list_lookup_alter_eq.
    destruct (ps !! pid); reflexivity.
  - apply killed_at_alter_ne, Hne.
Qed.

Lemma terminate_events_ext (ps ps' : list Proc) (l : list nat) :
  (forall pid, alive_at ps' pid = alive_at ps pid) ->
  terminate_events ps' l = terminate_events ps l.
Proof.
  intros H. unfold terminate_events. f_equal.
  induction l as [|pid l IH]; [reflexivity|].
  rewrite !filter_cons, (H pid), IH. reflexivity.
Qed.

(** The first loop: SIGTERM goes to the live processes of the pool, in
    pool order; no process dies yet and no SIGKILL is sent. *)
Lemma terminate_all_exact (l : list nat) :
  forall s : State,
  exists s1,
    terminate_all l s = (Return tt, s1) /\
    config s1 = config s /\
    worker_processes s1 = worker_processes s /\
    length (procs s1) = length (procs s) /\
    trace s1 = trace s ++ terminate_events (procs s) l /\
    (forall pid, alive_at (procs s1) pid = alive_at (procs s) pid) /\
    (forall pid, stubborn_at (procs s1) pid = stubborn_at (procs s) pid) /\
    (forall pid, killed_at (procs s1) pid = killed_at (procs s) pid) /\
    (forall pid, signalled_at (procs s) pid = true \/
                 (pid ∈ l /\ alive_at (procs s) pid = true) ->
                 signalled_at (procs s1) pid = true).
Proof.
  induction l as [|pid l IH]; intros s.
  - exists s. split; [reflexivity|]. repeat split.
    + unfold terminate_events. cbn. rewrite app_nil_r. reflexivity.
    + intros q [H|[H _]]; [exact H|]. apply elem_of_nil in H. destruct H.
  - rewrite terminate_all_cons.
    destruct (alive_at (procs s) pid) eqn:Epid.
    + destruct (IH (signal signal_term pid (EvTerminate pid) s))
        as (s1 & Hrun & Hc & Hw & Hlen & Htr & Hal & Hst & Hkl & Hsig).
      exists s1. split; [exact Hrun|].
      cbn [signal config worker_processes procs trace] in *.
      split; [exact Hc|]. split; [exact Hw|].
      split; [rewrite Hlen; apply length_alter|].
      split; [|split; [|split; [|split]]].
      * rewrite Htr.
        rewrite (terminate_events_ext (procs s));
          [|intros q; apply at_signal_term].
        unfold terminate_events. rewrite filter_cons.
        destruct (decide (alive_at (procs s) pid = true)) as [_|Hn];
          [|destruct (Hn Epid)].
        cbn [map]. rewrite <- app_assoc. reflexivity.
      * intros q. rewrite Hal. apply at_signal_term.
      * intros q. rewrite Hst. apply at_signal_term.
      * intros q. rewrite Hkl. apply killed_at_signal_term.
      * intros q H. apply Hsig.
        destruct (decide (pid = q)) as [->|Hne].
        -- left. apply signalled_at_signal_term. right. split; [reflexivity|].
           exact Epid.
        -- destruct H as [H|[Hin Hq]].
           ++ left. apply signalled_at_signal_term. left. exact H.
           ++ right. apply elem_of_cons in Hin as [->|Hin]; [destruct (Hne eq_refl)|].
              split; [exact Hin|].
              destruct (at_signal_term (procs s) pid q) as [E _].
              rewrite E. exact Hq.
    + destruct (IH s)
        as (s1 & Hrun & Hc & Hw & Hlen & Htr & Hal & Hst & Hkl & Hsig).
      exists s1. split; [exact Hrun|]. split; [exact Hc|]. split; [exact Hw|].
      split; [exact Hlen|].
      split; [|split; [exact Hal|split; [exact Hst|split; [exact Hkl|]]]].
      * rewrite Htr. unfold terminate_events. rewrite filter_cons.
        destruct (decide (alive_at (procs s) pid = true)) as [Hy|_];
          [congruence|reflexivity].
      * intros q [H|[Hin Hq]]; apply Hsig; [left; exact H|].
        apply elem_of_cons in Hin as [->|Hin]; [congruence|].
        right. split; assumption.
Qed.

Lemma alive_at_wait_exit (ps : list Proc) (pid : nat) :
  (alive_at ps pid = true -> signalled_at ps pid = true) ->
  alive_at (alter wait_exit pid ps) pid = alive_at ps pid && stubborn_at ps pid.
Proof.
  unfold alive_at, signalled_at, stubborn_at.
  rewrite list_lookup_alter_eq.
  destruct (ps !! pid) as [[a sg st kl]|]; cbn; [|reflexivity].
  intros H. destruct a; [|reflexivity]. rewrite (H eq_refl).
  destruct st; reflexivity.
Qed.

Lemma join_events_ext (ps ps' : list Proc) (l : list nat) :
  (forall pid, pid ∈ l ->
     alive_at ps' pid = alive_at ps pid /\
     stubborn_at ps' pid = stubborn_at ps pid) ->
  join_events ps' l = join_events ps l.
Proof.
  unfold join_events. induction l as [|pid l IH]; intros H; [reflexivity|].
  cbn [flat_map].
  destruct (H pid) as [-> ->]; [apply elem_of_cons; left; reflexivity|].
  rewrite IH; [reflexivity|].
  intros q Hq. apply H. apply elem_of_cons. right. exact Hq.
Qed.

(** The second loop on a pool without repetitions whose live processes
    have all been sent SIGTERM: every process is joined and exactly the
    live ones that ignore SIGTERM are sent SIGKILL.  Afterwards a
    process of the pool that honours SIGTERM is dead, one that was alive
    and ignores SIGTERM has its SIGKILL pending, and all others are as
    before. *)
Lemma join_all_exact (l : list nat) :
  forall s : State,
    NoDup l ->
    (forall pid, pid ∈ l -> alive_at (procs s) pid = true ->
                 signalled_at (procs s) pid = true) ->
    exists s2,
      join_all l s = (Return tt, s2) /\
      config s2 = config s /\
      worker_processes s2 = worker_processes s /\
      length (procs s2) = length (procs s) /\
      trace s2 = trace s ++ join_events (procs s) l /\
      (forall pid, pid ∉ l ->
         alive_at (procs s2) pid = alive_at (procs s) pid /\
         killed_at (procs s2) pid = killed_at (procs s) pid) /\
      (forall pid, pid ∈ l -> stubborn_at (procs s) pid = false ->
         alive_at (procs s2) pid = false) /\
      (forall pid, pid ∈ l -> alive_at (procs s) pid = true ->
         stubborn_at (procs s) pid = true ->
         killed_at (procs s2) pid = true).
Proof.
  induction l as [|pid l IH]; intros s Hnd Hsig.
  - exists s. split; [reflexivity|]. repeat split.
    + cbn. rewrite app_nil_r. reflexivity.
    + intros q Hq. apply elem_of_nil in Hq. destruct Hq.
    + intros q Hq. apply elem_of_nil in Hq. destruct Hq.
  - apply NoDup_cons in Hnd as [Hnotin Hnd].
    rewrite join_all_cons. cbv zeta.
    set (s1 := signal wait_exit pid (EvJoin pid 5) s).
    assert (alive_at (procs s1) pid =
            alive_at (procs s) pid && stubborn_at (procs s) pid) as Hpid.
    { apply alive_at_wait_exit. apply Hsig. apply elem_of_cons. left. reflexivity. }
    set (s2 := if alive_at (procs s1) pid
               then signal signal_kill pid (EvKill pid) s1 else s1).
    assert (forall q, q <> pid ->
              alive_at (procs s2) q = alive_at (procs s) q /\
              stubborn_at (procs s2) q = stubborn_at (procs s) q /\
              signalled_at (procs s2) q = signalled_at (procs s) q /\
              killed_at (procs s2) q = killed_at (procs s) q) as Hother.
    { intros q Hq.
      destruct (at_alter_ne wait_exit (procs s) pid q ltac:(congruence))
        as (E1 & E2 & E3).
      pose proof (killed_at_alter_ne wait_exit (procs s) pid q
                    ltac:(congruence)) as E4.
      unfold s2. destruct (alive_at (procs s1) pid).
      - destruct (at_alter_ne signal_kill (procs s1) pid q ltac:(congruence))
          as (F1 & F2 & F3).
        pose proof (killed_at_alter_ne signal_kill (procs s1) pid q
                      ltac:(congruence)) as F4.
        cbn [signal procs]. rewrite F1, F2, F3, F4. repeat split; assumption.
      - repeat split; assumption. }
    assert (alive_at (procs s2) pid = true -> alive_at (procs s1) pid = true)
      as Hmono.
    { unfold s2. destruct (alive_at (procs s1) pid) eqn:E; [reflexivity|].
      rewrite E. intros F. exact F. }
    assert (alive_at (procs s1) pid = true -> killed_at (procs s2) pid = true)
      as Hkilled.
    { intros E. unfold s2. rewrite E. cbn [signal procs].
      apply at_signal_kill, E. }
    assert (config s2 = config s /\ worker_processes s2 = worker_processes s /\
            length (procs s2) = length (procs s) /\
            trace s2 = trace s ++ join_events (procs s) [pid])
      as (Hc2 & Hw2 & Hlen2 & Htr2).
    { unfold s2, join_events. cbn [flat_map]. rewrite <- Hpid, app_nil_r.
      destruct (alive_at (procs s1) pid); cbn [signal s1 config
        worker_processes procs trace]; rewrite ?length_alter;
        repeat split; rewrite <- ?app_assoc; reflexivity. }
    destruct (IH s2 Hnd) as (s3 & Hrun & Hc & Hw & Hlen & Htr & Hout & Hdead & Hkl).
    { intros q Hq Hq_alive.
      assert (q <> pid) as Hne by (intros ->; destruct (Hnotin Hq)).
      destruct (Hother q Hne) as (E1 & _ & E3 & _). rewrite E3.
      apply Hsig; [apply elem_of_cons; right; exact Hq|].
      rewrite <- E1. exact Hq_alive. }
    destruct (Hout pid Hnotin) as [Hpid_alive Hpid_killed].
    exists s3. split; [exact Hrun|]. split; [congruence|]. split; [congruence|].
    split; [congruence|]. split; [|split; [|split]].
    + rewrite Htr, Htr2.
      rewrite (join_events_ext (procs s) (procs s2) l).
      * unfold join_events. cbn [flat_map]. rewrite app_nil_r, <- app_assoc.
        reflexivity.
      * intros q Hq.
        assert (q <> pid) as Hne by (intros ->; destruct (Hnotin Hq)).
        destruct (Hother q Hne) as (E1 & E2 & _). split; assumption.
    + intros q Hq. apply not_elem_of_cons in Hq as [Hne Hq].
      destruct (Hout q Hq) as [-> ->].
      destruct (Hother q Hne) as (E1 & _ & _ & E4). split; assumption.
    + intros q Hq Hst. apply elem_of_cons in Hq as [->|Hq].
      * rewrite Hpid_alive. apply not_true_is_false. intros E.
        apply Hmono in E. rewrite Hpid, Hst, andb_false_r in E. discriminate E.
      * assert (q <> pid) as Hne by (intros ->; destruct (Hnotin Hq)).
        destruct (Hother q Hne) as (_ & E2 & _).
        apply (Hdead q Hq). rewrite E2. exact Hst.
    + intros q Hq Hal Hst. apply elem_of_cons in Hq as [->|Hq].
      * rewrite Hpid_killed. apply Hkilled. rewrite Hpid, Hal, Hst. reflexivity.
      * assert (q <> pid) as Hne by (intros ->; destruct (Hnotin Hq)).
        destruct (Hother q Hne) as (E1 & E2 & _).
        apply (Hkl q Hq); [rewrite E1|rewrite E2]; assumption.
Qed.

(** X4: the teardown of a pool without repetitions is two-phase.  The
    stop routine first sends SIGTERM to every live process of the pool,
    then joins every process with the 5 second timeout and sends SIGKILL
    to exactly those that were alive and ignore SIGTERM; a process that
    honours SIGTERM is never killed.  Afterwards the pool list is empty
    and every process outside the pool is as it was.  A process of the
    pool that honours SIGTERM is dead; one that was alive and ignores
    SIGTERM has been sent SIGKILL, and the routine returns without
    waiting for it. *)
Theorem stop_two_phase (s : State) (Hnodup : NoDup (worker_processes s)) :
  exists s',
    _stop_cpu_stress_workers s = (Return tt, s') /\
    worker_processes s' = [] /\
    trace s' =
      trace s ++
      [EvLog "Stopping CPU stress workers"] ++
      terminate_events (procs s) (worker_processes s) ++
      join_events (procs s) (worker_processes s) ++
      [EvLog "All CPU stress workers stopped"] /\
    (forall pid,
       In (EvKill pid) (join_events (procs s) (worker_processes s)) <->
       pid ∈ worker_processes s /\
       alive_at (procs s) pid = true /\ stubborn_at (procs s) pid = true) /\
    (forall pid, pid ∉ worker_processes s ->
       alive_at (procs s') pid = alive_at (procs s) pid) /\
    (forall pid, pid ∈ worker_processes s ->
       stubborn_at (procs s) pid = false ->
       alive_at (procs s') pid = false) /\
    (forall pid, pid ∈ worker_processes s ->
       alive_at (procs s) pid = true -> stubborn_at (procs s) pid = true ->
       killed_at (procs s') pid = true).
Proof.
  destruct (terminate_all_exact (worker_processes s)
              (logged "Stopping CPU stress workers" s))
    as (s1 & Hrun1 & Hc1 & Hw1 & Hlen1 & Htr1 & Hal1 & Hst1 & Hkl1 & Hsig1).
  cbn [logged config worker_processes procs trace] in *.
  destruct (join_all_exact (worker_processes s) s1 Hnodup)
    as (s2 & Hrun2 & Hc2 & Hw2 & Hlen2 & Htr2 & Hout2 & Hdead2 & Hkilled2).
  { intros pid Hin Halive. apply Hsig1. right. split; [exact Hin|].
    rewrite <- Hal1. exact Halive. }
  exists (clear_workers s2).
  split; [|split; [reflexivity|split; [|split; [|split; [|split]]]]].
  - unfold _stop_cpu_stress_workers.
    cbv beta iota delta [mbind M_bind bind get mret M_ret ret].
    rewrite log_eq. cbn [logged worker_processes].
    fold (logged "Stopping CPU stress workers" s).
    rewrite Hrun1, Hrun2. reflexivity.
  - cbn [clear_workers trace]. rewrite Htr2, Htr1.
    rewrite (join_events_ext (procs s) (procs s1));
      [|intros q _; split; [apply Hal1|apply Hst1]].
    rewrite <- !app_assoc. reflexivity.
  - intros pid. unfold join_events. rewrite in_flat_map. split.
    + intros (q & Hq & Hin). destruct Hin as [Hin|Hin]; [discriminate Hin|].
      destruct (alive_at (procs s) q && stubborn_at (procs s) q) eqn:E;
        [|destruct Hin].
      destruct Hin as [Hin|[]]. injection Hin as ->.
      apply andb_true_iff in E. split; [apply list_elem_of_In; exact Hq|exact E].
    + intros (Hin & Ha & Hs). exists pid. split; [apply list_elem_of_In; exact Hin|].
      right. rewrite Ha, Hs. left. reflexivity.
  - intros pid Hout. cbn [clear_workers procs].
    destruct (Hout2 pid Hout) as [-> _]. apply Hal1.
  - intros pid Hin Hst. cbn [clear_workers procs].
    apply (Hdead2 pid Hin). rewrite Hst1. exact Hst.
  - intros pid Hin Hal Hst. cbn [clear_workers procs].
    apply (Hkilled2 pid Hin); [rewrite Hal1|rewrite Hst1]; assumption.
Qed.

(** ** Errors of the collaborators during the loop *)

(** A run whose first [k] ticks go through and whose tick [k] ends the
    loop with an exception: [last] is what tick [k] leaves behind and
    [trk] what it emits. *)
Lemma execute_raises_in_tick (env : Env) (k fuel : nat) (s : State) (w : Z)
    (e : PyExn)
    (last : State -> State) (trk : State -> list Event) (tick : list Step) :
  workers (config s) = Some w ->
  (forall pid, start_fails env pid = None) ->
  (forall i, (i < k)%nat -> safe_tick env (interval * Z.of_nat i)) ->
  interval * Z.of_nat k < duration (config s) ->
  (k < fuel)%nat ->
  (forall s1, config s1 = config s ->
     monitor env (S (fuel - S k)) (interval * Z.of_nat k) s1 =
       (Raise e, last s1)) ->
  (forall s0 tr s1, owned s0 tr s1 -> owned s0 (tr ++ trk s1) (last s1)) ->
  (forall s1, length (procs (last s1)) = length (procs s1)) ->
  (forall s1, steps (trk s1) = tick) ->
  exists s' tr,
    execute env fuel s = (Raise e, s') /\
    trace s' = trace s ++ tr /\
    steps tr = concat (replicate k code_tick) ++ tick /\
    worker_processes s' = [] /\
    length (procs s') = (length (procs s) + Z.to_nat w)%nat /\
    (forall pid, (length (procs s) <= pid < length (procs s) + Z.to_nat w)%nat ->
       before (EvTerminate pid) (EvJoin pid 5) tr /\
       (alive_at (procs s') pid = true ->
        stubborn_at (procs s') pid = true /\
        killed_at (procs s') pid = true /\
        before (EvJoin pid 5) (EvKill pid) tr)).
Proof.
  intros Hw Hstart Hsafe Hreach Hfuel Hlast Hown Hlength Hsteps.
  pose proof (owned_logged _ _ _ "Starting CPU stress experiment"
                (owned_init s)) as Ho0.
  destruct (start_owned env _ _ _ Ho0)
    as (r1 & s1 & tr1 & Hrun1 & _ & Ho1 & Hsteps1 & Hok).
  rewrite (Hok Hstart) in Hrun1 by (cbn [logged config]; congruence).
  pose proof (start_length env (logged "Starting CPU stress experiment" s)
                _ w Hw Hstart Hrun1) as Hlen1.
  cbn [logged procs] in Hlen1.
  pose proof (ow_config _ _ _ Ho1) as Hc1.
  destruct (owned_after_ticks env s k 0 _ _ Ho1) as (tr2 & Ho2 & Hsteps2).
  destruct (after_ticks_frame env k 0 s1) as [Hlen2 _].
  pose proof (Hown _ _ _ Ho2) as Ho3.
  assert (monitor env fuel 0 s1 = (Raise e, last (after_ticks env k 0 s1)))
    as Hmon.
  { replace fuel with (k + S (fuel - S k))%nat at 1 by lia.
    rewrite monitor_ticks.
    - rewrite Z.add_0_l. apply Hlast. rewrite after_ticks_config. exact Hc1.
    - intros i Hi. rewrite Z.add_0_l. apply Hsafe, Hi.
    - destruct k as [|k']; [left; reflexivity|right].
      rewrite Hc1. unfold interval in *. lia. }
  destruct (execute_when_monitor_raises env fuel s _ _ e Hrun1 Hmon)
    as (s' & tr & Hexec & Hst).
  destruct (owned_stopped _ _ _ _ _
              (owned_logged _ _ _ "CPU stress experiment failed" Ho3) Hst)
    as [Ho Hpool].
  assert (length (procs s') = (length (procs s) + Z.to_nat w)%nat) as Hlen.
  { rewrite (st_length _ _ _ Hst). cbn [logged procs].
    rewrite Hlength, Hlen2. exact Hlen1. }
  eexists. eexists. split; [exact Hexec|].
  split; [apply (ow_trace _ _ _ Ho)|].
  split; [|split; [exact Hpool|split; [exact Hlen|]]].
  - rewrite !steps_app, Hsteps1, Hsteps2, Hsteps, (st_steps _ _ _ Hst).
    cbn. rewrite !app_nil_r. reflexivity.
  - intros pid Hpid. apply (owned_torn_down _ _ _ pid Ho Hpool). lia.
Qed.

(** X5: an exception raised by the safety controller at tick [k]
    leaves [execute] unchanged, as the very exception the controller
    raised.  Before it there are [k] full ticks and the failing poll
    and nothing else.  The pool has been torn down: the pool list is
    empty and every one of the [max(0, w)] workers started has been sent
    SIGTERM and has then been joined; a worker that is still alive
    ignores SIGTERM and was sent SIGKILL after its join. *)
Theorem safety_error_propagates (env : Env) (k fuel : nat) (s : State) (w : Z)
    (e : PyExn)
    (Hw : workers (config s) = Some w)
    (Hstart : forall pid, start_fails env pid = None)
    (Hsafe : forall i, (i < k)%nat -> safe_tick env (interval * Z.of_nat i))
    (Hpoll : check_safety env (interval * Z.of_nat k) = inr e)
    (Hreach : interval * Z.of_nat k < duration (config s))
    (Hfuel : (k < fuel)%nat) :
  exists s' tr,
    execute env fuel s = (Raise e, s') /\
    trace s' = trace s ++ tr /\
    steps tr = concat (replicate k code_tick) ++ [Safety] /\
    worker_processes s' = [] /\
    length (procs s') = (length (procs s) + Z.to_nat w)%nat /\
    (forall pid, (length (procs s) <= pid < length (procs s) + Z.to_nat w)%nat ->
       before (EvTerminate pid) (EvJoin pid 5) tr /\
       (alive_at (procs s') pid = true ->
        stubborn_at (procs s') pid = true /\
        killed_at (procs s') pid = true /\
        before (EvJoin pid 5) (EvKill pid) tr)).
Proof.
  apply (execute_raises_in_tick env k fuel s w e
           (emitted (EvCheckSafety (interval * Z.of_nat k)))
           (fun _ => [EvCheckSafety (interval * Z.of_nat k)]));
    try assumption.
  - intros s1 Hc. rewrite monitor_eq, Hc.
    apply Z.ltb_lt in Hreach. rewrite Hreach, Hpoll. reflexivity.
  - intros s0 tr s1 Ho.
    exact (owned_quiet _ _ _ _ _ Ho (emitted_quiet _ s1)).
  - reflexivity.
  - reflexivity.
Qed.

(** X6: an exception raised by the metrics collector at tick [k]
    leaves [execute] unchanged.  Tick [k] has polled safety, sampled
    telemetry and handed the sample over, but does not sleep.  The pool
    has been torn down: the pool list is empty and every one of the
    [max(0, w)] workers started has been sent SIGTERM and has then been
    joined; a worker that is still alive ignores SIGTERM and was sent
    SIGKILL after its join. *)
Theorem metrics_error_propagates (env : Env) (k fuel : nat) (s : State) (w : Z)
    (st : SafetyStatus) (e : PyExn)
    (Hw : workers (config s) = Some w)
    (Hstart : forall pid, start_fails env pid = None)
    (Hsafe : forall i, (i < k)%nat -> safe_tick env (interval * Z.of_nat i))
    (Hpoll : check_safety env (interval * Z.of_nat k) = inl st)
    (Hsafe_k : safe st = true)
    (Hrecord : record_metrics env (interval * Z.of_nat k) = Some e)
    (Hreach : interval * Z.of_nat k < duration (config s))
    (Hfuel : (k < fuel)%nat) :
  exists s' tr,
    execute env fuel s = (Raise e, s') /\
    trace s' = trace s ++ tr /\
    steps tr = concat (replicate k code_tick) ++ [Safety; Sample; Emit] /\
    worker_processes s' = [] /\
    length (procs s') = (length (procs s) + Z.to_nat w)%nat /\
    (forall pid, (length (procs s) <= pid < length (procs s) + Z.to_nat w)%nat ->
       before (EvTerminate pid) (EvJoin pid 5) tr /\
       (alive_at (procs s') pid = true ->
        stubborn_at (procs s') pid = true /\
        killed_at (procs s') pid = true /\
        before (EvJoin pid 5) (EvKill pid) tr)).
Proof.
  apply (execute_raises_in_tick env k fuel s w e
           (fun s1 => recorded env (interval * Z.of_nat k)
                        (emitted (EvCheckSafety (interval * Z.of_nat k)) s1))
           (recorded_events env (interval * Z.of_nat k)));
    try assumption.
  - intros s1 Hc. rewrite monitor_eq, Hc.
    apply Z.ltb_lt in Hreach. rewrite Hreach, Hpoll, Hsafe_k, Hrecord.
    reflexivity.
  - intros s0 tr s1 Ho. apply owned_recorded, Ho.
  - reflexivity.
  - reflexivity.
Qed.

(** ** A run in which every tick goes through *)

Lemma samples_of_app (tr1 tr2 : list Event) :
  samples_of (tr1 ++ tr2) = samples_of tr1 ++ samples_of tr2.
Proof. apply omap_app. Qed.

Lemma samples_of_no_steps (tr : list Event) :
  steps tr = [] -> samples_of tr = [].
Proof.
  induction tr as [|ev tr IH]; [reflexivity|].
  destruct ev; cbn; intros H; try discriminate H; exact (IH H).
Qed.

Lemma samples_of_starts (percent share : Z) (l : list nat) :
  samples_of (map (fun pid => EvStart pid percent share) l) = [].
Proof. induction l as [|pid l IH]; [reflexivity|exact IH]. Qed.

Lemma after_ticks_samples (env : Env) (n : nat) :
  forall (elapsed : Z) (s : State),
  exists tr,
    trace (after_ticks env n elapsed s) = trace s ++ tr /\
    samples_of tr =
      map (fun i => (elapsed + interval * Z.of_nat i,
                     length (worker_processes s)))
          (seq 0 n).
Proof.
  induction n as [|n IH]; intros elapsed s.
  - exists []. split; [symmetry; apply app_nil_r|reflexivity].
  - cbn [after_ticks].
    destruct (IH (elapsed + interval) (tick_state env elapsed s))
      as (tr & Htr & Hsm).
    exists (tick_events env elapsed s ++ tr). split.
    + rewrite Htr. cbn [tick_state slept emitted logged recorded sampled trace].
      unfold tick_events, recorded_events. rewrite <- !app_assoc. reflexivity.
    + rewrite samples_of_app, Hsm. cbn [seq map].
      change (samples_of (tick_events env elapsed s))
        with [(elapsed, length (worker_processes s))].
      cbn [app]. f_equal; [f_equal; unfold interval; lia|].
      rewrite <- seq_shift, map_map. apply map_ext. intros i.
      f_equal. unfold interval. lia.
Qed.

Lemma monitor_all_safe_eq (env : Env) (fuel : nat) (s : State) :
  (forall i, (i < ticks_of (duration (config s)))%nat ->
             safe_tick env (interval * Z.of_nat i)) ->
  (ticks_of (duration (config s)) <= fuel)%nat ->
  monitor env fuel 0 s =
    (Return tt, after_ticks env (ticks_of (duration (config s))) 0 s).
Proof.
  intros Hsafe Hfuel.
  set (n := ticks_of (duration (config s))) in *.
  destruct (ticks_of_bounds (duration (config s))) as [Hup Hlast].
  fold n in Hup, Hlast.
  replace fuel with (n + (fuel - n))%nat by lia.
  rewrite monitor_ticks.
  - rewrite monitor_eq, after_ticks_config.
    destruct (Z.ltb_spec (0 + interval * Z.of_nat n) (duration (config s)));
      [lia|reflexivity].
  - intros i Hi. rewrite Z.add_0_l. apply Hsafe, Hi.
  - rewrite Z.add_0_l. exact Hlast.
Qed.

(** X7: when no start fails and every tick goes through, [execute]
    returns after [ticks_of duration] ticks with [success], the
    configured worker count and intensity in its result.  It has started
    [max(0, workers)] processes and handed exactly one metrics sample
    per tick to the collector, the [i]-th with [elapsed_time = 5 * i]
    and with [active_workers] the size of the pool after the start. *)
Theorem execute_all_safe (env : Env) (fuel : nat) (s : State) (w : Z)
    (Hw : workers (config s) = Some w)
    (Hstart : forall pid, start_fails env pid = None)
    (Hsafe : forall i, (i < ticks_of (duration (config s)))%nat ->
                       safe_tick env (interval * Z.of_nat i))
    (Hfuel : (ticks_of (duration (config s)) <= fuel)%nat) :
  exists r s' tr,
    execute env fuel s = (Return r, s') /\
    success r = true /\
    workers_used r = Some w /\
    target_cpu_percent r = cpu_percent (config s) /\
    worker_processes s' = [] /\
    length (procs s') = (length (procs s) + Z.to_nat w)%nat /\
    trace s' = trace s ++ tr /\
    samples_of tr =
      map (fun i => (interval * Z.of_nat i,
                     (length (worker_processes s) + Z.to_nat w)%nat))
          (seq 0 (ticks_of (duration (config s)))).
Proof.
  set (s0 := logged "Starting CPU stress experiment" s).
  set (n := Z.to_nat w).
  set (s1 := logged (started_message
                       (length (worker_processes s ++ next_pids s n)))
               (spawned env (cpu_percent (config s)) w n
                  (logged (starting_message (Some w)) s0))).
  assert (_start_cpu_stress_workers env s0 = (Return tt, s1)) as Hrun1.
  { rewrite (start_eq env s0 w Hw), start_workers_spawned; [reflexivity|].
    intros pid _. apply Hstart. }
  assert (monitor env fuel 0 s1 =
          (Return tt, after_ticks env (ticks_of (duration (config s))) 0 s1))
    as Hrun2 by (apply (monitor_all_safe_eq env fuel s1); assumption).
  set (s2 := after_ticks env (ticks_of (duration (config s))) 0 s1) in *.
  destruct (stop_spec s2) as (s3 & tr3 & Hrun3 & Hst).
  destruct (after_ticks_frame env (ticks_of (duration (config s))) 0 s1)
    as [Hlen2 Hpool2]. fold s2 in Hlen2, Hpool2.
  destruct (after_ticks_samples env (ticks_of (duration (config s))) 0 s1)
    as (tr2 & Htr2 & Hsm2). fold s2 in Htr2.
  exists {| success := true; final_metrics := psutil env (samples s3);
            workers_used := workers (config (sampled s3));
            target_cpu_percent := cpu_percent (config (sampled s3)) |},
    (sampled s3),
    (((([EvLog "Starting CPU stress experiment";
         EvLog (starting_message (Some w))] ++
        map (fun pid => EvStart pid (cpu_percent (config s)) w) (next_pids s n) ++
        [EvLog (started_message
                  (length (worker_processes s ++ next_pids s n)))]) ++ tr2) ++ tr3)
      ++ [EvCpuPercent; EvVirtualMemory]).
  assert (config s3 = config s) as Hc3.
  { rewrite (st_config _ _ _ Hst). unfold s2. rewrite after_ticks_config.
    reflexivity. }
  split; [|split; [reflexivity|split; [|split; [|split; [|split; [|split]]]]]].
  - unfold execute.
    rewrite (bind_Return _ _ _ _ _ (log_eq "Starting CPU stress experiment" s)).
    cbv beta iota delta [try_except]. fold s0.
    rewrite (bind_Return _ _ _ _ _ Hrun1), (bind_Return _ _ _ _ _ Hrun2),
      (bind_Return _ _ _ _ _ Hrun3),
      (bind_Return _ _ _ _ _ (sample_metrics_eq env s3)).
    reflexivity.
  - cbn [workers_used sampled config]. rewrite Hc3. exact Hw.
  - cbn [target_cpu_percent sampled config]. rewrite Hc3. reflexivity.
  - apply (st_workers _ _ _ Hst).
  - cbn [sampled procs]. rewrite (st_length _ _ _ Hst), Hlen2.
    unfold s1, s0. cbn [logged spawned procs].
    rewrite length_app, length_map. unfold next_pids. rewrite length_seq.
    reflexivity.
  - cbn [sampled trace]. rewrite (st_trace _ _ _ Hst), Htr2.
    unfold s1, s0, next_pids. cbn [logged spawned trace procs].
    rewrite <- !app_assoc. reflexivity.
  - rewrite !samples_of_app, Hsm2, samples_of_starts,
      (samples_of_no_steps tr3 (st_steps _ _ _ Hst)).
    change (samples_of [EvLog "Starting CPU stress experiment";
                        EvLog (starting_message (Some w))])
      with (@nil (Z * nat)).
    change (samples_of [EvLog (started_message
                                 (length (worker_processes s ++ next_pids s n)))])
      with (@nil (Z * nat)).
    change (samples_of [EvCpuPercent; EvVirtualMemory]) with (@nil (Z * nat)).
    cbn [app]. rewrite !app_nil_r.
    apply map_ext. intros i. rewrite Z.add_0_l. f_equal.
    unfold s1, s0. cbn [logged spawned worker_processes].
    rewrite length_app. unfold next_pids. rewrite length_seq. reflexivity.
Qed.

(** ** setup, and worker counts below zero *)

Lemma setup_eq (env : Env) (s : State) :
  setup env s =
    (Return {| setup_complete := true;
               workers_planned := workers (setup_config env (config s));
               baseline_metrics := psutil env (samples s) |},
     after_setup env s).
Proof.
  destruct s as [[cp du wk] wp oc ps sm tr].
  unfold setup, after_setup, setup_config.
  cbv beta iota delta [mbind M_bind bind get mret M_ret ret when].
  rewrite log_eq. cbn [logged config workers].
  destruct (truthy wk); cbn [negb];
    cbv beta iota delta [set_config ret]; rewrite sample_metrics_eq, log_eq;
    unfold logged;
    cbn [config worker_processes original_cpu_usage procs samples trace
           workers cpu_percent duration];
    rewrite <- !app_assoc; reflexivity.
Qed.

Lemma setup_config_truthy (env : Env) (c : CPUStressConfig) :
  truthy (workers (setup_config env c)) = true.
Proof.
  unfold setup_config. destruct (truthy (workers c)) eqn:E; [exact E|].
  cbn [workers]. apply truthy_Some. lia.
Qed.

(** X8: [setup] is idempotent on the configuration.  It only replaces
    a falsy worker count ([None] or [0]); a second [setup] keeps the
    configuration and reports the same [workers_planned].  It never
    touches the pool list or the process table, and it leaves a
    configuration with a truthy worker count entirely as it was. *)
Theorem setup_idempotent (env : Env) (s : State) :
  exists r1 s1 r2 s2,
    setup env s = (Return r1, s1) /\
    setup env s1 = (Return r2, s2) /\
    config s2 = config s1 /\
    workers_planned r2 = workers_planned r1 /\
    workers_planned r1 = workers (config s1) /\
    procs s1 = procs s /\
    worker_processes s1 = worker_processes s /\
    (truthy (workers (config s)) = true -> config s1 = config s).
Proof.
  eexists. eexists. eexists. eexists.
  split; [apply setup_eq|]. split; [apply setup_eq|].
  cbn [workers_planned after_setup config procs worker_processes].
  assert (setup_config env (setup_config env (config s)) =
          setup_config env (config s)) as Hidem.
  { unfold setup_config at 1. rewrite setup_config_truthy. reflexivity. }
  rewrite Hidem. repeat split.
  intros Ht. unfold setup_config. rewrite Ht. reflexivity.
Qed.

(** X9: a negative worker count is let through.  With intensity and
    duration in range [validate_parameters] accepts it (the bound is an
    upper bound only), [setup] keeps it (it is truthy), and the start
    loop over [range(workers)] then returns without starting a single
    process. *)
Theorem negative_workers_start_nothing (env : Env) (s : State) (w : Z)
    (Hcpu : 0 < cpu_count env)
    (Hw : workers (config s) = Some w)
    (Hneg : w < 0)
    (Hrange : in_range (config s)) :
  (exists r,
     validate_parameters env s = (Return r, s) /\
     valid r = true /\ errors r = []) /\
  (exists r s1,
     setup env s = (Return r, s1) /\
     config s1 = config s /\ workers_planned r = Some w) /\
  (exists s',
     _start_cpu_stress_workers env s = (Return tt, s') /\
     procs s' = procs s /\
     worker_processes s' = worker_processes s /\
     trace s' = trace s ++ [EvLog (starting_message (Some w));
                            EvLog (started_message
                                     (length (worker_processes s)))]).
Proof.
  assert (truthy (workers (config s)) = true) as Ht
    by (rewrite Hw; apply truthy_Some; lia).
  split; [|split].
  - eexists. split; [apply validate_parameters_eq|].
    destruct Hrange as [Hc Hd].
    apply bad_cpu_false_iff in Hc. apply bad_duration_false_iff in Hd.
    assert (bad_workers env (config s) = false) as Hb.
    { unfold bad_workers. rewrite Hw. apply andb_false_iff. right.
      apply Z.ltb_ge. lia. }
    cbn [valid errors]. rewrite Hc, Hd, Hb. split; reflexivity.
  - eexists. eexists. split; [apply setup_eq|].
    cbn [after_setup config workers_planned]. unfold setup_config.
    rewrite Ht. split; [reflexivity|exact Hw].
  - rewrite (start_eq env s w Hw).
    rewrite start_workers_spawned by (intros pid Hpid; lia).
    rewrite (Z2Nat.nonpos w) by lia.
    eexists. split; [reflexivity|].
    cbn [logged spawned procs worker_processes trace next_pids seq map].
    rewrite !app_nil_r. split; [reflexivity|]. split; [reflexivity|].
    rewrite <- app_assoc. reflexivity.
Qed.

(** ** cleanup after execute *)

Lemma cleanup_empty_pool (env : Env) (s : State) :
  worker_processes s = [] ->
  cleanup env s =
    (Return {| cleanup_complete := true;
               cleanup_metrics := psutil env (samples s);
               workers_terminated := 0 |},
     {| config := config s; worker_processes := [];
        original_cpu_usage := original_cpu_usage s;
        procs := time_passes <$> procs s;
        samples := S (samples s);
        trace := trace s ++ idle_cleanup_events |}).
Proof.
  intros Hpool. unfold cleanup.
  rewrite (bind_Return _ _ _ _ _ (log_eq "Cleaning up CPU stress experiment" s)).
  rewrite (bind_Return _ _ _ _ _
             (stop_no_workers (logged "Cleaning up CPU stress experiment" s)
                Hpool)).
  cbv beta iota delta [mbind M_bind bind get mret M_ret ret].
  rewrite asyncio_sleep_eq, sample_metrics_eq.
  cbn [clear_workers logged slept config worker_processes original_cpu_usage
         procs samples trace].
  unfold idle_cleanup_events. rewrite <- !app_assoc. reflexivity.
Qed.

(** During a sleep nothing changes in a table without a SIGKILL. *)
Lemma time_passes_id (ps : list Proc) :
  (forall pid, killed_at ps pid = false) -> time_passes <$> ps = ps.
Proof.
  induction ps as [|p ps IH]; intros H; [reflexivity|].
  cbn [fmap list_fmap]. f_equal.
  - specialize (H 0%nat). unfold killed_at in H. cbn in H.
    destruct p as [a sg st kl]. cbn in H. subst kl.
    unfold time_passes. cbn. rewrite andb_true_r. reflexivity.
  - apply IH. intros pid. exact (H (S pid)).
Qed.

(** X10: [cleanup] after [execute] finds nothing to stop.  However
    [execute] ended, the following [cleanup] returns, sends no signal
    and joins nothing: it only logs, sleeps 10 seconds and samples.  The
    process table is as [execute] left it but for the passing of time:
    a worker that [execute] left with a pending SIGKILL is dead after
    the sleep, so that no process that was sent SIGKILL is alive; when
    [execute] sent no SIGKILL the table is exactly as it was. *)
Theorem cleanup_after_execute (env : Env) (fuel : nat) (s : State)
    (Hfuel : (Z.to_nat (duration (config s)) <= fuel)%nat) :
  exists r s1 c s2,
    execute env fuel s = (r, s1) /\
    r <> OutOfFuel /\
    cleanup env s1 = (Return c, s2) /\
    cleanup_complete c = true /\
    procs s2 = time_passes <$> procs s1 /\
    (forall pid, killed_at (procs s2) pid = true ->
                 alive_at (procs s2) pid = false) /\
    ((forall pid, killed_at (procs s1) pid = false) -> procs s2 = procs s1) /\
    worker_processes s2 = [] /\
    trace s2 = trace s1 ++ idle_cleanup_events.
Proof.
  destruct (execute_owned env fuel s Hfuel) as (r & s1 & tr & Hrun & Hr & _ & Hpool).
  exists r, s1. eexists. eexists.
  split; [exact Hrun|]. split; [exact Hr|].
  split; [apply (cleanup_empty_pool env s1 Hpool)|].
  cbn [cleanup_complete procs worker_processes trace].
  split; [reflexivity|]. split; [reflexivity|].
  split; [|split; [apply time_passes_id|split; reflexivity]].
  intros pid.
  destruct (at_time_passes (procs s1) pid) as (-> & _ & _ & ->).
  intros ->. apply andb_false_r.
Qed.

(** ** Concrete runs *)

Lemma start_spawns_all_witness :
  exists s',
    _start_cpu_stress_workers host4 (fresh (two_workers 10)) = (Return tt, s') /\
    worker_processes s' = [0; 1]%nat /\
    alive_at (procs s') 0 = true /\ alive_at (procs s') 1 = true.
Proof.
  destruct (start_spawns_all host4 (fresh (two_workers 10)) 2 eq_refl)
    as (s' & Hrun & _ & _ & Hpool & Halive & _).
  { intros pid _. reflexivity. }
  exists s'. split; [exact Hrun|]. split; [exact Hpool|].
  split; apply Halive; apply list_elem_of_In; vm_compute; auto.
Defined.

Lemma execute_start_failure_witness :
  exists s' tr,
    execute flaky_start 12 (fresh (two_workers 60)) =
      (Raise (OSError "Resource temporarily unavailable"), s') /\
    trace s' = tr /\
    steps tr = [] /\
    worker_processes s' = [] /\
    length (procs s') = 1%nat /\
    before (EvTerminate 0) (EvJoin 0 5) tr.
Proof.
  destruct (execute_start_failure flaky_start 12 (fresh (two_workers 60)) 2 1
              (OSError "Resource temporarily unavailable") eq_refl)
    as (s' & tr & Hrun & Htr & Hsteps & Hpool & Hlen & Hpids).
  { vm_compute. lia. }
  { intros pid Hpid. cbn in Hpid.
    assert (pid = 0%nat) as -> by lia. reflexivity. }
  { reflexivity. }
  exists s', tr. split; [exact Hrun|]. split; [exact Htr|].
  split; [exact Hsteps|]. split; [exact Hpool|]. split; [exact Hlen|].
  apply (Hpids 0%nat). apply list_elem_of_In. vm_compute. auto.
Defined.

Lemma execute_unset_workers_witness :
  exists s',
    execute host4 12 (fresh default_config) =
      (Raise (TypeError "'NoneType' object cannot be interpreted as an integer"),
       s') /\
    procs s' = [] /\ worker_processes s' = [].
Proof.
  destruct (execute_unset_workers host4 12 (fresh default_config)
              eq_refl eq_refl) as (s' & Hrun & Hprocs & Hpool & _).
  exists s'. split; [exact Hrun|]. split; [exact Hprocs|exact Hpool].
Defined.

Lemma stop_two_phase_witness :
  exists s',
    _stop_cpu_stress_workers pooled = (Return tt, s') /\
    trace s' = [EvLog "Stopping CPU stress workers";
                EvTerminate 0; EvTerminate 1;
                EvJoin 0 5; EvJoin 1 5; EvKill 1;
                EvLog "All CPU stress workers stopped"] /\
    alive_at (procs s') 0 = false /\ killed_at (procs s') 1 = true.
Proof.
  destruct (stop_two_phase pooled)
    as (s' & Hrun & _ & Htr & _ & _ & Hdead & Hkilled).
  { apply (bool_decide_unpack _). vm_compute. exact I. }
  exists s'. split; [exact Hrun|]. split; [exact Htr|]. split.
  - apply Hdead; [apply list_elem_of_In; vm_compute; auto|reflexivity].
  - apply Hkilled; [apply list_elem_of_In; vm_compute; auto| |]; reflexivity.
Defined.

Lemma safety_error_propagates_witness :
  exists s' tr,
    execute flaky_safety 12 (fresh (two_workers 60)) =
      (Raise (Exception "telemetry unavailable"), s') /\
    trace s' = tr /\
    steps tr = concat (replicate 2 code_tick) ++ [Safety] /\
    worker_processes s' = [].
Proof.
  destruct (safety_error_propagates flaky_safety 2 12 (fresh (two_workers 60))
              2 (Exception "telemetry unavailable"))
    as (s' & tr & Hrun & Htr & Hsteps & Hpool & _).
  - reflexivity.
  - reflexivity.
  - intros [|[|i]] Hi.
    + split; [eexists; split; reflexivity|reflexivity].
    + split; [eexists; split; reflexivity|reflexivity].
    + lia.
  - reflexivity.
  - reflexivity.
  - lia.
  - exists s', tr. split; [exact Hrun|]. split; [exact Htr|].
    split; [exact Hsteps|exact Hpool].
Defined.

Lemma metrics_error_propagates_witness :
  exists s' tr,
    execute flaky_metrics 12 (fresh (two_workers 60)) =
      (Raise (Exception "metrics backend down"), s') /\
    trace s' = tr /\
    steps tr = concat (replicate 2 code_tick) ++ [Safety; Sample; Emit] /\
    worker_processes s' = [].
Proof.
  destruct (metrics_error_propagates flaky_metrics 2 12 (fresh (two_workers 60))
              2 {| safe := true; message := "" |}
              (Exception "metrics backend down"))
    as (s' & tr & Hrun & Htr & Hsteps & Hpool & _).
  - reflexivity.
  - reflexivity.
  - intros [|[|i]] Hi.
    + split; [eexists; split; reflexivity|reflexivity].
    + split; [eexists; split; reflexivity|reflexivity].
    + lia.
  - reflexivity.
  - reflexivity.
  - reflexivity.
  - reflexivity.
  - lia.
  - exists s', tr. split; [exact Hrun|]. split; [exact Htr|].
    split; [exact Hsteps|exact Hpool].
Defined.

Lemma execute_all_safe_witness :
  exists r s' tr,
    execute host4 2 (fresh (two_workers 10)) = (Return r, s') /\
    workers_used r = Some 2 /\
    length (procs s') = 2%nat /\
    trace s' = tr /\
    samples_of tr = [(0, 2%nat); (5, 2%nat)].
Proof.
  destruct (execute_all_safe host4 2 (fresh (two_workers 10)) 2 eq_refl)
    as (r & s' & tr & Hrun & _ & Hused & _ & _ & Hlen & Htr & Hsamples).
  - reflexivity.
  - intros i _. split; [eexists; split; reflexivity|reflexivity].
  - vm_compute. lia.
  - exists r, s', tr. split; [exact Hrun|]. split; [exact Hused|].
    split; [exact Hlen|]. split; [exact Htr|exact Hsamples].
Defined.

Lemma negative_workers_start_nothing_witness :
  (exists r,
     validate_parameters host4 (fresh negative_workers) =
       (Return r, fresh negative_workers) /\ valid r = true) /\
  (exists r s1,
     setup host4 (fresh negative_workers) = (Return r, s1) /\
     workers_planned r = Some (-3)) /\
  (exists s',
     _start_cpu_stress_workers host4 (fresh negative_workers) = (Return tt, s') /\
     procs s' = [] /\ worker_processes s' = []).
Proof.
  destruct (negative_workers_start_nothing host4 (fresh negative_workers) (-3))
    as ((r1 & Hv & Hvalid & _) & (r2 & s1 & Hs & _ & Hplan)
        & (s' & Hrun & Hprocs & Hpool & _)).
  - reflexivity.
  - reflexivity.
  - reflexivity.
  - vm_compute. repeat split; discriminate.
  - split; [exists r1; split; assumption|].
    split; [exists r2, s1; split; assumption|].
    exists s'. split; [exact Hrun|]. split; [exact Hprocs|exact Hpool].
Defined.

Lemma cleanup_after_execute_witness :
  exists r s1 c s2,
    execute host4 10 (fresh (two_workers 10)) = (r, s1) /\
    r <> OutOfFuel /\
    cleanup host4 s1 = (Return c, s2) /\
    procs s2 = procs s1 /\
    trace s2 = trace s1 ++ idle_cleanup_events.
Proof.
  destruct (cleanup_after_execute host4 10 (fresh (two_workers 10)))
    as (r & s1 & c & s2 & Hrun & Hr & Hclean & _ & _ & _ & Hsame & _ & Htr).
  - vm_compute. lia.
  - exists r, s1, c, s2. split; [exact Hrun|]. split; [exact Hr|].
    split; [exact Hclean|]. split; [|exact Htr].
    apply Hsame. vm_compute in Hrun. injection Hrun as _ <-.
    intros [|[|pid]]; reflexivity.
Defined.

End CPUStressBehaviour.

(** * The worker function *)

Module WorkerFacts.
Import Worker.

(** The loop of [cpu_bound_task] has no exit: whatever the fuel, it
    uses all of it, and it keeps [x] below one million. *)
Lemma cpu_bound_loop_spins (fuel : nat) :
  forall (v : Z) (s : State),
    0 <= v < 1000000 ->
    exists s',
      cpu_bound_loop fuel v s = (OutOfFuel, s') /\
      clock_reads s' = clock_reads s /\
      trace s' = trace s /\
      (fuel <> 0%nat -> 0 <= x s' < 1000000).
Proof.
  induction fuel as [|fuel IH]; intros v s Hv.
  - exists s. split; [reflexivity|]. split; [reflexivity|].
    split; [reflexivity|]. intros H. destruct (H eq_refl).
  - cbn [cpu_bound_loop].
    cbv beta iota delta [mbind M_bind bind set_x modify].
    assert (0 <= (v + 1) mod 1000000 < 1000000) as Hv'
      by (apply Z.mod_pos_bound; lia).
    destruct (IH ((v + 1) mod 1000000)
                {| x := (v + 1) mod 1000000; clock_reads := clock_reads s;
                   trace := trace s |} Hv')
      as (s' & Hrun & Hc & Ht & Hx).
    cbn [x clock_reads trace] in *.
    exists s'. rewrite Hrun. split; [reflexivity|]. split; [exact Hc|].
    split; [exact Ht|]. intros _.
    destruct fuel as [|fuel'].
    + cbn [cpu_bound_loop] in Hrun. injection Hrun as <-. exact Hv'.
    + apply Hx. discriminate.
Qed.

Lemma cpu_bound_task_spins (fuel : nat) (s : State) :
  exists s',
    cpu_bound_task fuel s = (OutOfFuel, s') /\
    clock_reads s' = clock_reads s /\
    trace s' = trace s /\
    0 <= x s' < 1000000.
Proof.
  unfold cpu_bound_task.
  cbv beta iota delta [mbind M_bind bind set_x modify].
  destruct (cpu_bound_loop_spins fuel 0
              {| x := 0; clock_reads := clock_reads s; trace := trace s |})
    as (s' & Hrun & Hc & Ht & Hx); [lia|].
  exists s'. rewrite Hrun. split; [reflexivity|]. split; [exact Hc|].
  split; [exact Ht|].
  destruct fuel as [|fuel'].
  - cbn [cpu_bound_loop] in Hrun. injection Hrun as <-. cbn. lia.
  - apply Hx. discriminate.
Qed.

(** X11: a worker that enters its work phase never leaves it.  If the
    first test [time.time() < end_work] succeeds, then for every amount
    of fuel the worker is still running when the fuel is spent, it has
    read the clock at most twice, and it has never slept:
    [cpu_bound_task] does not return, so the sleep half of the duty
    cycle is never reached.  The counter [x] stays in [0, 1000000). *)
Theorem worker_never_sleeps (clock : Clock) (fuel : nat) (s : State)
    (Hwork : before_end_work clock (S (clock_reads s)) = true) :
  exists s',
    _cpu_stress_worker clock fuel s = (OutOfFuel, s') /\
    (clock_reads s' <= clock_reads s + 2)%nat /\
    (exists reads, trace s' = trace s ++ reads /\ Forall (eq EvTime) reads) /\
    (0 <= x s < 1000000 -> 0 <= x s' < 1000000).
Proof.
  destruct fuel as [|[|fuel]].
  - exists s. split; [reflexivity|]. split; [lia|]. split; [|auto].
    exists []. split; [symmetry; apply app_nil_r|constructor].
  - eexists. split; [reflexivity|]. cbn [clock_reads trace x].
    split; [lia|]. split; [|auto].
    exists [EvTime]. split; [reflexivity|]. repeat constructor.
  - cbn [_cpu_stress_worker work_phase].
    cbv beta iota delta [mbind M_bind bind time_time].
    cbn [clock_reads]. rewrite Hwork.
    destruct (cpu_bound_task_spins fuel
                {| x := x s; clock_reads := S (S (clock_reads s));
                   trace := (trace s ++ [EvTime]) ++ [EvTime] |})
      as (s' & Hrun & Hc & Ht & Hx).
    cbn [x clock_reads trace] in *.
    exists s'. rewrite Hrun. split; [reflexivity|]. split; [lia|].
    split; [|intros _; exact Hx].
    exists [EvTime; EvTime]. split; [|repeat constructor].
    rewrite Ht, <- app_assoc. reflexivity.
Qed.

Lemma worker_never_sleeps_witness :
  exists s',
    _cpu_stress_worker duty_clock 1000 started_worker = (OutOfFuel, s') /\
    (clock_reads s' <= clock_reads started_worker + 2)%nat /\
    (exists reads,
       trace s' = trace started_worker ++ reads /\ Forall (eq EvTime) reads) /\
    (0 <= x started_worker < 1000000 -> 0 <= x s' < 1000000).
Proof.
  apply (worker_never_sleeps duty_clock 1000 started_worker). reflexivity.
Defined.

End WorkerFacts.

(** * Further properties of the orchestrator *)

Module OrchestratorBehaviour.
Import Orchestrator OrchestratorSpec OrchestratorRuns.

Section Behaviour.

Context {W R : Type}.
Variable create : string -> ExperimentExecutor W R + PyExn.
Variable safety_pre_flight_check : Experiment R -> SafetyCheck.

(** ** start_experiment *)

(** The four ways a start can go. *)
Lemma start_experiment_eq (experiment_id user_id : string) (s : State W R) :
  start_experiment safety_pre_flight_check experiment_id user_id s =
  match experiments s !! experiment_id with
  | None => (Raise (HTTPException 404 "Experiment not found"), s)
  | Some e =>
      if negb (startable e)
      then (Raise (HTTPException 400
                     "Experiment cannot be started in current status"), s)
      else if negb (safe (safety_pre_flight_check e))
      then (Raise (HTTPException 400
                     ("Safety check failed: "
                        +:+ message (safety_pre_flight_check e))),
            checked experiment_id s)
      else (Return {| response_message := "Experiment starting";
                      response_experiment_id := experiment_id |},
            pending_state experiment_id user_id s)
  end.
Proof.
  destruct s as [exps tasks active total w tr].
  unfold start_experiment, get_experiment, startable, checked, pending_state.
  cbv beta iota delta
    [mbind M_bind bind get mret M_ret ret raise add_task update_status emit
       modify set_experiments experiments background_tasks active_experiments
       experiments_total world trace].
  destruct (exps !! experiment_id) as [e|]; [|reflexivity].
  destruct (negb (String.eqb (status e) "DRAFT"
                  || String.eqb (status e) "SCHEDULED")); [reflexivity|].
  destruct (negb (safe (safety_pre_flight_check e))); [reflexivity|].
  rewrite <- !app_assoc. reflexivity.
Qed.

(** X12: a start stopped by the pre-flight check.  For a DRAFT or
    SCHEDULED experiment whose pre-flight check is not safe,
    [start_experiment] raises HTTP 400 with the check's message; the
    check has been consulted, but no task is queued and no status is
    written. *)
Theorem start_blocked_by_preflight (s : State W R)
    (experiment_id user_id : string) (e : Experiment R)
    (Hfound : experiments s !! experiment_id = Some e)
    (Hstartable : startable e = true)
    (Hunsafe : safe (safety_pre_flight_check e) = false) :
  exists s',
    start_experiment safety_pre_flight_check experiment_id user_id s =
      (Raise (HTTPException 400
                ("Safety check failed: "
                   +:+ message (safety_pre_flight_check e))), s') /\
    experiments s' = experiments s /\
    background_tasks s' = background_tasks s /\
    trace s' = trace s ++ [EvPreFlight experiment_id].
Proof.
  rewrite start_experiment_eq, Hfound, Hstartable, Hunsafe. cbn [negb].
  eexists. split; [reflexivity|]. repeat split.
Qed.

(** X13: an accepted start.  For a DRAFT or SCHEDULED experiment with a
    safe pre-flight check, [start_experiment] queues the background task
    and then writes the status PENDING, in that order; the experiment's
    other fields and every other experiment are as before. *)
Theorem start_accepted_pending (s : State W R)
    (experiment_id user_id : string) (e : Experiment R)
    (Hfound : experiments s !! experiment_id = Some e)
    (Hstartable : startable e = true)
    (Hsafe : safe (safety_pre_flight_check e) = true) :
  exists s',
    start_experiment safety_pre_flight_check experiment_id user_id s =
      (Return {| response_message := "Experiment starting";
                 response_experiment_id := experiment_id |}, s') /\
    experiments s' !! experiment_id = Some (set_status "PENDING" e) /\
    (forall j, j <> experiment_id -> experiments s' !! j = experiments s !! j) /\
    background_tasks s' = background_tasks s ++ [(experiment_id, user_id)] /\
    trace s' = trace s ++ [EvPreFlight experiment_id;
                           EvAddTask experiment_id user_id;
                           EvUpdateStatus experiment_id "PENDING"].
Proof.
  rewrite start_experiment_eq, Hfound, Hstartable, Hsafe. cbn [negb].
  eexists. split; [reflexivity|]. cbn [pending_state experiments
    background_tasks trace]. split; [|split; [|split; reflexivity]].
  - rewrite lookup_alter_eq, Hfound. reflexivity.
  - intros j Hj. apply lookup_alter_ne. congruence.
Qed.

(** X14: a rejected start is atomic.  Whenever [start_experiment]
    raises, the error is an HTTP error with status 404 or 400, it is 404
    exactly when the store has no such experiment, and the store, the
    task queue and the world are what they were. *)
Theorem start_rejection_atomic (s s' : State W R)
    (experiment_id user_id : string) (exc : PyExn)
    (Hraise : start_experiment safety_pre_flight_check experiment_id user_id s
              = (Raise exc, s')) :
  experiments s' = experiments s /\
  background_tasks s' = background_tasks s /\
  world s' = world s /\
  exists code detail,
    exc = HTTPException code detail /\
    (code = 404 \/ code = 400) /\
    (code = 404 <-> experiments s !! experiment_id = None).
Proof.
  rewrite start_experiment_eq in Hraise.
  destruct (experiments s !! experiment_id) as [e|].
  - destruct (negb (startable e)).
    + injection Hraise as <- <-. repeat split.
      eexists. eexists. split; [reflexivity|]. split; [right; reflexivity|].
      split; discriminate.
    + destruct (negb (safe (safety_pre_flight_check e))); [|discriminate Hraise].
      injection Hraise as <- <-. repeat split.
      eexists. eexists. split; [reflexivity|]. split; [right; reflexivity|].
      split; discriminate.
  - injection Hraise as <- <-. repeat split.
    eexists. eexists. split; [reflexivity|]. split; [left; reflexivity|].
    split; reflexivity.
Qed.

(** X15: an experiment cannot be started twice.  After an accepted
    start the experiment is PENDING, and a second start (by any user) is
    rejected with HTTP 400 and changes nothing: one accepted start
    queues exactly one task. *)
Theorem start_twice_rejected (s : State W R)
    (experiment_id user_id other_user : string) (e : Experiment R)
    (Hfound : experiments s !! experiment_id = Some e)
    (Hstartable : startable e = true)
    (Hsafe : safe (safety_pre_flight_check e) = true) :
  exists r s1,
    start_experiment safety_pre_flight_check experiment_id user_id s =
      (Return r, s1) /\
    start_experiment safety_pre_flight_check experiment_id other_user s1 =
      (Raise (HTTPException 400
                "Experiment cannot be started in current status"), s1) /\
    background_tasks s1 = background_tasks s ++ [(experiment_id, user_id)].
Proof.
  eexists. exists (pending_state experiment_id user_id s). split; [|split].
  - rewrite start_experiment_eq, Hfound, Hstartable, Hsafe. reflexivity.
  - rewrite start_experiment_eq.
    cbn [pending_state experiments]. rewrite lookup_alter_eq, Hfound.
    reflexivity.
  - reflexivity.
Qed.

(** ** execute_experiment *)

(** The ways a run can go. *)
Lemma execute_experiment_eq (experiment_id user_id : string) (s : State W R) :
  execute_experiment create experiment_id user_id s =
  match experiments s !! experiment_id with
  | None =>
      (Raise (AttributeError none_type_error),
       unknown_state experiment_id none_type_error s)
  | Some e =>
      match create (type e) with
      | inr exc =>
          (Return tt, not_created_state experiment_id e (str_exn exc) s)
      | inl executor =>
          match execute executor e (world s) with
          | (Return r, w) =>
              (Return tt, completed_state experiment_id e r w s)
          | (Raise exc, w) =>
              (Return tt, failed_state experiment_id e (str_exn exc) w s)
          | (OutOfFuel, w) => (OutOfFuel, interrupted_state experiment_id w s)
          end
      end
  end.
Proof.
  destruct (experiments s !! experiment_id) as [e|] eqn:Hfound.
  - destruct (create (type e)) as [executor|exc] eqn:Hcreate.
    + destruct (execute executor e (world s)) as [[r|exc|] w] eqn:Hexec;
        destruct s as [exps tasks active total w0 tr];
        cbn [experiments world] in Hfound, Hexec;
        unfold execute_experiment, get_experiment, completed_state, failed_state,
          interrupted_state;
        cbv beta iota delta
          [mbind M_bind bind get mret M_ret ret try_finally try_except
             experiments];
        rewrite Hfound, Hcreate;
        cbv beta iota delta
          [update_status update_results add_error log emit modify
             set_experiments active_add total_inc run_execute on_world
             mbind M_bind bind get mret M_ret ret
             experiments background_tasks active_experiments
             experiments_total world trace];
        rewrite Hexec;
        cbv beta iota delta
          [update_status update_results add_error log emit modify
             set_experiments active_add total_inc run_execute on_world
             mbind M_bind bind get mret M_ret ret
             experiments background_tasks active_experiments
             experiments_total world trace];
        rewrite <- !app_assoc; reflexivity.
    + destruct s as [exps tasks active total w0 tr].
      cbn [experiments] in Hfound.
      unfold execute_experiment, get_experiment, not_created_state.
      cbv beta iota delta
        [mbind M_bind bind get mret M_ret ret try_finally try_except
           experiments].
      rewrite Hfound, Hcreate.
      cbv beta iota delta
        [update_status add_error log emit modify raise
           set_experiments active_add total_inc
           mbind M_bind bind get mret M_ret ret
           experiments background_tasks active_experiments
           experiments_total world trace].
      rewrite <- !app_assoc. reflexivity.
  - destruct s as [exps tasks active total w0 tr].
    cbn [experiments] in Hfound.
    unfold execute_experiment, get_experiment, unknown_state.
    cbv beta iota delta
      [mbind M_bind bind get mret M_ret ret try_finally try_except
         experiments].
    rewrite Hfound.
    cbv beta iota delta
      [update_status add_error log emit modify raise
         set_experiments active_add total_inc
         mbind M_bind bind get mret M_ret ret str_exn none_type_error
         experiments background_tasks active_experiments
         experiments_total world trace].
    rewrite <- !app_assoc. reflexivity.
Qed.

(** X16: a run whose executor returns.  The orchestrator writes
    RUNNING, calls [execute], stores the result, writes COMPLETED and
    counts the completion, in that order, and returns; the error list is
    untouched, the world is as the executor left it and the active gauge
    is back at its value. *)
Theorem run_completed (s : State W R) (experiment_id user_id : string)
    (e : Experiment R) (executor : ExperimentExecutor W R) (r : R) (w : W)
    (Hfound : experiments s !! experiment_id = Some e)
    (Hcreate : create (type e) = inl executor)
    (Hreturn : execute executor e (world s) = (Return r, w)) :
  exists s',
    execute_experiment create experiment_id user_id s = (Return tt, s') /\
    experiments s' !! experiment_id =
      Some {| type := type e; environment := environment e;
              status := "COMPLETED"; results := Some r;
              errors := errors e |} /\
    world s' = w /\
    active_experiments s' = active_experiments s /\
    experiments_total s' =
      experiments_total s ++ [(type e, "COMPLETED", environment e)] /\
    trace s' = trace s ++ [EvUpdateStatus experiment_id "RUNNING";
                           EvExecute experiment_id;
                           EvUpdateResults experiment_id;
                           EvUpdateStatus experiment_id "COMPLETED";
                           EvLog "Experiment completed successfully"].
Proof.
  rewrite execute_experiment_eq, Hfound, Hcreate, Hreturn.
  eexists. split; [reflexivity|].
  cbn [completed_state experiments world active_experiments
         experiments_total trace].
  split; [|split; [reflexivity|split; [lia|split; reflexivity]]].
  rewrite !lookup_alter_eq, Hfound. reflexivity.
Qed.

(** X17: the active gauge drifts.  [ACTIVE_EXPERIMENTS.dec()] sits in
    the [finally] and runs on every path, [inc()] only once the executor
    has been created: a run that gets that far leaves the gauge where it
    was, a run for an unknown experiment or an unknown experiment type
    leaves it one lower. *)
Theorem active_gauge_drift (s s' : State W R) (experiment_id user_id : string)
    (r : Outcome unit)
    (Hrun : execute_experiment create experiment_id user_id s = (r, s'))
    (Hr : r <> OutOfFuel) :
  active_experiments s' =
    if reaches_inc create experiment_id s
    then active_experiments s
    else active_experiments s - 1.
Proof.
  unfold reaches_inc. rewrite execute_experiment_eq in Hrun.
  destruct (experiments s !! experiment_id) as [e|] eqn:Hfound.
  - destruct (create (type e)) as [executor|exc] eqn:Hcreate.
    + destruct (execute executor e (world s)) as [[res|exc|] w] eqn:Hexec.
      * injection Hrun as <- <-. cbn. lia.
      * injection Hrun as <- <-. cbn. lia.
      * injection Hrun as <- _. destruct (Hr eq_refl).
    + injection Hrun as <- <-. cbn. lia.
  - injection Hrun as <- <-. cbn. lia.
Qed.

(** X18: a run for an experiment the store does not have.  The lookup
    yields [None]; the [AttributeError] of [experiment.type] is caught,
    but the handler evaluates [experiment.type] again (the name is bound,
    to [None]) and the error escapes from the task.  No executor is
    created, the failure is not counted, and the gauge is decremented
    though it was never incremented. *)
Theorem run_unknown_experiment (s : State W R) (experiment_id user_id : string)
    (Hmissing : experiments s !! experiment_id = None) :
  exists s',
    execute_experiment create experiment_id user_id s =
      (Raise (AttributeError none_type_error), s') /\
    experiments s' = experiments s /\
    world s' = world s /\
    experiments_total s' = experiments_total s /\
    active_experiments s' = active_experiments s - 1 /\
    trace s' = trace s ++ [EvLog "Experiment execution failed";
                           EvUpdateStatus experiment_id "FAILED";
                           EvAddError experiment_id none_type_error].
Proof.
  rewrite execute_experiment_eq, Hmissing.
  eexists. split; [reflexivity|].
  cbn [unknown_state experiments world active_experiments
         experiments_total trace].
  split; [|split; [reflexivity|split; [reflexivity|split; [lia|reflexivity]]]].
  rewrite (alter_id' (set_status "FAILED") _ _ Hmissing).
  apply alter_id'. exact Hmissing.
Qed.

(** X19: a run for which the factory raises.  The error is caught: the
    experiment goes straight to FAILED with the factory's message in its
    error list, without ever being RUNNING; the executor contract is not
    entered and the world is untouched. *)
Theorem run_factory_failure (s : State W R) (experiment_id user_id : string)
    (e : Experiment R) (exc : PyExn)
    (Hfound : experiments s !! experiment_id = Some e)
    (Hcreate : create (type e) = inr exc) :
  exists s',
    execute_experiment create experiment_id user_id s = (Return tt, s') /\
    experiments s' !! experiment_id = Some (failed (str_exn exc) e) /\
    world s' = world s /\
    experiments_total s' =
      experiments_total s ++ [(type e, "FAILED", environment e)] /\
    trace s' = trace s ++ [EvLog "Experiment execution failed";
                           EvUpdateStatus experiment_id "FAILED";
                           EvAddError experiment_id (str_exn exc)].
Proof.
  rewrite execute_experiment_eq, Hfound, Hcreate.
  eexists. split; [reflexivity|].
  cbn [not_created_state experiments world experiments_total trace].
  split; [|repeat split].
  rewrite !lookup_alter_eq, Hfound. reflexivity.
Qed.

(** The status a run leaves for an experiment the store has. *)
Lemma run_status (s s' : State W R) (experiment_id user_id : string)
    (e : Experiment R) (r : Outcome unit) :
  experiments s !! experiment_id = Some e ->
  execute_experiment create experiment_id user_id s = (r, s') ->
  r <> OutOfFuel ->
  exists e',
    experiments s' !! experiment_id = Some e' /\
    (status e' = "COMPLETED" \/ status e' = "FAILED").
Proof.
  intros Hfound Hrun Hr. rewrite execute_experiment_eq, Hfound in Hrun.
  destruct (create (type e)) as [executor|exc] eqn:Hcreate.
  - destruct (execute executor e (world s)) as [[res|exc|] w] eqn:Hexec.
    + injection Hrun as <- <-. eexists. split.
      * cbn [completed_state experiments].
        rewrite !lookup_alter_eq, Hfound. reflexivity.
      * left. reflexivity.
    + injection Hrun as <- <-. eexists. split.
      * cbn [failed_state experiments].
        rewrite !lookup_alter_eq, Hfound. reflexivity.
      * right. reflexivity.
    + injection Hrun as <- _. destruct (Hr eq_refl).
  - injection Hrun as <- <-. eexists. split.
    + cbn [not_created_state experiments].
      rewrite !lookup_alter_eq, Hfound. reflexivity.
    + right. reflexivity.
Qed.

(** X20: a finished run cannot be started again.  Whatever the factory
    and the executor did, a run for an experiment of the store returns
    and leaves it COMPLETED or FAILED, and a start on it afterwards is
    rejected with HTTP 400 and changes nothing. *)
Theorem finished_run_not_startable (s s' : State W R)
    (experiment_id user_id other_user : string) (e : Experiment R)
    (r : Outcome unit)
    (Hfound : experiments s !! experiment_id = Some e)
    (Hrun : execute_experiment create experiment_id user_id s = (r, s'))
    (Hr : r <> OutOfFuel) :
  r = Return tt /\
  (exists e',
     experiments s' !! experiment_id = Some e' /\
     (status e' = "COMPLETED" \/ status e' = "FAILED")) /\
  start_experiment safety_pre_flight_check experiment_id other_user s' =
    (Raise (HTTPException 400
              "Experiment cannot be started in current status"), s').
Proof.
  destruct (run_status s s' experiment_id user_id e r Hfound Hrun Hr)
    as (e' & He' & Hstatus).
  split; [|split; [exists e'; split; assumption|]].
  - rewrite execute_experiment_eq, Hfound in Hrun.
    destruct (create (type e)) as [executor|exc]; [|congruence].
    destruct (execute executor e (world s)) as [[res|exc|] w]; congruence.
  - rewrite start_experiment_eq, He'. unfold startable.
    destruct Hstatus as [-> | ->]; reflexivity.
Qed.

(** X21: a run writes to its own experiment only.  Every other
    experiment of the store and the queue of background tasks are the
    same before and after [execute_experiment]. *)
Theorem run_frame (s s' : State W R) (experiment_id user_id : string)
    (r : Outcome unit)
    (Hrun : execute_experiment create experiment_id user_id s = (r, s'))
    (Hr : r <> OutOfFuel) :
  (forall j, j <> experiment_id -> experiments s' !! j = experiments s !! j) /\
  background_tasks s' = background_tasks s.
Proof.
  rewrite execute_experiment_eq in Hrun.
  destruct (experiments s !! experiment_id) as [e|] eqn:Hfound.
  - destruct (create (type e)) as [executor|exc] eqn:Hcreate.
    + destruct (execute executor e (world s)) as [[res|exc|] w] eqn:Hexec.
      * injection Hrun as <- <-. split; [|reflexivity]. intros j Hj.
        cbn [completed_state experiments].
        rewrite !lookup_alter_ne by congruence. reflexivity.
      * injection Hrun as <- <-. split; [|reflexivity]. intros j Hj.
        cbn [failed_state experiments].
        rewrite !lookup_alter_ne by congruence. reflexivity.
      * injection Hrun as <- _. destruct (Hr eq_refl).
    + injection Hrun as <- <-. split; [|reflexivity]. intros j Hj.
      cbn [not_created_state experiments].
      rewrite !lookup_alter_ne by congruence. reflexivity.
  - injection Hrun as <- <-. split; [|reflexivity]. intros j Hj.
    cbn [unknown_state experiments].
    rewrite !lookup_alter_ne by congruence. reflexivity.
Qed.

End Behaviour.

(** ** Concrete stores *)

Lemma start_blocked_by_preflight_witness :
  exists s',
    start_experiment never_safe "exp-1" "user-123" (store draft) =
      (Raise (HTTPException 400 "Safety check failed: CPU usage too high"), s') /\
    experiments s' = experiments (store draft) /\
    background_tasks s' = [] /\
    trace s' = [EvPreFlight "exp-1"].
Proof.
  apply (start_blocked_by_preflight never_safe (store draft)
           "exp-1" "user-123" draft).
  - apply lookup_singleton_eq.
  - reflexivity.
  - reflexivity.
Defined.

Lemma start_accepted_pending_witness :
  exists s',
    start_experiment always_safe "exp-1" "user-123" (store draft) =
      (Return {| response_message := "Experiment starting";
                 response_experiment_id := "exp-1" |}, s') /\
    experiments s' !! "exp-1" = Some (set_status "PENDING" draft) /\
    (forall j, j <> "exp-1" ->
               experiments s' !! j = experiments (store draft) !! j) /\
    background_tasks s' = [("exp-1", "user-123")] /\
    trace s' = [EvPreFlight "exp-1";
                EvAddTask "exp-1" "user-123";
                EvUpdateStatus "exp-1" "PENDING"].
Proof.
  apply (start_accepted_pending always_safe (store draft)
           "exp-1" "user-123" draft).
  - apply lookup_singleton_eq.
  - reflexivity.
  - reflexivity.
Defined.

Lemma start_rejection_atomic_witness :
  exists code detail,
    HTTPException 400 "Experiment cannot be started in current status" =
      HTTPException code detail /\
    (code = 404 \/ code = 400) /\
    (code = 404 <-> experiments (store running) !! "exp-1" = None).
Proof.
  destruct (start_rejection_atomic always_safe (store running) (store running)
              "exp-1" "user-123"
              (HTTPException 400 "Experiment cannot be started in current status"))
    as (_ & _ & _ & H); [|exact H].
  rewrite start_experiment_eq.
  change (experiments (store running) !! "exp-1")
    with (({[ "exp-1" := running ]} : gmap string (Experiment unit)) !! "exp-1").
  rewrite lookup_singleton_eq. reflexivity.
Defined.

Lemma start_twice_rejected_witness :
  exists r s1,
    start_experiment always_safe "exp-1" "user-123" (store draft) =
      (Return r, s1) /\
    start_experiment always_safe "exp-1" "user-456" s1 =
      (Raise (HTTPException 400
                "Experiment cannot be started in current status"), s1) /\
    background_tasks s1 = [("exp-1", "user-123")].
Proof.
  apply (start_twice_rejected always_safe (store draft)
           "exp-1" "user-123" "user-456" draft).
  - apply lookup_singleton_eq.
  - reflexivity.
  - reflexivity.
Defined.

Lemma run_completed_witness :
  exists s',
    execute_experiment (fun _ => inl steady) "exp-1" "user-123" (store pending) =
      (Return tt, s') /\
    experiments s' !! "exp-1" =
      Some {| type := "CPU_STRESS"; environment := "staging";
              status := "COMPLETED"; results := Some tt; errors := [] |} /\
    world s' = 0%nat /\
    active_experiments s' = 0 /\
    experiments_total s' = [("CPU_STRESS", "COMPLETED", "staging")] /\
    trace s' = [EvUpdateStatus "exp-1" "RUNNING";
                EvExecute "exp-1";
                EvUpdateResults "exp-1";
                EvUpdateStatus "exp-1" "COMPLETED";
                EvLog "Experiment completed successfully"].
Proof.
  apply (run_completed (fun _ => inl steady) (store pending)
           "exp-1" "user-123" pending steady tt 0%nat).
  - apply lookup_singleton_eq.
  - reflexivity.
  - reflexivity.
Defined.

Lemma active_gauge_drift_witness :
  active_experiments
    (not_created_state "exp-1" pending "Unknown experiment type: CPU_STRESS"
       (store pending)) = -1.
Proof.
  apply (active_gauge_drift no_factory (store pending) _
           "exp-1" "user-123" (Return tt)).
  - rewrite execute_experiment_eq.
    change (experiments (store pending) !! "exp-1")
      with (({[ "exp-1" := pending ]} : gmap string (Experiment unit)) !! "exp-1").
    rewrite lookup_singleton_eq. reflexivity.
  - discriminate.
Defined.

Lemma run_unknown_experiment_witness :
  exists s',
    execute_experiment (fun _ => inl steady) "exp-2" "user-123" (store pending) =
      (Raise (AttributeError none_type_error), s') /\
    experiments s' = experiments (store pending) /\
    world s' = 0%nat /\
    experiments_total s' = [] /\
    active_experiments s' = -1 /\
    trace s' = [EvLog "Experiment execution failed";
                EvUpdateStatus "exp-2" "FAILED";
                EvAddError "exp-2" none_type_error].
Proof.
  apply (run_unknown_experiment (fun _ => inl steady) (store pending)
           "exp-2" "user-123").
  apply lookup_singleton_ne. discriminate.
Defined.

Lemma run_factory_failure_witness :
  exists s',
    execute_experiment unreachable "exp-1" "user-123" (store pending) =
      (Return tt, s') /\
    experiments s' !! "exp-1" =
      Some (failed "503: target unreachable" pending) /\
    world s' = 0%nat /\
    experiments_total s' = [("CPU_STRESS", "FAILED", "staging")] /\
    trace s' = [EvLog "Experiment execution failed";
                EvUpdateStatus "exp-1" "FAILED";
                EvAddError "exp-1" "503: target unreachable"].
Proof.
  apply (run_factory_failure unreachable (store pending)
           "exp-1" "user-123" pending
           (HTTPException 503 "target unreachable")).
  - apply lookup_singleton_eq.
  - reflexivity.
Defined.

Lemma finished_run_not_startable_witness :
  start_experiment always_safe "exp-1" "user-456"
    (completed_state "exp-1" pending tt 0%nat (store pending)) =
    (Raise (HTTPException 400
              "Experiment cannot be started in current status"),
     completed_state "exp-1" pending tt 0%nat (store pending)).
Proof.
  destruct (finished_run_not_startable (fun _ => inl steady) always_safe
              (store pending)
              (completed_state "exp-1" pending tt 0%nat (store pending))
              "exp-1" "user-123" "user-456" pending (Return tt))
    as (_ & _ & H); [| | |exact H].
  - apply lookup_singleton_eq.
  - rewrite execute_experiment_eq.
    change (experiments (store pending) !! "exp-1")
      with (({[ "exp-1" := pending ]} : gmap string (Experiment unit)) !! "exp-1").
    rewrite lookup_singleton_eq. reflexivity.
  - discriminate.
Defined.

Lemma run_frame_witness :
  (forall j, j <> "exp-1" ->
     experiments (failed_state "exp-1" pending "injection failed" 2%nat
                    (store pending)) !! j =
     experiments (store pending) !! j) /\
  background_tasks (failed_state "exp-1" pending "injection failed" 2%nat
                      (store pending)) =
  background_tasks (store pending).
Proof.
  apply (run_frame (fun _ => inl leaky) (store pending) _
           "exp-1" "user-123" (Return tt)).
  - rewrite execute_experiment_eq.
    change (experiments (store pending) !! "exp-1")
      with (({[ "exp-1" := pending ]} : gmap string (Experiment unit)) !! "exp-1").
    rewrite lookup_singleton_eq. reflexivity.
  - discriminate.
Defined.

End OrchestratorBehaviour.
